(** * HORMIGON_ML: the prediction / validation / classification pipeline

    A shallow embedding of the model-handler code of the concrete-strength
    predictor ([model_handler.py], [model_handler_fixed.py]), of the
    helpers of [utils.py] that mirror it and of the value and colour logic
    of the gauge in [ui_components.py], with the properties the
    specification states about them and further properties read off the
    code.

    Numbers.  The Python code computes on [float] (and [int]) values.  A
    finite number is represented here by the rational it denotes, and the
    three special values of a float are kept as separate constructors, so
    that every comparison the code performs ([<=], [<], [==], the NaN
    rules, [max]/[min] of the builtins) is modelled exactly.  Arithmetic on
    finite values is exact rational arithmetic: the rounding of binary64 is
    outside this model.  The statements below therefore speak of order,
    bounds, saturation and tolerances, which the arithmetic of the code
    shares, and where one names a rounded value it does so through
    [py_round], the [round] of the source.  What the model does keep of
    binary64 is its range: the conversion of the feature values to a
    [float64] array raises [OverflowError] on an [int] beyond it. *)

From Stdlib Require Import QArith Qround Qabs ZArith List String Bool Lia Lqa.
From Stdlib Require Import Sorted Permutation.
Import ListNotations.

Open Scope string_scope.
Open Scope Z_scope.
Open Scope Q_scope.
Open Scope list_scope.

(* ================================================================== *)
(** ** Python numbers *)

Module PyNum.

Inductive pyfloat : Type :=
| Fin (q : Q)      (* a finite int or float *)
| PInf             (* float('inf') *)
| NInf             (* -float('inf') *)
| NaN.             (* float('nan') *)

Definition Qlt_bool (a b : Q) : bool := negb (Qle_bool b a).

(** [x <= y] *)
Definition py_le (x y : pyfloat) : bool :=
  match x, y with
  | NaN, _ | _, NaN => false
  | Fin a, Fin b => Qle_bool a b
  | NInf, _ => true
  | _, PInf => true
  | _, _ => false
  end.

(** [x < y] *)
Definition py_lt (x y : pyfloat) : bool :=
  match x, y with
  | NaN, _ | _, NaN => false
  | Fin a, Fin b => Qlt_bool a b
  | NInf, NInf => false
  | NInf, _ => true
  | PInf, _ => false
  | Fin _, PInf => true
  | Fin _, NInf => false
  end.

(** [x == y] *)
Definition py_eq (x y : pyfloat) : bool :=
  match x, y with
  | Fin a, Fin b => Qeq_bool a b
  | PInf, PInf | NInf, NInf => true
  | _, _ => false
  end.

(** [np.isnan], [np.isinf] *)
Definition isnan (x : pyfloat) : bool :=
  match x with NaN => true | _ => false end.

Definition isinf (x : pyfloat) : bool :=
  match x with PInf | NInf => true | _ => false end.

Definition isfinite (x : pyfloat) : bool :=
  match x with Fin _ => true | _ => false end.

(** The builtins [max(a, b)] and [min(a, b)]: the first argument is kept
    unless the second one compares strictly greater (smaller). *)
Definition py_max (a b : pyfloat) : pyfloat := if py_lt a b then b else a.
Definition py_min (a b : pyfloat) : pyfloat := if py_lt b a then b else a.

Definition py_neg (x : pyfloat) : pyfloat :=
  match x with
  | Fin a => Fin (- a)
  | PInf => NInf
  | NInf => PInf
  | NaN => NaN
  end.

Definition py_abs (x : pyfloat) : pyfloat :=
  match x with
  | Fin a => Fin (Qabs a)
  | PInf | NInf => PInf
  | NaN => NaN
  end.

Definition py_add (x y : pyfloat) : pyfloat :=
  match x, y with
  | NaN, _ | _, NaN => NaN
  | Fin a, Fin b => Fin (a + b)
  | PInf, NInf | NInf, PInf => NaN
  | PInf, _ | _, PInf => PInf
  | NInf, _ | _, NInf => NInf
  end.

Definition py_sub (x y : pyfloat) : pyfloat := py_add x (py_neg y).

(** The sign of a finite factor decides what an infinity becomes. *)
Definition scale_inf (pos : bool) (a : Q) : pyfloat :=
  if Qeq_bool a 0 then NaN
  else if Qlt_bool 0 a then (if pos then PInf else NInf)
  else (if pos then NInf else PInf).

Definition py_mul (x y : pyfloat) : pyfloat :=
  match x, y with
  | NaN, _ | _, NaN => NaN
  | Fin a, Fin b => Fin (a * b)
  | PInf, Fin a | Fin a, PInf => scale_inf true a
  | NInf, Fin a | Fin a, NInf => scale_inf false a
  | PInf, PInf | NInf, NInf => PInf
  | PInf, NInf | NInf, PInf => NInf
  end.

(** Round half to even, to an integer. *)
Definition round_half_even (q : Q) : Z :=
  let f := Qfloor q in
  match Qcompare (q - inject_Z f) (1 # 2) with
  | Lt => f
  | Gt => (f + 1)%Z
  | Eq => if Z.even f then f else (f + 1)%Z
  end.

(** [round(q, ndigits)] on a finite value. *)
Definition round_ndigits (q : Q) (ndigits : nat) : Q :=
  inject_Z (round_half_even (q * inject_Z (10 ^ Z.of_nat ndigits)))
  / inject_Z (10 ^ Z.of_nat ndigits).

(** [round(x, ndigits)]: NaN and the infinities are returned as they are. *)
Definition py_round (x : pyfloat) (ndigits : nat) : pyfloat :=
  match x with
  | Fin q => Fin (round_ndigits q ndigits)
  | _ => x
  end.

End PyNum.
Export PyNum.

(* ================================================================== *)
(** ** Dictionaries, exceptions and the log *)

Module Py.

(** A Python [dict] keeps its items in insertion order, which
    [inputs.items()] exposes: an association list. *)
Definition dict (V : Type) : Type := list (string * V).

Fixpoint dict_get {V : Type} (d : dict V) (k : string) : option V :=
  match d with
  | [] => None
  | (k', v) :: d' => if String.eqb k' k then Some v else dict_get d' k
  end.

(** [k in d] *)
Definition dict_in {V : Type} (k : string) (d : dict V) : bool :=
  match dict_get d k with Some _ => true | None => false end.

Definition keys {V : Type} (d : dict V) : list string := map fst d.

(** One entry of the error list of [validate_inputs].  Each constructor
    stands for one f-string of the source and carries the values that the
    f-string interpolates. *)
Inductive violation : Type :=
| MissingVariable (feature : string)
    (* f"Falta la variable: {feature}" *)
| OutOfRange (feature : string) (value min_val max_val : pyfloat)
    (* f"{feature}: {value} fuera del rango válido [{min_val}, {max_val}]" *)
| OutOfExtendedRange (feature : string) (value extended_min extended_max : pyfloat).
    (* f"{feature}: {value} fuera del rango extendido [{extended_min:.0f}, {extended_max:.0f}]" *)


Inductive exn : Type :=
| RuntimeError (msg : string)
| ValueError (msg : string)
| InvalidInputs (errors : list violation)
    (* ValueError(f"Inputs inválidos: {', '.join(errors)}") *)
| KeyError (key : string)
| ZeroDivisionError
| OverflowError.
    (* OverflowError("int too large to convert to float") *)

(** What the handlers write to [logger]. *)
Inductive log_record : Type :=
| WarningInputs (errors : list violation)
    (* logger.warning(f"Inputs con advertencias: {', '.join(errors)}") *)
| WarningOutOfNormalRange (prediction : pyfloat)
    (* logger.warning(f"Predicción fuera de rango normal: {prediction:.2f} kg/cm²") *)
| WarningNegativeCorrected (prediction : pyfloat)
    (* logger.warning(f"Predicción negativa corregida: {prediction:.2f}") *)
| InfoSuccess (prediction : pyfloat)
    (* logger.info(f"Prediccion exitosa: {prediction:.2f} kg/cm²") *)
| ErrorPrediction (e : exn)
    (* logger.error(f"Error en prediccion: {e}") *)
| WarningZeroCement.
    (* logger.warning("División por cero en cálculo A/C, cemento = 0") *)

Inductive outcome (A : Type) : Type :=
| Returns (a : A)
| Raises (e : exn).
Arguments Returns {A} a.
Arguments Raises {A} e.

(** A computation: the records it logged, and how it ended. *)
Definition Py (A : Type) : Type := (list log_record * outcome A)%type.

Definition ret {A : Type} (a : A) : Py A := ([], Returns a).
Definition raise {A : Type} (e : exn) : Py A := ([], Raises e).
Definition log (r : log_record) : Py unit := ([r], Returns tt).

Definition bind {A B : Type} (m : Py A) (k : A -> Py B) : Py B :=
  match m with
  | (l, Raises e) => (l, Raises e)
  | (l, Returns a) => let (l', o) := k a in (l ++ l', o)
  end.

(** [try: m  except Exception as e: handler e] *)
Definition try_except {A : Type} (m : Py A) (handler : exn -> Py A) : Py A :=
  match m with
  | (l, Raises e) => let (l', o) := handler e in (l ++ l', o)
  | (l, Returns a) => (l, Returns a)
  end.

Notation "x <- m ;; k" := (bind m (fun x => k))
  (at level 61, m at next level, right associativity).
Notation "m ;; k" := (bind m (fun _ => k))
  (at level 61, right associativity).

(** [d[k]] *)
Definition getitem (d : dict pyfloat) (k : string) : Py pyfloat :=
  match dict_get d k with
  | Some v => ret v
  | None => raise (KeyError k)
  end.

(** [[d[k] for k in ks]] *)
Fixpoint getitems (d : dict pyfloat) (ks : list string) : Py (list pyfloat) :=
  match ks with
  | [] => ret []
  | k :: ks' => v <- getitem d k ;; vs <- getitems d ks' ;; ret (v :: vs)
  end.

(** The magnitude from which an [int] no longer converts to a binary64
    float: the midpoint between the largest float, [2^1024 - 2^971], and
    [2^1024], which rounds up.  No finite float reaches it. *)
Definition FLOAT64_LIMIT : Q := inject_Z (2 ^ 1024 - 2 ^ 970).

Definition float64_overflows (x : pyfloat) : bool :=
  match x with
  | Fin q => Qle_bool FLOAT64_LIMIT (Qabs q)
  | _ => false
  end.

(** [np.array(values, dtype=np.float64)]: every value is converted to a
    binary64 float, and an [int] that is too large raises.  (The array
    keeps the values as they are: [model] below stands for [predict] on
    the array built from them.) *)
Definition np_array_float64 (values : list pyfloat) : Py (list pyfloat) :=
  if existsb float64_overflows values then raise OverflowError else ret values.

(** [x / y] on Python numbers, for floats and for ints within the range of
    binary64: a zero divisor raises. *)
Definition py_truediv (x y : pyfloat) : Py pyfloat :=
  match y with
  | Fin b =>
      if Qeq_bool b 0 then raise ZeroDivisionError
      else match x with
           | Fin a => ret (Fin (a / b))
           | PInf => ret (scale_inf true b)
           | NInf => ret (scale_inf false b)
           | NaN => ret NaN
           end
  | PInf | NInf => match x with Fin _ => ret (Fin 0) | _ => ret NaN end
  | NaN => ret NaN
  end.

(** The loaded artifact: [model.predict] on one sample, and the part of
    the metadata document the handlers read. *)
Record Metadata : Type := {
  variables_entrada : list string;   (* metadata['modelo_info']['variables_entrada'] *)
  estabilidad : pyfloat              (* metadata['metricas']['estabilidad'] *)
}.

(** The eight field names of a mix design, in the order the model was
    trained with: the list the metadata document of the application
    records, and the keys of both [VALID_RANGES] tables. *)
Definition CANONICAL_FEATURES : list string :=
  [ "Cemento_kg_m3";
    "Escoria_Alto_Horno_kg_m3";
    "Ceniza_Volante_kg_m3";
    "Agua_kg_m3";
    "Superplastificante_kg_m3";
    "Agregado_Grueso_kg_m3";
    "Agregado_Fino_kg_m3";
    "Edad_dias" ].

Record PredictionResult : Type := {
  resistencia_predicha_kg_cm2 : pyfloat;
  relacion_agua_cemento : pyfloat;
  total_cementicios_kg_m3 : pyfloat;
  clasificacion_nec : string;
  color_clasificacion : string;
  descripcion_nec : string;
  confianza_prediccion : pyfloat;
  edad_ensayo_dias : pyfloat;
  timestamp : string
}.

(** A row of [NEC_CLASSIFICATION]: [(min_val, max_val)] and its triple. *)
Definition band : Type := ((pyfloat * pyfloat) * (string * string * string))%type.

(** The components of a [(classification, color, description)] triple. *)
Definition triple_label (t : string * string * string) : string := fst (fst t).
Definition triple_color (t : string * string * string) : string := snd (fst t).
Definition triple_description (t : string * string * string) : string := snd t.

(** The test of the loop of [_classify_nec]: [min_val <= strength < max_val]. *)
Definition in_band (b : band) (strength : pyfloat) : bool :=
  let '((min_val, max_val), _) := b in
  py_le min_val strength && py_lt strength max_val.

(** The loop of [_classify_nec]: the first band, in table order, with
    [min_val <= strength < max_val]; the fallback triple after the loop. *)
Fixpoint classify_in (table : list band) (strength : pyfloat)
  : string * string * string :=
  match table with
  | [] => ("Sin Clasificar", "#6b7280", "Valor fuera de rangos estándar")
  | ((min_val, max_val), triple) :: rest =>
      if py_le min_val strength && py_lt strength max_val then triple
      else classify_in rest strength
  end.

End Py.
Export Py.

(** The handler object after [__init__]: the unpickled model (its
    single-sample [predict], taken as a function of the sample: what the
    model answers, not an exception it might raise), the metadata document
    and the [is_loaded] flag.  The methods below read [model] and
    [metadata] only when [is_loaded] holds, as the source does. *)
Record ConcreteModelHandler : Type := {
  model : list pyfloat -> pyfloat;
  metadata : Metadata;
  is_loaded : bool
}.

(* ================================================================== *)
(** ** model_handler.py *)

Module ModelHandler.

Definition VALID_RANGES : dict (pyfloat * pyfloat) :=
  [ ("Cemento_kg_m3", (Fin 150, Fin 500));
    ("Escoria_Alto_Horno_kg_m3", (Fin 0, Fin 300));
    ("Ceniza_Volante_kg_m3", (Fin 0, Fin 200));
    ("Agua_kg_m3", (Fin 130, Fin 220));
    ("Superplastificante_kg_m3", (Fin 0, Fin 25));
    ("Agregado_Grueso_kg_m3", (Fin 850, Fin 1100));
    ("Agregado_Fino_kg_m3", (Fin 650, Fin 900));
    ("Edad_dias", (Fin 1, Fin 365)) ].

Definition NEC_CLASSIFICATION : list band :=
  [ ((Fin 0, Fin 210), ("Baja Resistencia", "#ef4444", "Uso estructural limitado"));
    ((Fin 210, Fin 280), ("Resistencia Normal", "#f97316", "Uso estructural común"));
    ((Fin 280, Fin 420), ("Alta Resistencia", "#22c55e", "Estructuras exigentes"));
    ((Fin 420, PInf), ("Ultra Alta Resistencia", "#3b82f6", "Estructuras especiales")) ].

(** [self.feature_names = self.metadata['modelo_info']['variables_entrada']],
    assigned by a successful load.  (After a failed load the attribute is
    [None] and [validate_inputs] cannot iterate it; the statements about
    [validate_inputs] below are about a loaded handler.) *)
Definition feature_names (self : ConcreteModelHandler) : list string :=
  variables_entrada (metadata self).

Definition validate_inputs (self : ConcreteModelHandler) (inputs : dict pyfloat)
  : bool * list violation :=
  let errors := [] in
  let errors :=
    fold_left
      (fun errors feature =>
         if negb (dict_in feature inputs)
         then errors ++ [MissingVariable feature]
         else errors)
      (feature_names self) errors in
  let errors :=
    fold_left
      (fun errors (item : string * pyfloat) =>
         let (feature, value) := item in
         match dict_get VALID_RANGES feature with
         | Some (min_val, max_val) =>
             if negb (py_le min_val value && py_le value max_val)
             then errors ++ [OutOfRange feature value min_val max_val]
             else errors
         | None => errors
         end)
      inputs errors in
  (Nat.eqb (List.length errors) 0, errors).

Definition _classify_nec (strength : pyfloat) : string * string * string :=
  classify_in NEC_CLASSIFICATION strength.

(** [max(0.6, min(0.95, 1 - estabilidad * 10))] *)
Definition confidence_of (estabilidad : pyfloat) : pyfloat :=
  py_max (Fin (6 # 10))
         (py_min (Fin (95 # 100)) (py_sub (Fin 1) (py_mul estabilidad (Fin 10)))).

(** [now] is what [datetime.now().isoformat()] reads from the clock during
    the call. *)
Definition predict_strength (self : ConcreteModelHandler)
    (inputs : dict pyfloat) (now : string) : Py PredictionResult :=
  if negb (is_loaded self)
  then raise (RuntimeError "Modelo no cargado correctamente")
  else
    let (is_valid, errors) := validate_inputs self inputs in
    if negb is_valid then raise (InvalidInputs errors)
    else
      try_except
        (feature_values <- getitems inputs (feature_names self) ;;
         X <- np_array_float64 feature_values ;;
         if existsb isnan X || existsb isinf X
         then raise (ValueError "Los datos contienen valores inválidos (NaN o infinito)")
         else
         if existsb (fun x => py_lt x (Fin 0)) X
         then raise (ValueError "Los datos no pueden ser negativos")
         else
         let prediction := model self X in
         if isnan prediction || isinf prediction
         then raise (ValueError "La predicción resultó en un valor inválido")
         else
         (if negb (py_le (Fin 5) prediction && py_le prediction (Fin 1000))
          then log (WarningOutOfNormalRange prediction)
          else ret tt) ;;
         agua <- getitem inputs "Agua_kg_m3" ;;
         cemento <- getitem inputs "Cemento_kg_m3" ;;
         water_cement_ratio <- py_truediv agua cemento ;;
         cemento' <- getitem inputs "Cemento_kg_m3" ;;
         escoria <- getitem inputs "Escoria_Alto_Horno_kg_m3" ;;
         ceniza <- getitem inputs "Ceniza_Volante_kg_m3" ;;
         let total_cementitious := py_add (py_add cemento' escoria) ceniza in
         let '(nec_class, nec_color, nec_description) := _classify_nec prediction in
         let confidence := confidence_of (estabilidad (metadata self)) in
         edad <- getitem inputs "Edad_dias" ;;
         let result :=
           {| resistencia_predicha_kg_cm2 := py_round prediction 2;
              relacion_agua_cemento := py_round water_cement_ratio 3;
              total_cementicios_kg_m3 := py_round total_cementitious 1;
              clasificacion_nec := nec_class;
              color_clasificacion := nec_color;
              descripcion_nec := nec_description;
              confianza_prediccion := py_round confidence 3;
              edad_ensayo_dias := edad;
              timestamp := now |} in
         log (InfoSuccess prediction) ;;
         ret result)
        (fun e => log (ErrorPrediction e) ;; raise e).

End ModelHandler.

(* ================================================================== *)
(** ** model_handler_fixed.py *)

Module ModelHandlerFixed.

Definition VALID_RANGES : dict (pyfloat * pyfloat) :=
  [ ("Cemento_kg_m3", (Fin 102, Fin 540));
    ("Escoria_Alto_Horno_kg_m3", (Fin 0, Fin 359));
    ("Ceniza_Volante_kg_m3", (Fin 0, Fin 200));
    ("Agua_kg_m3", (Fin 122, Fin 247));
    ("Superplastificante_kg_m3", (Fin 0, Fin 32));
    ("Agregado_Grueso_kg_m3", (Fin 801, Fin 1145));
    ("Agregado_Fino_kg_m3", (Fin 594, Fin 993));
    ("Edad_dias", (Fin 1, Fin 365)) ].

Definition NEC_CLASSIFICATION : list band :=
  [ ((Fin 0, Fin 140), ("Baja Resistencia", "#ef4444", "Uso estructural limitado"));
    ((Fin 140, Fin 280), ("Resistencia Normal", "#f97316", "Uso estructural común"));
    ((Fin 280, Fin 420), ("Alta Resistencia", "#22c55e", "Estructuras exigentes"));
    ((Fin 420, PInf), ("Ultra Alta Resistencia", "#3b82f6", "Estructuras especiales")) ].

(** The list [__init__] assigns, independent of the metadata. *)
Definition feature_names (self : ConcreteModelHandler) : list string :=
  [ "Cemento_kg_m3";
    "Escoria_Alto_Horno_kg_m3";
    "Ceniza_Volante_kg_m3";
    "Agua_kg_m3";
    "Superplastificante_kg_m3";
    "Agregado_Grueso_kg_m3";
    "Agregado_Fino_kg_m3";
    "Edad_dias" ].

Definition validate_inputs (self : ConcreteModelHandler) (inputs : dict pyfloat)
  : bool * list violation :=
  let errors := [] in
  let errors :=
    fold_left
      (fun errors feature =>
         if negb (dict_in feature inputs)
         then errors ++ [MissingVariable feature]
         else errors)
      (feature_names self) errors in
  let errors :=
    fold_left
      (fun errors (item : string * pyfloat) =>
         let (feature, value) := item in
         match dict_get VALID_RANGES feature with
         | Some (min_val, max_val) =>
             let margin := py_mul (py_sub max_val min_val) (Fin (1 # 10)) in
             let extended_min := py_max (Fin 0) (py_sub min_val margin) in
             let extended_max := py_add max_val margin in
             if negb (py_le extended_min value && py_le value extended_max)
             then errors ++ [OutOfExtendedRange feature value extended_min extended_max]
             else errors
         | None => errors
         end)
      inputs errors in
  (Nat.eqb (List.length errors) 0, errors).

Definition _classify_nec (strength : pyfloat) : string * string * string :=
  classify_in NEC_CLASSIFICATION strength.

(** [max(0.7, min(0.95, 1 - estabilidad))] *)
Definition confidence_of (estabilidad : pyfloat) : pyfloat :=
  py_max (Fin (7 # 10)) (py_min (Fin (95 # 100)) (py_sub (Fin 1) estabilidad)).

Definition predict_strength (self : ConcreteModelHandler)
    (inputs : dict pyfloat) (now : string) : Py PredictionResult :=
  if negb (is_loaded self)
  then raise (RuntimeError "Modelo no cargado correctamente")
  else
    let (is_valid, errors) := validate_inputs self inputs in
    (if negb is_valid then log (WarningInputs errors) else ret tt) ;;
    try_except
      (feature_values <- getitems inputs (feature_names self) ;;
       input_array <- np_array_float64 feature_values ;;
       let prediction := model self input_array in
       if isnan prediction || isinf prediction
       then raise (ValueError "Predicción resultó en valor inválido")
       else
       prediction <-
         (if py_lt prediction (Fin 0)
          then let prediction := py_abs prediction in
               log (WarningNegativeCorrected prediction) ;; ret prediction
          else ret prediction) ;;
       agua <- getitem inputs "Agua_kg_m3" ;;
       cemento <- getitem inputs "Cemento_kg_m3" ;;
       water_cement_ratio <- py_truediv agua cemento ;;
       cemento' <- getitem inputs "Cemento_kg_m3" ;;
       escoria <- getitem inputs "Escoria_Alto_Horno_kg_m3" ;;
       ceniza <- getitem inputs "Ceniza_Volante_kg_m3" ;;
       let total_cementitious := py_add (py_add cemento' escoria) ceniza in
       let '(nec_class, nec_color, nec_description) := _classify_nec prediction in
       let confidence := confidence_of (estabilidad (metadata self)) in
       edad <- getitem inputs "Edad_dias" ;;
       let result :=
         {| resistencia_predicha_kg_cm2 := py_round prediction 2;
            relacion_agua_cemento := py_round water_cement_ratio 3;
            total_cementicios_kg_m3 := py_round total_cementitious 1;
            clasificacion_nec := nec_class;
            color_clasificacion := nec_color;
            descripcion_nec := nec_description;
            confianza_prediccion := py_round confidence 3;
            edad_ensayo_dias := edad;
            timestamp := now |} in
       log (InfoSuccess prediction) ;;
       ret result)
      (fun e => log (ErrorPrediction e) ;; raise e).

End ModelHandlerFixed.

(* ================================================================== *)
(** ** utils.py *)

Module Utils.

Definition get_nec_color (resistance : pyfloat) : string :=
  if py_lt resistance (Fin 210) then "#ef4444"
  else if py_lt resistance (Fin 280) then "#f97316"
  else if py_lt resistance (Fin 420) then "#22c55e"
  else "#3b82f6".

Definition calculate_water_cement_ratio (water cement : pyfloat) : Py pyfloat :=
  if py_eq cement (Fin 0)
  then log WarningZeroCement ;; ret (Fin 0)
  else py_truediv water cement.

End Utils.

(* ================================================================== *)
(** ** Concrete artifacts and mixes *)

Module Samples.

(** A loaded handler whose model answers [prediction] on every sample and
    whose metadata records the stability [cv_std]. *)
Definition constant_handler (prediction cv_std : pyfloat) : ConcreteModelHandler :=
  {| model := fun _ => prediction;
     metadata := {| variables_entrada := CANONICAL_FEATURES;
                    estabilidad := cv_std |};
     is_loaded := true |}.

(** The preset "C25 - Estructural" of [get_preset_mixes]. *)
Definition C25_Estructural : dict pyfloat :=
  [ ("Cemento_kg_m3", Fin 320);
    ("Escoria_Alto_Horno_kg_m3", Fin 80);
    ("Ceniza_Volante_kg_m3", Fin 20);
    ("Agua_kg_m3", Fin 165);
    ("Superplastificante_kg_m3", Fin 4);
    ("Agregado_Grueso_kg_m3", Fin 975);
    ("Agregado_Fino_kg_m3", Fin 775);
    ("Edad_dias", Fin 28) ].

(** Every field at the lower bound of [ModelHandler.VALID_RANGES]. *)
Definition all_at_min : dict pyfloat :=
  [ ("Cemento_kg_m3", Fin 150);
    ("Escoria_Alto_Horno_kg_m3", Fin 0);
    ("Ceniza_Volante_kg_m3", Fin 0);
    ("Agua_kg_m3", Fin 130);
    ("Superplastificante_kg_m3", Fin 0);
    ("Agregado_Grueso_kg_m3", Fin 850);
    ("Agregado_Fino_kg_m3", Fin 650);
    ("Edad_dias", Fin 1) ].





End Samples.

(* ================================================================== *)
(** ** Properties of a band table and of its classifier *)

Module BandSpec.

(** The shape both [NEC_CLASSIFICATION] tables have: four contiguous
    half-open bands from 0 upwards, the last one unbounded. *)
Definition four_bands (a b c : Q) (t1 t2 t3 t4 : string * string * string)
  : list band :=
  [ ((Fin 0, Fin a), t1); ((Fin a, Fin b), t2);
    ((Fin b, Fin c), t3); ((Fin c, PInf), t4) ].

(** [classify] answers, at [x], the triple of a band of [table] that
    contains [x], and no other band of [table] contains [x]. *)
Definition classifies_into_one_band (table : list band)
    (classify : pyfloat -> string * string * string) (x : pyfloat) : Prop :=
  exists b0, In b0 table /\ in_band b0 x = true /\ classify x = snd b0 /\
             forall b', In b' table -> in_band b' x = true -> b' = b0.

(** If [q] equals the lower bound of a band of [table], [classify]
    answers the triple of that very band. *)
Definition lower_bound_inclusive (table : list band)
    (classify : pyfloat -> string * string * string) (q : Q) : Prop :=
  forall b0 lo, In b0 table -> fst (fst b0) = Fin lo -> q == lo ->
                classify (Fin q) = snd b0.

End BandSpec.
Export BandSpec.

(* ================================================================== *)
(** ** Properties of the error list of the validator *)

Module ValidationSpec.





(** What the second loop of [validate_inputs] of [model_handler.py]
    appends for one item of [inputs]. *)
Definition strict_range_violation (item : string * pyfloat) : list violation :=
  let (feature, value) := item in
  match dict_get ModelHandler.VALID_RANGES feature with
  | Some (min_val, max_val) =>
      if py_le min_val value && py_le value max_val then []
      else [OutOfRange feature value min_val max_val]
  | None => []
  end.

(** The extended bounds [validate_inputs] of [model_handler_fixed.py]
    derives from a recorded range. *)
Definition extended_range (min_val max_val : pyfloat) : pyfloat * pyfloat :=
  let margin := py_mul (py_sub max_val min_val) (Fin (1 # 10)) in
  (py_max (Fin 0) (py_sub min_val margin), py_add max_val margin).

(** What the second loop of [validate_inputs] of [model_handler_fixed.py]
    appends for one item of [inputs]. *)
Definition extended_range_violation (item : string * pyfloat) : list violation :=
  let (feature, value) := item in
  match dict_get ModelHandlerFixed.VALID_RANGES feature with
  | Some (min_val, max_val) =>
      let (extended_min, extended_max) := extended_range min_val max_val in
      if py_le extended_min value && py_le value extended_max then []
      else [OutOfExtendedRange feature value extended_min extended_max]
  | None => []
  end.




(** The features [inputs] lacks, in the order of [names]. *)
Definition missing_features (names : list string) (inputs : dict pyfloat)
  : list string :=
  filter (fun f => negb (dict_in f inputs)) names.

End ValidationSpec.
Export ValidationSpec.

(* ================================================================== *)
(** ** Reading a computation *)

Module PredictSpec.

(** What a call returned, if it returned. *)
Definition returned {A : Type} (m : Py A) : option A :=
  match snd m with Returns a => Some a | Raises _ => None end.

(** What a call raised, if it raised. *)
Definition raised {A : Type} (m : Py A) : option exn :=
  match snd m with Returns _ => None | Raises e => Some e end.

(** What a call wrote to the log. *)
Definition logged {A : Type} (m : Py A) : list log_record := fst m.

(** The array the model is asked about:
    [np.array([inputs[f] for f in names], dtype=np.float64)]. *)
Definition feature_vector (inputs : dict pyfloat) (names : list string)
  : option (list pyfloat) :=
  returned (feature_values <- getitems inputs names ;;
            np_array_float64 feature_values).

(** The record both handlers build at the end of [predict_strength], from
    the triple of the classifier, the confidence, the prediction, the
    water/cement ratio, the three binder masses, the age and the clock. *)
Definition result_record (nec : string * string * string)
    (confidence prediction water_cement_ratio cemento escoria ceniza edad : pyfloat)
    (now : string) : PredictionResult :=
  {| resistencia_predicha_kg_cm2 := py_round prediction 2;
     relacion_agua_cemento := py_round water_cement_ratio 3;
     total_cementicios_kg_m3 := py_round (py_add (py_add cemento escoria) ceniza) 1;
     clasificacion_nec := triple_label nec;
     color_clasificacion := triple_color nec;
     descripcion_nec := triple_description nec;
     confianza_prediccion := py_round confidence 3;
     edad_ensayo_dias := edad;
     timestamp := now |}.

(** Two finite numbers that differ by [tol] at most. *)
Definition py_close (tol : Q) (x y : pyfloat) : bool :=
  match x, y with
  | Fin a, Fin b => Qle_bool (Qabs (a - b)) tol
  | _, _ => false
  end.

(** The prediction [model_handler_fixed.py] goes on with: a negative raw
    prediction is replaced by its absolute value. *)
Definition corrected (prediction : pyfloat) : pyfloat :=
  if py_lt prediction (Fin 0) then py_abs prediction else prediction.

(** What [predict_strength] of [model_handler.py] logs when it returns. *)
Definition strict_log (prediction : pyfloat) : list log_record :=
  (if negb (py_le (Fin 5) prediction && py_le prediction (Fin 1000))
   then [WarningOutOfNormalRange prediction] else [])
  ++ [InfoSuccess prediction].

(** What [predict_strength] of [model_handler_fixed.py] logs inside its
    [try] block when it returns. *)
Definition fixed_log (prediction : pyfloat) : list log_record :=
  (if py_lt prediction (Fin 0)
   then [WarningNegativeCorrected (py_abs prediction)] else [])
  ++ [InfoSuccess (corrected prediction)].

(** What it logs before the [try] block. *)
Definition fixed_warning (validation : bool * list violation) : list log_record :=
  if negb (fst validation) then [WarningInputs (snd validation)] else [].

(** A result with its timestamp replaced. *)
Definition with_timestamp (t : string) (r : PredictionResult) : PredictionResult :=
  {| resistencia_predicha_kg_cm2 := resistencia_predicha_kg_cm2 r;
     relacion_agua_cemento := relacion_agua_cemento r;
     total_cementicios_kg_m3 := total_cementicios_kg_m3 r;
     clasificacion_nec := clasificacion_nec r;
     color_clasificacion := color_clasificacion r;
     descripcion_nec := descripcion_nec r;
     confianza_prediccion := confianza_prediccion r;
     edad_ensayo_dias := edad_ensayo_dias r;
     timestamp := t |}.

(** A call seen at another clock reading: same log, same exception, and a
    returned record that differs in the timestamp only. *)
Definition at_clock (t : string) (m : Py PredictionResult) : Py PredictionResult :=
  match m with
  | (l, Returns r) => (l, Returns (with_timestamp t r))
  | (l, Raises e) => (l, Raises e)
  end.

End PredictSpec.
Export PredictSpec.

(* ================================================================== *)
(** ** The rest of the handlers: presets and feature importances *)

Module HandlerCatalog.

(** [d[k] = v]: the value of an existing key is replaced where it stands,
    a new key goes to the end. *)
Fixpoint dict_set {V : Type} (d : dict V) (k : string) (v : V) : dict V :=
  match d with
  | [] => [(k, v)]
  | (k', v') :: d' =>
      if String.eqb k' k then (k', v) :: d' else (k', v') :: dict_set d' k v
  end.

(** [dict(items)] *)
Definition dict_of_items {V : Type} (items : list (string * V)) : dict V :=
  fold_left (fun d (kv : string * V) => dict_set d (fst kv) (snd kv)) items [].

(** [get_preset_mixes] of [model_handler.py]. *)
Definition get_preset_mixes : dict (dict pyfloat) :=
  [ ("C20 - Uso General",
     [ ("Cemento_kg_m3", Fin 280);
       ("Escoria_Alto_Horno_kg_m3", Fin 70);
       ("Ceniza_Volante_kg_m3", Fin 0);
       ("Agua_kg_m3", Fin 175);
       ("Superplastificante_kg_m3", Fin (25 # 10));
       ("Agregado_Grueso_kg_m3", Fin 950);
       ("Agregado_Fino_kg_m3", Fin 750);
       ("Edad_dias", Fin 28) ]);
    ("C25 - Estructural",
     [ ("Cemento_kg_m3", Fin 320);
       ("Escoria_Alto_Horno_kg_m3", Fin 80);
       ("Ceniza_Volante_kg_m3", Fin 20);
       ("Agua_kg_m3", Fin 165);
       ("Superplastificante_kg_m3", Fin 4);
       ("Agregado_Grueso_kg_m3", Fin 975);
       ("Agregado_Fino_kg_m3", Fin 775);
       ("Edad_dias", Fin 28) ]);
    ("C30 - Alta Resistencia",
     [ ("Cemento_kg_m3", Fin 380);
       ("Escoria_Alto_Horno_kg_m3", Fin 95);
       ("Ceniza_Volante_kg_m3", Fin 45);
       ("Agua_kg_m3", Fin 155);
       ("Superplastificante_kg_m3", Fin (65 # 10));
       ("Agregado_Grueso_kg_m3", Fin 1000);
       ("Agregado_Fino_kg_m3", Fin 800);
       ("Edad_dias", Fin 28) ]);
    ("Hormigón Joven - 7 días",
     [ ("Cemento_kg_m3", Fin 350);
       ("Escoria_Alto_Horno_kg_m3", Fin 0);
       ("Ceniza_Volante_kg_m3", Fin 0);
       ("Agua_kg_m3", Fin 170);
       ("Superplastificante_kg_m3", Fin (35 # 10));
       ("Agregado_Grueso_kg_m3", Fin 980);
       ("Agregado_Fino_kg_m3", Fin 780);
       ("Edad_dias", Fin 7) ]);
    ("Hormigón Maduro - 90 días",
     [ ("Cemento_kg_m3", Fin 300);
       ("Escoria_Alto_Horno_kg_m3", Fin 150);
       ("Ceniza_Volante_kg_m3", Fin 75);
       ("Agua_kg_m3", Fin 160);
       ("Superplastificante_kg_m3", Fin 5);
       ("Agregado_Grueso_kg_m3", Fin 950);
       ("Agregado_Fino_kg_m3", Fin 750);
       ("Edad_dias", Fin 90) ]) ].

(** [get_preset_mixes] of [model_handler_fixed.py]. *)
Definition get_preset_mixes_fixed : dict (dict pyfloat) :=
  [ ("C20 - Uso General",
     [ ("Cemento_kg_m3", Fin 280);
       ("Escoria_Alto_Horno_kg_m3", Fin 70);
       ("Ceniza_Volante_kg_m3", Fin 0);
       ("Agua_kg_m3", Fin 175);
       ("Superplastificante_kg_m3", Fin (25 # 10));
       ("Agregado_Grueso_kg_m3", Fin 950);
       ("Agregado_Fino_kg_m3", Fin 750);
       ("Edad_dias", Fin 28) ]);
    ("C25 - Estructural",
     [ ("Cemento_kg_m3", Fin 320);
       ("Escoria_Alto_Horno_kg_m3", Fin 80);
       ("Ceniza_Volante_kg_m3", Fin 20);
       ("Agua_kg_m3", Fin 165);
       ("Superplastificante_kg_m3", Fin 4);
       ("Agregado_Grueso_kg_m3", Fin 975);
       ("Agregado_Fino_kg_m3", Fin 775);
       ("Edad_dias", Fin 28) ]);
    ("Test del Notebook",
     [ ("Cemento_kg_m3", Fin 200);
       ("Escoria_Alto_Horno_kg_m3", Fin 200);
       ("Ceniza_Volante_kg_m3", Fin 100);
       ("Agua_kg_m3", Fin 130);
       ("Superplastificante_kg_m3", Fin 25);
       ("Agregado_Grueso_kg_m3", Fin 1000);
       ("Agregado_Fino_kg_m3", Fin 700);
       ("Edad_dias", Fin 28) ]);
    ("C30 - Alta Resistencia",
     [ ("Cemento_kg_m3", Fin 380);
       ("Escoria_Alto_Horno_kg_m3", Fin 95);
       ("Ceniza_Volante_kg_m3", Fin 45);
       ("Agua_kg_m3", Fin 155);
       ("Superplastificante_kg_m3", Fin (65 # 10));
       ("Agregado_Grueso_kg_m3", Fin 1000);
       ("Agregado_Fino_kg_m3", Fin 800);
       ("Edad_dias", Fin 28) ]) ].

(** The [name_mapping] of [_get_friendly_name], the same in both files. *)
Definition name_mapping : dict string :=
  [ ("Cemento_kg_m3", "Cemento");
    ("Escoria_Alto_Horno_kg_m3", "Escoria de Alto Horno");
    ("Ceniza_Volante_kg_m3", "Ceniza Volante");
    ("Agua_kg_m3", "Agua");
    ("Superplastificante_kg_m3", "Superplastificante");
    ("Agregado_Grueso_kg_m3", "Agregado Grueso");
    ("Agregado_Fino_kg_m3", "Agregado Fino");
    ("Edad_dias", "Edad de Curado") ].

(** [name_mapping.get(technical_name, technical_name)] *)
Definition _get_friendly_name (technical_name : string) : string :=
  match dict_get name_mapping technical_name with
  | Some friendly => friendly
  | None => technical_name
  end.

(** [zip(names, importances)], filling [importance_dict] in that order. *)
Definition importance_dict (names : list string) (importances : list pyfloat)
  : dict pyfloat :=
  fold_left
    (fun (d : dict pyfloat) (item : string * pyfloat) =>
       let (name, importance) := item in
       let friendly_name := _get_friendly_name name in
       dict_set d friendly_name (py_round importance 4))
    (combine names importances) [].

(** One step of a stable sort by decreasing value: [x] goes behind every
    item whose value is not smaller than its own. *)
Fixpoint insert_desc (x : string * pyfloat) (l : list (string * pyfloat))
  : list (string * pyfloat) :=
  match l with
  | [] => [x]
  | y :: l' =>
      if py_lt (snd y) (snd x) then x :: y :: l' else y :: insert_desc x l'
  end.

(** [sorted(items, key=lambda x: x[1], reverse=True)]: the stable sort by
    decreasing value (items of equal value keep their order). *)
Definition sorted_desc (items : list (string * pyfloat)) : list (string * pyfloat) :=
  fold_left (fun acc x => insert_desc x acc) items [].

(** [get_feature_importance], for the names the handler holds.
    [feature_importances_] is the attribute of the loaded model, [None]
    when the model has no such attribute. *)
Definition get_feature_importance_of (names : list string) (loaded : bool)
    (feature_importances_ : option (list pyfloat)) : dict pyfloat :=
  match feature_importances_ with
  | Some importances =>
      if negb loaded then []
      else dict_of_items (sorted_desc (importance_dict names importances))
  | None => []
  end.

(** [get_feature_importance] of [model_handler.py] and of
    [model_handler_fixed.py]. *)
Definition get_feature_importance (self : ConcreteModelHandler)
    (feature_importances_ : option (list pyfloat)) : dict pyfloat :=
  get_feature_importance_of (ModelHandler.feature_names self) (is_loaded self)
    feature_importances_.

Definition get_feature_importance_fixed (self : ConcreteModelHandler)
    (feature_importances_ : option (list pyfloat)) : dict pyfloat :=
  get_feature_importance_of (ModelHandlerFixed.feature_names self) (is_loaded self)
    feature_importances_.

(** The value order the sort leaves behind: no item is followed by one of
    greater value. *)
Definition value_ge (a b : string * pyfloat) : Prop := py_le (snd b) (snd a) = true.

End HandlerCatalog.
Export HandlerCatalog.

(* ================================================================== *)
(** ** utils.py and ui_components.py: the remaining arithmetic *)

Module Helpers.

(** [calculate_total_cementitious] of [utils.py]. *)
Definition calculate_total_cementitious (cement slag fly_ash : pyfloat) : pyfloat :=
  py_add (py_add cement slag) fly_ash.

(** [CircularGauge]: the fields [set_value] and [paintEvent] use. *)
Record CircularGauge : Type := {
  min_value : pyfloat;
  max_value : pyfloat;
  value : pyfloat;
  _value_animated : pyfloat
}.

(** [CircularGauge.set_value(value, animate=False)] *)
Definition set_value (self : CircularGauge) (new_value : pyfloat) : CircularGauge :=
  let new_value := py_max (min_value self) (py_min (max_value self) new_value) in
  {| min_value := min_value self;
     max_value := max_value self;
     value := new_value;
     _value_animated := new_value |}.

(** The colour [paintEvent] picks for the arc. *)
Definition paint_color (self : CircularGauge) : string :=
  if py_lt (_value_animated self) (Fin 210) then "#ef4444"
  else if py_lt (_value_animated self) (Fin 280) then "#f97316"
  else if py_lt (_value_animated self) (Fin 420) then "#22c55e"
  else "#3b82f6".

(** The gauge of the main window: [CircularGauge(0, 600, 0, ...)]. *)
Definition main_gauge : CircularGauge :=
  {| min_value := Fin 0; max_value := Fin 600;
     value := Fin 0; _value_animated := Fin 0 |}.

End Helpers.
Export Helpers.

(* ================================================================== *)
(** ** Comparisons *)

Lemma Qle_bool_false (x y : Q) : Qle_bool x y = false -> y < x.
Proof.
  intros H. apply Qnot_le_lt. intros Hle.
  apply Qle_bool_iff in Hle. congruence.
Qed.

Lemma Qlt_bool_iff (x y : Q) : Qlt_bool x y = true <-> x < y.
Proof.
  unfold Qlt_bool. split.
  - intros H. apply negb_true_iff in H. now apply Qle_bool_false.
  - intros H. apply negb_true_iff.
    destruct (Qle_bool y x) eqn:E; [|reflexivity].
    apply Qle_bool_iff in E. exfalso. lra.
Qed.

Lemma Qlt_bool_false (x y : Q) : Qlt_bool x y = false -> y <= x.
Proof.
  unfold Qlt_bool. intros H. apply negb_false_iff in H.
  now apply Qle_bool_iff.
Qed.

Lemma Qeq_bool_false (x y : Q) : Qeq_bool x y = false -> ~ x == y.
Proof. intros H. now apply Qeq_bool_neq. Qed.

(** Turn every boolean comparison of rationals in the context and in the
    goal into the proposition it decides. *)
Ltac qprop :=
  repeat match goal with
  | H : Qle_bool _ _ = true |- _ => apply Qle_bool_iff in H
  | H : Qle_bool _ _ = false |- _ => apply Qle_bool_false in H
  | H : Qlt_bool _ _ = true |- _ => apply Qlt_bool_iff in H
  | H : Qlt_bool _ _ = false |- _ => apply Qlt_bool_false in H
  | H : Qeq_bool _ _ = true |- _ => apply Qeq_bool_iff in H
  | H : Qeq_bool _ _ = false |- _ => apply Qeq_bool_false in H
  | |- Qle_bool _ _ = true => apply Qle_bool_iff
  | |- Qlt_bool _ _ = true => apply Qlt_bool_iff
  | |- Qeq_bool _ _ = true => apply Qeq_bool_iff
  end.

(* ================================================================== *)
(** ** The band tables *)

Section FourBands.

Variables a b c : Q.
Variables t1 t2 t3 t4 : string * string * string.
Hypothesis Hab : 0 < a /\ a < b /\ b < c.

Local Abbreviation table := (four_bands a b c t1 t2 t3 t4).

Lemma four_bands_unique (q : Q) (b1 b2 : band) :
  In b1 table -> In b2 table ->
  in_band b1 (Fin q) = true -> in_band b2 (Fin q) = true -> b1 = b2.
Proof.
  unfold four_bands. simpl.
  intros H1 H2 C1 C2.
  repeat match goal with
  | H : _ \/ _ |- _ => destruct H
  | H : False |- _ => destruct H
  end; subst; simpl in *; try reflexivity;
  repeat match goal with
  | H : _ && _ = true |- _ => apply andb_prop in H; destruct H
  end; qprop; lra.
Qed.

Lemma four_bands_total (q : Q) :
  0 <= q ->
  exists b0, In b0 table /\ in_band b0 (Fin q) = true
             /\ classify_in table (Fin q) = snd b0.
Proof.
  intros Hq. unfold four_bands.
  destruct (Qlt_le_dec q a) as [Ha|Ha];
    [|destruct (Qlt_le_dec q b) as [Hb|Hb];
      [|destruct (Qlt_le_dec q c) as [Hc|Hc]]].
  - exists ((Fin 0, Fin a), t1). simpl.
    assert (E : Qle_bool 0 q && Qlt_bool q a = true)
      by (apply andb_true_intro; split; qprop; lra).
    rewrite E. auto.
  - exists ((Fin a, Fin b), t2). simpl.
    assert (E0 : Qlt_bool q a = false)
      by (apply not_true_is_false; intros E; qprop; lra).
    assert (E : Qle_bool a q && Qlt_bool q b = true)
      by (apply andb_true_intro; split; qprop; lra).
    rewrite E0, E, andb_false_r. auto.
  - exists ((Fin b, Fin c), t3). simpl.
    assert (E0 : Qlt_bool q a = false)
      by (apply not_true_is_false; intros E; qprop; lra).
    assert (E1 : Qlt_bool q b = false)
      by (apply not_true_is_false; intros E; qprop; lra).
    assert (E : Qle_bool b q && Qlt_bool q c = true)
      by (apply andb_true_intro; split; qprop; lra).
    rewrite E0, E1, E, !andb_false_r. auto 6.
  - exists ((Fin c, PInf), t4). simpl.
    assert (E0 : Qlt_bool q a = false)
      by (apply not_true_is_false; intros E; qprop; lra).
    assert (E1 : Qlt_bool q b = false)
      by (apply not_true_is_false; intros E; qprop; lra).
    assert (E2 : Qlt_bool q c = false)
      by (apply not_true_is_false; intros E; qprop; lra).
    assert (E : Qle_bool c q = true) by (qprop; lra).
    rewrite E0, E1, E2, E, !andb_false_r. simpl. auto 8.
Qed.

(** A value equal to the lower bound of a band is inside that band. *)
Lemma four_bands_lower_bound (q lo : Q) (b0 : band) :
  In b0 table -> fst (fst b0) = Fin lo -> q == lo ->
  in_band b0 (Fin q) = true.
Proof.
  unfold four_bands. simpl. intros Hin Hlo Hq.
  repeat match goal with
  | H : _ \/ _ |- _ => destruct H
  | H : False |- _ => destruct H
  end; subst; simpl in *; inversion Hlo; subst;
  try (apply andb_true_intro; split); qprop; lra.
Qed.

Lemma four_bands_classifies (q : Q) :
  0 <= q -> classifies_into_one_band table (classify_in table) (Fin q).
Proof.
  intros Hq. destruct (four_bands_total q Hq) as (b0 & Hin & Hb & Hc).
  exists b0. repeat split; auto.
  intros b' Hin' Hb'. now apply (four_bands_unique q).
Qed.

Lemma four_bands_lower_bound_inclusive (q : Q) :
  0 <= q -> lower_bound_inclusive table (classify_in table) q.
Proof.
  intros Hq b0 lo Hin Hlo Heq.
  destruct (four_bands_total q Hq) as (b1 & Hin1 & Hb1 & Hc1).
  rewrite Hc1. f_equal.
  apply (four_bands_unique q); auto.
  now apply (four_bands_lower_bound q lo).
Qed.

End FourBands.

(** C2. For every non-negative finite strength, the classifier of either
    handler returns the triple of exactly one band of its table (never the
    fallback triple), and a strength equal to the lower bound [lo] of a band
    is classified into that band [lo, hi), not into the band below. *)
Theorem classify_nec_total_and_boundaries (q : Q) :
  0 <= q ->
  classifies_into_one_band ModelHandler.NEC_CLASSIFICATION
                           ModelHandler._classify_nec (Fin q) /\
  lower_bound_inclusive ModelHandler.NEC_CLASSIFICATION
                        ModelHandler._classify_nec q /\
  classifies_into_one_band ModelHandlerFixed.NEC_CLASSIFICATION
                           ModelHandlerFixed._classify_nec (Fin q) /\
  lower_bound_inclusive ModelHandlerFixed.NEC_CLASSIFICATION
                        ModelHandlerFixed._classify_nec q.
Proof.
  intros Hq.
  repeat split.
  - apply (four_bands_classifies 210 280 420); [lra | exact Hq].
  - apply (four_bands_lower_bound_inclusive 210 280 420); [lra | exact Hq].
  - apply (four_bands_classifies 140 280 420); [lra | exact Hq].
  - apply (four_bands_lower_bound_inclusive 140 280 420); [lra | exact Hq].
Qed.

Lemma classify_nec_total_and_boundaries_witness :
  0 <= 210 /\
  ModelHandler._classify_nec (Fin 210)
  = ("Resistencia Normal", "#f97316", "Uso estructural común") /\
  ModelHandlerFixed._classify_nec (Fin 140)
  = ("Resistencia Normal", "#f97316", "Uso estructural común").
Proof.
  assert (H : 0 <= 210) by (apply Qle_bool_iff; reflexivity).
  assert (H' : 0 <= 140) by (apply Qle_bool_iff; reflexivity).
  split; [exact H|]. split.
  - destruct (classify_nec_total_and_boundaries 210 H) as (_ & Hlo & _ & _).
    apply (Hlo ((Fin 210, Fin 280),
                ("Resistencia Normal", "#f97316", "Uso estructural común")) 210).
    + simpl. tauto.
    + reflexivity.
    + reflexivity.
  - destruct (classify_nec_total_and_boundaries 140 H') as (_ & _ & _ & Hlo).
    apply (Hlo ((Fin 140, Fin 280),
                ("Resistencia Normal", "#f97316", "Uso estructural común")) 140).
    + simpl. tauto.
    + reflexivity.
    + reflexivity.
Defined.

(* ================================================================== *)
(** ** The colour helper of utils.py against the classifier *)

Lemma get_nec_color_nonneg (q : Q) :
  0 <= q ->
  Utils.get_nec_color (Fin q) = triple_color (ModelHandler._classify_nec (Fin q)).
Proof.
  intros Hq.
  unfold Utils.get_nec_color, ModelHandler._classify_nec,
    ModelHandler.NEC_CLASSIFICATION, triple_color.
  simpl.
  assert (E0 : Qle_bool 0 q = true) by (qprop; lra).
  rewrite E0. simpl.
  destruct (Qlt_bool q 210) eqn:E1; [reflexivity|].
  assert (E210 : Qle_bool 210 q = true) by (qprop; lra).
  rewrite E210. simpl.
  destruct (Qlt_bool q 280) eqn:E2; [reflexivity|].
  assert (E280 : Qle_bool 280 q = true) by (qprop; lra).
  rewrite E280. simpl.
  destruct (Qlt_bool q 420) eqn:E3; [reflexivity|].
  assert (E420 : Qle_bool 420 q = true) by (qprop; lra).
  rewrite E420. reflexivity.
Qed.

Lemma classify_in_below_zero (a b c : Q) t1 t2 t3 t4 (x : pyfloat) :
  0 < a /\ a < b /\ b < c ->
  py_lt x (Fin 0) = true ->
  classify_in (four_bands a b c t1 t2 t3 t4) x
  = ("Sin Clasificar", "#6b7280", "Valor fuera de rangos estándar").
Proof.
  intros Habc Hx.
  destruct x as [q| | |]; simpl in Hx; try discriminate; simpl; [|reflexivity].
  qprop.
  assert (E0 : Qle_bool 0 q = false)
    by (apply not_true_is_false; intros E; qprop; lra).
  assert (E1 : Qle_bool a q = false)
    by (apply not_true_is_false; intros E; qprop; lra).
  assert (E2 : Qle_bool b q = false)
    by (apply not_true_is_false; intros E; qprop; lra).
  assert (E3 : Qle_bool c q = false)
    by (apply not_true_is_false; intros E; qprop; lra).
  rewrite E0, E1, E2, E3. reflexivity.
Qed.

Lemma get_nec_color_negative (x : pyfloat) :
  py_lt x (Fin 0) = true -> Utils.get_nec_color x = "#ef4444".
Proof.
  intros Hx. unfold Utils.get_nec_color.
  destruct x as [q| | |]; simpl in Hx; try discriminate; simpl; [|reflexivity].
  qprop.
  assert (E : Qlt_bool q 210 = true) by (qprop; lra).
  now rewrite E.
Qed.

(** C10. On every non-negative finite strength the colour helper of
    [utils.py] returns the colour component of the triple that
    [_classify_nec] of [model_handler.py] returns; on every negative
    strength the two disagree: the helper answers the colour of the lowest
    band, the classifier the fallback colour. *)
Theorem get_nec_color_agrees_with_classifier (x : pyfloat) :
  (isfinite x = true -> py_le (Fin 0) x = true ->
   Utils.get_nec_color x = triple_color (ModelHandler._classify_nec x)) /\
  (py_lt x (Fin 0) = true ->
   Utils.get_nec_color x = "#ef4444" /\
   triple_color (ModelHandler._classify_nec x) = "#6b7280" /\
   Utils.get_nec_color x <> triple_color (ModelHandler._classify_nec x)).
Proof.
  split.
  - destruct x as [q| | |]; simpl; try discriminate.
    intros _ Hq. qprop. now apply get_nec_color_nonneg.
  - intros Hx.
    assert (Hc : triple_color (ModelHandler._classify_nec x) = "#6b7280").
    { unfold ModelHandler._classify_nec.
      change ModelHandler.NEC_CLASSIFICATION
        with (four_bands 210 280 420
                ("Baja Resistencia", "#ef4444", "Uso estructural limitado")
                ("Resistencia Normal", "#f97316", "Uso estructural común")
                ("Alta Resistencia", "#22c55e", "Estructuras exigentes")
                ("Ultra Alta Resistencia", "#3b82f6", "Estructuras especiales")).
      rewrite classify_in_below_zero; [reflexivity | lra | exact Hx]. }
    rewrite Hc, (get_nec_color_negative x Hx).
    repeat split. discriminate.
Qed.

Lemma get_nec_color_agrees_with_classifier_witness :
  Utils.get_nec_color (Fin 250)
  = triple_color (ModelHandler._classify_nec (Fin 250)) /\
  Utils.get_nec_color (Fin (-5))
  <> triple_color (ModelHandler._classify_nec (Fin (-5))).
Proof.
  split.
  - apply (proj1 (get_nec_color_agrees_with_classifier (Fin 250)));
      reflexivity.
  - apply (proj2 (get_nec_color_agrees_with_classifier (Fin (-5)))).
    reflexivity.
Defined.

(* ================================================================== *)
(** ** The validator *)

Lemma fold_left_append {A B : Type} (f : list B -> A -> list B) (g : A -> list B) :
  (forall acc x, f acc x = acc ++ g x) ->
  forall l acc, fold_left f l acc = acc ++ flat_map g l.
Proof.
  intros Hf l. induction l as [|x l IH]; intros acc; simpl.
  - now rewrite app_nil_r.
  - now rewrite IH, Hf, <- app_assoc.
Qed.

Lemma missing_loop (inputs : dict pyfloat) (names : list string) (acc : list violation) :
  fold_left
    (fun errors feature =>
       if negb (dict_in feature inputs)
       then errors ++ [MissingVariable feature]
       else errors)
    names acc
  = acc ++ map MissingVariable (missing_features names inputs).
Proof.
  rewrite (fold_left_append _
             (fun f => if negb (dict_in f inputs) then [MissingVariable f] else [])).
  - f_equal. unfold missing_features.
    induction names as [|n names IH]; simpl; [reflexivity|].
    destruct (negb (dict_in n inputs)); simpl; now rewrite IH.
  - intros acc' x. destruct (negb (dict_in x inputs)); [reflexivity|].
    now rewrite app_nil_r.
Qed.

Lemma strict_errors (self : ConcreteModelHandler) (inputs : dict pyfloat) :
  snd (ModelHandler.validate_inputs self inputs)
  = map MissingVariable (missing_features (ModelHandler.feature_names self) inputs)
    ++ flat_map strict_range_violation inputs.
Proof.
  cbv beta zeta iota delta [snd ModelHandler.validate_inputs].
  rewrite missing_loop, app_nil_l.
  apply (fold_left_append _ strict_range_violation).
  intros acc [feature value]. unfold strict_range_violation.
  destruct (dict_get ModelHandler.VALID_RANGES feature) as [[lo hi]|];
    [|now rewrite app_nil_r].
  destruct (py_le lo value && py_le value hi); simpl;
    [now rewrite app_nil_r | reflexivity].
Qed.

Lemma extended_errors (self : ConcreteModelHandler) (inputs : dict pyfloat) :
  snd (ModelHandlerFixed.validate_inputs self inputs)
  = map MissingVariable (missing_features (ModelHandlerFixed.feature_names self) inputs)
    ++ flat_map extended_range_violation inputs.
Proof.
  cbv beta zeta iota delta [snd ModelHandlerFixed.validate_inputs].
  rewrite missing_loop, app_nil_l.
  apply (fold_left_append _ extended_range_violation).
  intros acc [feature value]. unfold extended_range_violation, extended_range.
  destruct (dict_get ModelHandlerFixed.VALID_RANGES feature) as [[lo hi]|];
    [|now rewrite app_nil_r].
  match goal with
  | |- context [negb ?c] => destruct c
  end; simpl; [now rewrite app_nil_r | reflexivity].
Qed.

Lemma strict_valid_flag (self : ConcreteModelHandler) (inputs : dict pyfloat) :
  fst (ModelHandler.validate_inputs self inputs)
  = Nat.eqb (List.length (snd (ModelHandler.validate_inputs self inputs))) 0.
Proof. reflexivity. Qed.

Lemma extended_valid_flag (self : ConcreteModelHandler) (inputs : dict pyfloat) :
  fst (ModelHandlerFixed.validate_inputs self inputs)
  = Nat.eqb (List.length (snd (ModelHandlerFixed.validate_inputs self inputs))) 0.
Proof. reflexivity. Qed.

Lemma length_zero_nil {A : Type} (l : list A) :
  Nat.eqb (List.length l) 0 = true <-> l = [].
Proof. destruct l; simpl; split; congruence. Qed.

Lemma missing_features_nil (names : list string) (inputs : dict pyfloat) :
  missing_features names inputs = [] <->
  (forall f, In f names -> dict_in f inputs = true).
Proof.
  unfold missing_features. induction names as [|n names IH]; simpl.
  - split; [intros _ f [] | reflexivity].
  - destruct (dict_in n inputs) eqn:E; simpl.
    + rewrite IH. split.
      * intros H f [<-|Hf]; auto.
      * intros H f Hf. apply H. now right.
    + split; [discriminate|].
      intros H. specialize (H n (or_introl eq_refl)). congruence.
Qed.

Lemma flat_map_nil {A B : Type} (g : A -> list B) (l : list A) :
  flat_map g l = [] <-> (forall x, In x l -> g x = []).
Proof.
  induction l as [|x l IH]; simpl.
  - split; [intros _ y [] | reflexivity].
  - split.
    + intros H. apply app_eq_nil in H. destruct H as [Hx Hl].
      intros y [<-|Hy]; [exact Hx | now apply IH].
    + intros H. rewrite (H x (or_introl eq_refl)). simpl.
      apply IH. intros y Hy. apply H. now right.
Qed.

Lemma dict_get_In {V : Type} (d : dict V) (k : string) (v : V) :
  dict_get d k = Some v -> In (k, v) d.
Proof.
  induction d as [|[k' v'] d IH]; simpl; [discriminate|].
  destruct (String.eqb k' k) eqn:E.
  - intros H. inversion H; subst. apply String.eqb_eq in E. subst. now left.
  - intros H. right. now apply IH.
Qed.

Lemma dict_in_true {V : Type} (d : dict V) (k : string) :
  dict_in k d = true -> exists v, dict_get d k = Some v.
Proof.
  unfold dict_in. destruct (dict_get d k) as [v|]; [eauto | discriminate].
Qed.





(* ================================================================== *)
(** ** Order of the reported violations *)











(* ================================================================== *)
(** ** Rounding *)

(** Read an outcome of [Qcompare] as the order relation it stands for. *)
Ltac qcompare_prop H :=
  match type of H with
  | Qcompare _ _ = Eq => apply Qeq_alt in H
  | Qcompare _ _ = Lt => apply Qlt_alt in H
  | Qcompare _ _ = Gt => apply Qgt_alt in H
  end.

Lemma round_half_even_cases (q : Q) :
  let f := Qfloor q in
  (round_half_even q = f /\ q - inject_Z f <= 1 # 2) \/
  (round_half_even q = (f + 1)%Z /\ 1 # 2 <= q - inject_Z f).
Proof.
  intros f. unfold round_half_even. fold f.
  destruct (Qcompare (q - inject_Z f) (1 # 2)) eqn:E.
  - apply Qeq_alt in E.
    destruct (Z.even f); [left | right]; split; try reflexivity; lra.
  - apply Qlt_alt in E. left. split; [reflexivity | lra].
  - apply Qgt_alt in E. right. split; [reflexivity | lra].
Qed.

Lemma inject_Z_succ (z : Z) : inject_Z (z + 1) == inject_Z z + 1.
Proof. now rewrite inject_Z_plus. Qed.

(** The rounded value is within one half of the argument. *)
Lemma round_half_even_near (q : Q) :
  q - (1 # 2) <= inject_Z (round_half_even q) /\
  inject_Z (round_half_even q) <= q + (1 # 2).
Proof.
  pose proof (Qfloor_le q) as Hlo.
  pose proof (Qlt_floor q) as Hhi.
  rewrite inject_Z_succ in Hhi.
  destruct (round_half_even_cases q) as [[-> H]|[-> H]];
    rewrite ?inject_Z_succ; split; lra.
Qed.

Lemma round_half_even_ge (k : Z) (q : Q) :
  inject_Z k <= q -> (k <= round_half_even q)%Z.
Proof.
  intros H. apply Qfloor_resp_le in H. rewrite Qfloor_Z in H.
  destruct (round_half_even_cases q) as [[-> _]|[-> _]]; lia.
Qed.

Lemma round_half_even_le (k : Z) (q : Q) :
  q <= inject_Z k -> (round_half_even q <= k)%Z.
Proof.
  intros H.
  pose proof (Qfloor_le q) as Hlo.
  assert (Hf : (Qfloor q <= k)%Z).
  { apply Qfloor_resp_le in H. now rewrite Qfloor_Z in H. }
  destruct (round_half_even_cases q) as [[-> _]|[-> Hhalf]]; [exact Hf|].
  destruct (Z.eq_dec (Qfloor q) k) as [E|E]; [|lia].
  exfalso. rewrite E in Hhalf. lra.
Qed.

Lemma round_half_even_mono (p q : Q) :
  p <= q -> (round_half_even p <= round_half_even q)%Z.
Proof.
  intros Hpq.
  pose proof (Qfloor_resp_le _ _ Hpq) as Hf.
  destruct (Z.eq_dec (Qfloor p) (Qfloor q)) as [E|E].
  - unfold round_half_even. rewrite <- E.
    destruct (Qcompare (p - inject_Z (Qfloor p)) (1 # 2)) eqn:Ep;
    destruct (Qcompare (q - inject_Z (Qfloor p)) (1 # 2)) eqn:Eq;
    qcompare_prop Ep; qcompare_prop Eq;
    try (exfalso; lra);
    destruct (Z.even (Qfloor p)); lia.
  - destruct (round_half_even_cases p) as [[-> _]|[-> _]];
    destruct (round_half_even_cases q) as [[-> _]|[-> _]]; lia.
Qed.

Lemma round_half_even_nearest (k : Z) (x : Q) :
  inject_Z k - (1 # 2) < x -> x < inject_Z k + (1 # 2) ->
  round_half_even x = k.
Proof.
  intros H1 H2.
  destruct (round_half_even_near x) as [N1 N2].
  assert (L : (k < round_half_even x + 1)%Z).
  { rewrite Zlt_Qlt, inject_Z_plus. change (inject_Z 1) with 1. lra. }
  assert (U : (round_half_even x < k + 1)%Z).
  { rewrite Zlt_Qlt, inject_Z_plus. change (inject_Z 1) with 1. lra. }
  lia.
Qed.

Lemma pow10_pos (n : nat) : 0 < inject_Z (10 ^ Z.of_nat n).
Proof.
  change 0 with (inject_Z 0). rewrite <- Zlt_Qlt.
  apply Z.pow_pos_nonneg; lia.
Qed.

(** [round(q, n)] is within half a unit of the [n]-th decimal of [q]. *)
Lemma round_ndigits_near (q : Q) (n : nat) :
  Qabs (round_ndigits q n - q) <= (1 # 2) / inject_Z (10 ^ Z.of_nat n).
Proof.
  unfold round_ndigits.
  pose proof (pow10_pos n) as HP.
  set (P := inject_Z (10 ^ Z.of_nat n)) in *.
  destruct (round_half_even_near (q * P)) as [Hlo Hhi].
  set (r := inject_Z (round_half_even (q * P))) in *.
  assert (E : r / P - q == (r - q * P) / P) by (field; lra).
  rewrite E. apply Qabs_Qle_condition. split.
  - apply Qle_shift_div_l; [exact HP|].
    assert (E' : - ((1 # 2) / P) * P == - (1 # 2)) by (field; lra).
    rewrite E'. lra.
  - apply Qle_shift_div_r; [exact HP|].
    assert (E' : (1 # 2) / P * P == 1 # 2) by (field; lra).
    rewrite E'. lra.
Qed.

Lemma round_ndigits_mono (p q : Q) (n : nat) :
  p <= q -> round_ndigits p n <= round_ndigits q n.
Proof.
  intros Hpq. unfold round_ndigits.
  pose proof (pow10_pos n) as HP.
  set (P := inject_Z (10 ^ Z.of_nat n)) in *.
  apply Qle_shift_div_l; [exact HP|].
  assert (E : inject_Z (round_half_even (p * P)) / P * P
              == inject_Z (round_half_even (p * P))) by (field; lra).
  rewrite E. rewrite <- Zle_Qle.
  apply round_half_even_mono.
  apply Qmult_le_compat_r; lra.
Qed.

(** A multiple [k / 10^n] of the last kept decimal is a fixed point. *)
Lemma round_ndigits_fixed (k : Z) (n : nat) :
  round_ndigits (inject_Z k / inject_Z (10 ^ Z.of_nat n)) n
  == inject_Z k / inject_Z (10 ^ Z.of_nat n).
Proof.
  unfold round_ndigits.
  pose proof (pow10_pos n) as HP.
  set (P := inject_Z (10 ^ Z.of_nat n)) in *.
  assert (E : inject_Z k / P * P == inject_Z k) by (field; lra).
  assert (Hr : round_half_even (inject_Z k / P * P) = k).
  { apply Z.le_antisymm.
    - apply round_half_even_le. rewrite E. lra.
    - apply round_half_even_ge. rewrite E. lra. }
  now rewrite Hr.
Qed.

Lemma round_ndigits_ge (k : Z) (q : Q) (n : nat) :
  inject_Z k / inject_Z (10 ^ Z.of_nat n) <= q ->
  inject_Z k / inject_Z (10 ^ Z.of_nat n) <= round_ndigits q n.
Proof.
  intros H. rewrite <- (round_ndigits_fixed k n).
  now apply round_ndigits_mono.
Qed.

Lemma round_ndigits_le (k : Z) (q : Q) (n : nat) :
  q <= inject_Z k / inject_Z (10 ^ Z.of_nat n) ->
  round_ndigits q n <= inject_Z k / inject_Z (10 ^ Z.of_nat n).
Proof.
  intros H. rewrite <- (round_ndigits_fixed k n).
  now apply round_ndigits_mono.
Qed.

Lemma round_ndigits_nonneg (q : Q) (n : nat) : 0 <= q -> 0 <= round_ndigits q n.
Proof.
  intros H.
  assert (E : 0 == inject_Z 0 / inject_Z (10 ^ Z.of_nat n)) by (unfold Qdiv; ring).
  rewrite E at 1. apply round_ndigits_ge. now rewrite <- E.
Qed.

Lemma py_round_mono (x y : pyfloat) (n : nat) :
  py_le x y = true -> py_le (py_round x n) (py_round y n) = true.
Proof.
  destruct x, y; simpl; try easy.
  intros H. qprop. now apply round_ndigits_mono.
Qed.

Lemma py_round_nonneg (x : pyfloat) (n : nat) :
  py_le (Fin 0) x = true -> py_le (Fin 0) (py_round x n) = true.
Proof.
  destruct x; simpl; try easy.
  intros H. qprop. now apply round_ndigits_nonneg.
Qed.

Lemma py_round_isfinite (x : pyfloat) (n : nat) :
  isfinite (py_round x n) = isfinite x.
Proof. now destruct x. Qed.

(* ================================================================== *)
(** ** The confidence score *)

Section Clamp.

Variables lo hi : Q.
Hypothesis Hlohi : lo <= hi.

(** [max(lo, min(hi, v))] *)
Local Abbreviation clamp v := (py_max (Fin lo) (py_min (Fin hi) v)).

Lemma clamp_finite (v : pyfloat) :
  exists c, clamp v = Fin c /\ lo <= c /\ c <= hi.
Proof.
  unfold py_max, py_min.
  destruct v as [q| | |]; simpl.
  - destruct (Qlt_bool q hi) eqn:E1; simpl.
    + destruct (Qlt_bool lo q) eqn:E2; qprop; eexists; split;
        try reflexivity; lra.
    + destruct (Qlt_bool lo hi) eqn:E2; qprop; eexists; split;
        try reflexivity; lra.
  - destruct (Qlt_bool lo hi) eqn:E2; qprop; eexists; split;
      try reflexivity; lra.
  - exists lo. split; [reflexivity | lra].
  - destruct (Qlt_bool lo hi) eqn:E2; qprop; eexists; split;
      try reflexivity; lra.
Qed.

Lemma clamp_mono (v w : pyfloat) :
  py_le v w = true -> py_le (clamp v) (clamp w) = true.
Proof.
  intros Hvw.
  destruct (clamp_finite v) as (cv & Ev & Hv1 & Hv2).
  destruct (clamp_finite w) as (cw & Ew & Hw1 & Hw2).
  rewrite Ev, Ew. simpl. qprop.
  revert Ev Ew. unfold py_max, py_min.
  destruct v as [p| | |], w as [q| | |]; simpl in *; try discriminate;
    repeat match goal with
    | |- context [Qlt_bool ?x ?y] =>
        let E := fresh "E" in destruct (Qlt_bool x y) eqn:E; simpl
    end;
    intros Ev Ew; inversion Ev; inversion Ew; subst; qprop; lra.
Qed.

End Clamp.

(** [1 - s * 10] and [1 - s] do not increase when [s] grows. *)
Lemma one_minus_ten_times_antitone (s1 s2 : pyfloat) :
  py_le s1 s2 = true ->
  py_le (py_sub (Fin 1) (py_mul s2 (Fin 10)))
        (py_sub (Fin 1) (py_mul s1 (Fin 10))) = true.
Proof.
  destruct s1, s2; simpl; try easy.
  intros H. qprop. lra.
Qed.

Lemma one_minus_antitone (s1 s2 : pyfloat) :
  py_le s1 s2 = true ->
  py_le (py_sub (Fin 1) s2) (py_sub (Fin 1) s1) = true.
Proof.
  destruct s1, s2; simpl; try easy.
  intros H. qprop. lra.
Qed.

Lemma round3_between (k1 k2 : Z) (c : Q) :
  k1 # 1000 <= c -> c <= k2 # 1000 ->
  k1 # 1000 <= round_ndigits c 3 /\ round_ndigits c 3 <= k2 # 1000.
Proof.
  rewrite !Qmake_Qdiv.
  change (inject_Z (Z.pos 1000)) with (inject_Z (10 ^ Z.of_nat 3)).
  intros H1 H2. split.
  - now apply round_ndigits_ge.
  - now apply round_ndigits_le.
Qed.

(** Whatever the stability (zero, huge, infinite or NaN), the confidence
    either handler computes, and its rounding to three decimals, lies
    between the lower clamp bound and 0.95. *)
Lemma confidence_of_clamped (estabilidad : pyfloat) :
  (py_le (Fin (6 # 10)) (ModelHandler.confidence_of estabilidad) = true /\
   py_le (ModelHandler.confidence_of estabilidad) (Fin (95 # 100)) = true /\
   py_le (Fin (6 # 10)) (py_round (ModelHandler.confidence_of estabilidad) 3) = true /\
   py_le (py_round (ModelHandler.confidence_of estabilidad) 3) (Fin (95 # 100)) = true) /\
  (py_le (Fin (7 # 10)) (ModelHandlerFixed.confidence_of estabilidad) = true /\
   py_le (ModelHandlerFixed.confidence_of estabilidad) (Fin (95 # 100)) = true /\
   py_le (Fin (7 # 10)) (py_round (ModelHandlerFixed.confidence_of estabilidad) 3) = true /\
   py_le (py_round (ModelHandlerFixed.confidence_of estabilidad) 3) (Fin (95 # 100)) = true).
Proof.
  split.
  - unfold ModelHandler.confidence_of.
    destruct (clamp_finite (6 # 10) (95 # 100) ltac:(lra)
                (py_sub (Fin 1) (py_mul estabilidad (Fin 10))))
      as (c & -> & H1 & H2).
    destruct (round3_between 600 950 c ltac:(lra) ltac:(lra)) as [R1 R2].
    simpl. repeat split; qprop; lra.
  - unfold ModelHandlerFixed.confidence_of.
    destruct (clamp_finite (7 # 10) (95 # 100) ltac:(lra)
                (py_sub (Fin 1) estabilidad))
      as (c & -> & H1 & H2).
    destruct (round3_between 700 950 c ltac:(lra) ltac:(lra)) as [R1 R2].
    simpl. repeat split; qprop; lra.
Qed.

(** C7. The confidence formula of either handler is monotonically
    decreasing in the stability: if [s1 <= s2] then the confidence for [s1]
    is at least the confidence for [s2], before and after the rounding to
    three decimals. *)
Theorem confidence_decreasing_in_stability (s1 s2 : pyfloat) :
  py_le s1 s2 = true ->
  py_le (ModelHandler.confidence_of s2) (ModelHandler.confidence_of s1) = true /\
  py_le (py_round (ModelHandler.confidence_of s2) 3)
        (py_round (ModelHandler.confidence_of s1) 3) = true /\
  py_le (ModelHandlerFixed.confidence_of s2) (ModelHandlerFixed.confidence_of s1) = true /\
  py_le (py_round (ModelHandlerFixed.confidence_of s2) 3)
        (py_round (ModelHandlerFixed.confidence_of s1) 3) = true.
Proof.
  intros H.
  assert (H1 : py_le (ModelHandler.confidence_of s2)
                     (ModelHandler.confidence_of s1) = true).
  { apply clamp_mono; [lra|]. now apply one_minus_ten_times_antitone. }
  assert (H2 : py_le (ModelHandlerFixed.confidence_of s2)
                     (ModelHandlerFixed.confidence_of s1) = true).
  { apply clamp_mono; [lra|]. now apply one_minus_antitone. }
  repeat split; auto using py_round_mono.
Qed.

Lemma confidence_decreasing_in_stability_witness :
  py_le (Fin (1 # 100)) (Fin (3 # 100)) = true /\
  py_le (ModelHandler.confidence_of (Fin (3 # 100)))
        (ModelHandler.confidence_of (Fin (1 # 100))) = true /\
  py_le (ModelHandlerFixed.confidence_of (Fin (3 # 100)))
        (ModelHandlerFixed.confidence_of (Fin (1 # 100))) = true.
Proof.
  assert (H : py_le (Fin (1 # 100)) (Fin (3 # 100)) = true) by reflexivity.
  destruct (confidence_decreasing_in_stability _ _ H) as (H1 & _ & H2 & _).
  repeat split; assumption.
Defined.

(* ================================================================== *)
(** ** Running the prediction *)

Lemma getitems_no_log (inputs : dict pyfloat) (names : list string) :
  fst (getitems inputs names) = [].
Proof.
  induction names as [|n names IH]; [reflexivity|].
  simpl. unfold getitem. destruct (dict_get inputs n); [|reflexivity].
  simpl. destruct (getitems inputs names) as [l [vs|e]]; simpl in *; now subst.
Qed.

Lemma getitems_returns (inputs : dict pyfloat) (names : list string) :
  (forall f, In f names -> dict_in f inputs = true) ->
  exists X, getitems inputs names = ([], Returns X) /\
            List.length X = List.length names /\
            forall x, In x X -> exists f, In f names /\ dict_get inputs f = Some x.
Proof.
  induction names as [|n names IH]; intros Hall.
  - exists []. repeat split. intros x [].
  - destruct IH as (X & EX & HL & HX).
    { intros f Hf. apply Hall. now right. }
    destruct (dict_in_true inputs n (Hall n (or_introl eq_refl))) as [v Hv].
    exists (v :: X). simpl. unfold getitem. rewrite Hv, EX. simpl.
    repeat split; [now rewrite HL|].
    intros x [<-|Hx].
    + exists n. auto.
    + destruct (HX x Hx) as (f & Hf & Hg). exists f. auto.
Qed.

Lemma py_truediv_no_log (x y : pyfloat) : fst (py_truediv x y) = [].
Proof.
  destruct y as [b| | |], x; simpl; try reflexivity;
    destruct (Qeq_bool b 0); reflexivity.
Qed.


Lemma py_truediv_finite (a b : Q) :
  ~ b == 0 -> py_truediv (Fin a) (Fin b) = ([], Returns (Fin (a / b))).
Proof.
  intros H. simpl. destruct (Qeq_bool b 0) eqn:E; [|reflexivity].
  apply Qeq_bool_iff in E. contradiction.
Qed.

Lemma bind_returns_nil {A B : Type} (a : A) (k : A -> Py B) :
  bind ([], Returns a) k = k a.
Proof. unfold bind. now destruct (k a). Qed.

Lemma bind_raises {A B : Type} (l : list log_record) (e : exn) (k : A -> Py B) :
  bind (l, Raises e) k = (l, Raises e).
Proof. reflexivity. Qed.

Lemma bind_returns_log {A B : Type} (l : list log_record) (a : A) (k : A -> Py B) :
  bind (l, Returns a) k = (l ++ fst (k a), snd (k a)).
Proof. unfold bind. now destruct (k a). Qed.

Lemma bind_if_log {B : Type} (c : bool) (w : log_record) (k : unit -> Py B) :
  bind (if c then log w else ret tt) k
  = ((if c then [w] else []) ++ fst (k tt), snd (k tt)).
Proof. destruct c; unfold log, ret; now rewrite bind_returns_log. Qed.

Lemma bind_if_log_ret {A B : Type} (c : bool) (w : log_record) (a b : A)
    (k : A -> Py B) :
  bind (if c then (log w ;; ret a) else ret b) k
  = ((if c then [w] else []) ++ fst (k (if c then a else b)),
     snd (k (if c then a else b))).
Proof. destruct c; unfold log, ret, bind; simpl; now destruct (k _). Qed.

Lemma bind_ext {A B : Type} (m : Py A) (k k' : A -> Py B) :
  (forall a, k a = k' a) -> bind m k = bind m k'.
Proof. intros H. destruct m as [l [a|e]]; simpl; [now rewrite H | reflexivity]. Qed.

Lemma try_except_reraise {A : Type} (m : Py A) :
  try_except m (fun e => log (ErrorPrediction e) ;; raise e)
  = match m with
    | (l, Returns a) => (l, Returns a)
    | (l, Raises e) => (l ++ [ErrorPrediction e], Raises e)
    end.
Proof. destruct m as [l [a|e]]; reflexivity. Qed.

Lemma getitem_some (inputs : dict pyfloat) (k : string) (v : pyfloat) :
  dict_get inputs k = Some v -> getitem inputs k = ([], Returns v).
Proof. unfold getitem. now intros ->. Qed.

Lemma getitem_none (inputs : dict pyfloat) (k : string) :
  dict_get inputs k = None -> getitem inputs k = ([], Raises (KeyError k)).
Proof. unfold getitem. now intros ->. Qed.

Lemma not_nan_inf_isfinite (x : pyfloat) :
  isnan x || isinf x = false <-> isfinite x = true.
Proof. destruct x; simpl; split; congruence. Qed.

Lemma np_array_float64_returns (X : list pyfloat) :
  existsb float64_overflows X = false -> np_array_float64 X = ([], Returns X).
Proof. unfold np_array_float64. now intros ->. Qed.

Lemma np_array_float64_raises (X : list pyfloat) :
  existsb float64_overflows X = true ->
  np_array_float64 X = ([], Raises OverflowError).
Proof. unfold np_array_float64. now intros ->. Qed.

Lemma feature_vector_intro (inputs : dict pyfloat) (names : list string)
    (X : list pyfloat) :
  getitems inputs names = ([], Returns X) ->
  existsb float64_overflows X = false ->
  feature_vector inputs names = Some X.
Proof.
  intros HX Hov. unfold feature_vector.
  now rewrite HX, bind_returns_nil, (np_array_float64_returns X Hov).
Qed.

Lemma feature_vector_inv (inputs : dict pyfloat) (names : list string)
    (X : list pyfloat) :
  feature_vector inputs names = Some X ->
  getitems inputs names = ([], Returns X) /\
  existsb float64_overflows X = false.
Proof.
  unfold feature_vector. intros H.
  pose proof (getitems_no_log inputs names) as HL.
  destruct (getitems inputs names) as [lg [Y|e]]; cbn [fst] in HL; subst lg;
    [rewrite bind_returns_nil in H | discriminate H].
  unfold np_array_float64 in H.
  destruct (existsb float64_overflows Y) eqn:E; [discriminate H|].
  inversion H; subst Y. now split.
Qed.

(** A computation that stopped on a [raise] did not return. *)
Ltac py_absurd H := unfold raise, ret, log in H; discriminate H.

(** One [inputs[k]] step of a computation [H : ... = (l, Returns r)]. *)
Ltac py_getitem H inputs k v E :=
  destruct (dict_get inputs k) as [v|] eqn:E;
  [ rewrite (getitem_some inputs k v E), ?bind_returns_nil in H
  | rewrite (getitem_none inputs k E), bind_raises in H; discriminate H ].

(** The [np.array] step of a computation [H : ... = (l, Returns r)]. *)
Ltac py_array H X E :=
  destruct (existsb float64_overflows X) eqn:E;
  [ rewrite (np_array_float64_raises X E), bind_raises in H; discriminate H
  | rewrite (np_array_float64_returns X E), bind_returns_nil in H ].

(** Split [H : (l1 ++ fst m, snd m) = (l, Returns r)] into the run of [m]. *)
Ltac py_tail H ltail Hl :=
  match type of H with
  | (_ ++ fst ?m, snd ?m) = _ =>
      let ot := fresh "ot" in
      let Htail := fresh "Htail" in
      destruct m as [ltail ot] eqn:Htail; cbn [fst snd] in H;
      apply pair_equal_spec in H; destruct H as [Hl H]; subst ot;
      rename Htail into H
  end.

Arguments dict_get : simpl never.
Arguments ModelHandler.validate_inputs : simpl never.
Arguments ModelHandlerFixed.validate_inputs : simpl never.
Arguments ModelHandler._classify_nec : simpl never.
Arguments ModelHandlerFixed._classify_nec : simpl never.
Arguments ModelHandler.confidence_of : simpl never.
Arguments ModelHandlerFixed.confidence_of : simpl never.
Arguments py_round : simpl never.
Arguments py_truediv : simpl never.
Arguments getitems : simpl never.
Arguments np_array_float64 : simpl never.
Arguments float64_overflows : simpl never.

(** *** model_handler.py *)

Lemma strict_predict_run (self : ConcreteModelHandler) (inputs : dict pyfloat)
    (now : string) (X : list pyfloat) (agua cemento ratio escoria ceniza edad : pyfloat) :
  is_loaded self = true ->
  fst (ModelHandler.validate_inputs self inputs) = true ->
  getitems inputs (ModelHandler.feature_names self) = ([], Returns X) ->
  existsb float64_overflows X = false ->
  existsb isnan X || existsb isinf X = false ->
  existsb (fun x => py_lt x (Fin 0)) X = false ->
  isfinite (model self X) = true ->
  dict_get inputs "Agua_kg_m3" = Some agua ->
  dict_get inputs "Cemento_kg_m3" = Some cemento ->
  py_truediv agua cemento = ([], Returns ratio) ->
  dict_get inputs "Escoria_Alto_Horno_kg_m3" = Some escoria ->
  dict_get inputs "Ceniza_Volante_kg_m3" = Some ceniza ->
  dict_get inputs "Edad_dias" = Some edad ->
  ModelHandler.predict_strength self inputs now
  = (strict_log (model self X),
     Returns (result_record (ModelHandler._classify_nec (model self X))
                (ModelHandler.confidence_of (estabilidad (metadata self)))
                (model self X) ratio cemento escoria ceniza edad now)).
Proof.
  intros HL HV HX Hov Hnan Hneg Hfin Ha Hc Hd He Hz Hed.
  unfold ModelHandler.predict_strength.
  rewrite HL. cbn [negb].
  destruct (ModelHandler.validate_inputs self inputs) as [is_valid errors].
  cbn [fst] in HV. subst is_valid. cbn [negb].
  rewrite try_except_reraise, HX, bind_returns_nil.
  rewrite (np_array_float64_returns X Hov), bind_returns_nil, Hnan, Hneg.
  apply not_nan_inf_isfinite in Hfin. rewrite Hfin.
  rewrite bind_if_log.
  rewrite (getitem_some _ _ _ Ha), (getitem_some _ _ _ Hc),
          (getitem_some _ _ _ He), (getitem_some _ _ _ Hz),
          (getitem_some _ _ _ Hed).
  rewrite !bind_returns_nil, Hd, !bind_returns_nil.
  unfold strict_log, result_record, triple_label, triple_color, triple_description.
  destruct (ModelHandler._classify_nec (model self X)) as [[c1 c2] c3].
  rewrite bind_returns_nil. reflexivity.
Qed.

Lemma strict_predict_inv (self : ConcreteModelHandler) (inputs : dict pyfloat)
    (now : string) (l : list log_record) (r : PredictionResult) :
  ModelHandler.predict_strength self inputs now = (l, Returns r) ->
  exists X agua cemento ratio escoria ceniza edad,
    is_loaded self = true /\
    fst (ModelHandler.validate_inputs self inputs) = true /\
    getitems inputs (ModelHandler.feature_names self) = ([], Returns X) /\
    existsb float64_overflows X = false /\
    isfinite (model self X) = true /\
    dict_get inputs "Agua_kg_m3" = Some agua /\
    dict_get inputs "Cemento_kg_m3" = Some cemento /\
    py_truediv agua cemento = ([], Returns ratio) /\
    dict_get inputs "Escoria_Alto_Horno_kg_m3" = Some escoria /\
    dict_get inputs "Ceniza_Volante_kg_m3" = Some ceniza /\
    dict_get inputs "Edad_dias" = Some edad /\
    l = strict_log (model self X) /\
    r = result_record (ModelHandler._classify_nec (model self X))
          (ModelHandler.confidence_of (estabilidad (metadata self)))
          (model self X) ratio cemento escoria ceniza edad now.
Proof.
  unfold ModelHandler.predict_strength. intros H.
  destruct (is_loaded self); cbn [negb] in H; [|py_absurd H].
  destruct (ModelHandler.validate_inputs self inputs) as [is_valid errors] eqn:EV.
  destruct is_valid; cbn [negb] in H; [|py_absurd H].
  rewrite try_except_reraise in H.
  match type of H with
  | match ?m with _ => _ end = _ =>
      destruct m as [lb [rb|eb]] eqn:Hbody; [|discriminate H]
  end.
  apply pair_equal_spec in H. destruct H as [<- H]. inversion H; subst rb; clear H.
  rename Hbody into H.
  pose proof (getitems_no_log inputs (ModelHandler.feature_names self)) as HL.
  destruct (getitems inputs (ModelHandler.feature_names self)) as [lg [X|e]] eqn:EX;
    cbn [fst] in HL; subst lg;
    [rewrite bind_returns_nil in H | rewrite bind_raises in H; discriminate H].
  py_array H X Eov.
  destruct (existsb isnan X || existsb isinf X) eqn:E1; [py_absurd H|].
  destruct (existsb (fun x => py_lt x (Fin 0)) X) eqn:E2; [py_absurd H|].
  destruct (isnan (model self X) || isinf (model self X)) eqn:E3; [py_absurd H|].
  rewrite bind_if_log in H. py_tail H ltail Hl.
  py_getitem H inputs "Agua_kg_m3" agua Ea.
  py_getitem H inputs "Cemento_kg_m3" cemento Ec.
  pose proof (py_truediv_no_log agua cemento) as HD.
  destruct (py_truediv agua cemento) as [ld [ratio|e]] eqn:Ed;
    cbn [fst] in HD; subst ld;
    [rewrite !bind_returns_nil in H | rewrite bind_raises in H; discriminate H].
  py_getitem H inputs "Escoria_Alto_Horno_kg_m3" escoria Ee.
  py_getitem H inputs "Ceniza_Volante_kg_m3" ceniza Ez.
  destruct (ModelHandler._classify_nec (model self X)) as [[c1 c2] c3] eqn:Ecl.
  py_getitem H inputs "Edad_dias" edad Eed.
  unfold log, ret in H. cbn [bind app] in H.
  apply pair_equal_spec in H. destruct H as [Hlt H]. inversion H; subst r; clear H.
  exists X, agua, cemento, ratio, escoria, ceniza, edad.
  repeat split; try assumption; try reflexivity.
  - now apply not_nan_inf_isfinite.
  - unfold strict_log. now rewrite <- Hl, <- Hlt.
  - now rewrite Ecl.
Qed.

(** *** model_handler_fixed.py *)

Lemma fixed_predict_run (self : ConcreteModelHandler) (inputs : dict pyfloat)
    (now : string) (X : list pyfloat) (agua cemento ratio escoria ceniza edad : pyfloat) :
  is_loaded self = true ->
  getitems inputs (ModelHandlerFixed.feature_names self) = ([], Returns X) ->
  existsb float64_overflows X = false ->
  isfinite (model self X) = true ->
  dict_get inputs "Agua_kg_m3" = Some agua ->
  dict_get inputs "Cemento_kg_m3" = Some cemento ->
  py_truediv agua cemento = ([], Returns ratio) ->
  dict_get inputs "Escoria_Alto_Horno_kg_m3" = Some escoria ->
  dict_get inputs "Ceniza_Volante_kg_m3" = Some ceniza ->
  dict_get inputs "Edad_dias" = Some edad ->
  ModelHandlerFixed.predict_strength self inputs now
  = (fixed_warning (ModelHandlerFixed.validate_inputs self inputs)
       ++ fixed_log (model self X),
     Returns (result_record (ModelHandlerFixed._classify_nec (corrected (model self X)))
                (ModelHandlerFixed.confidence_of (estabilidad (metadata self)))
                (corrected (model self X)) ratio cemento escoria ceniza edad now)).
Proof.
  intros HL HX Hov Hfin Ha Hc Hd He Hz Hed.
  unfold ModelHandlerFixed.predict_strength.
  rewrite HL. cbn [negb].
  unfold fixed_warning.
  destruct (ModelHandlerFixed.validate_inputs self inputs) as [is_valid errors].
  cbn [fst snd].
  rewrite bind_if_log. f_equal; [f_equal|].
  all: rewrite try_except_reraise, HX, bind_returns_nil.
  all: rewrite (np_array_float64_returns X Hov), bind_returns_nil.
  all: apply not_nan_inf_isfinite in Hfin; rewrite Hfin.
  all: rewrite bind_if_log_ret.
  all: fold (corrected (model self X)).
  all: rewrite (getitem_some _ _ _ Ha), (getitem_some _ _ _ Hc),
          (getitem_some _ _ _ He), (getitem_some _ _ _ Hz),
          (getitem_some _ _ _ Hed).
  all: rewrite !bind_returns_nil, Hd, !bind_returns_nil.
  all: unfold fixed_log, result_record, triple_label, triple_color,
         triple_description.
  all: destruct (ModelHandlerFixed._classify_nec (corrected (model self X)))
         as [[c1 c2] c3].
  all: rewrite bind_returns_nil; reflexivity.
Qed.


Lemma fixed_predict_inv (self : ConcreteModelHandler) (inputs : dict pyfloat)
    (now : string) (l : list log_record) (r : PredictionResult) :
  ModelHandlerFixed.predict_strength self inputs now = (l, Returns r) ->
  exists X agua cemento ratio escoria ceniza edad,
    is_loaded self = true /\
    getitems inputs (ModelHandlerFixed.feature_names self) = ([], Returns X) /\
    existsb float64_overflows X = false /\
    isfinite (model self X) = true /\
    dict_get inputs "Agua_kg_m3" = Some agua /\
    dict_get inputs "Cemento_kg_m3" = Some cemento /\
    py_truediv agua cemento = ([], Returns ratio) /\
    dict_get inputs "Escoria_Alto_Horno_kg_m3" = Some escoria /\
    dict_get inputs "Ceniza_Volante_kg_m3" = Some ceniza /\
    dict_get inputs "Edad_dias" = Some edad /\
    l = fixed_warning (ModelHandlerFixed.validate_inputs self inputs)
        ++ fixed_log (model self X) /\
    r = result_record (ModelHandlerFixed._classify_nec (corrected (model self X)))
          (ModelHandlerFixed.confidence_of (estabilidad (metadata self)))
          (corrected (model self X)) ratio cemento escoria ceniza edad now.
Proof.
  intros H.
  assert (H' := H). unfold ModelHandlerFixed.predict_strength in H'.
  destruct (is_loaded self) eqn:HL; cbn [negb] in H'; [|py_absurd H'].
  destruct (ModelHandlerFixed.validate_inputs self inputs) as [is_valid errors] eqn:EV.
  rewrite bind_if_log in H'. py_tail H' ltail Hl.
  rewrite try_except_reraise in H'.
  match type of H' with
  | match ?m with _ => _ end = _ =>
      destruct m as [lb [rb|eb]] eqn:Hbody; [|discriminate H']
  end.
  clear H'. rename Hbody into H'.
  pose proof (getitems_no_log inputs (ModelHandlerFixed.feature_names self)) as HG.
  destruct (getitems inputs (ModelHandlerFixed.feature_names self)) as [lg [X|e]] eqn:EX;
    cbn [fst] in HG; subst lg;
    [rewrite bind_returns_nil in H' | rewrite bind_raises in H'; discriminate H'].
  py_array H' X Eov.
  destruct (isnan (model self X) || isinf (model self X)) eqn:E3; [py_absurd H'|].
  apply not_nan_inf_isfinite in E3.
  rewrite bind_if_log_ret in H'. py_tail H' ltail' Hl'.
  py_getitem H' inputs "Agua_kg_m3" agua Ea.
  py_getitem H' inputs "Cemento_kg_m3" cemento Ec.
  pose proof (py_truediv_no_log agua cemento) as HD.
  destruct (py_truediv agua cemento) as [ld [ratio|e]] eqn:Ed;
    cbn [fst] in HD; subst ld;
    [rewrite !bind_returns_nil in H' | rewrite bind_raises in H'; discriminate H'].
  py_getitem H' inputs "Escoria_Alto_Horno_kg_m3" escoria Ee.
  py_getitem H' inputs "Ceniza_Volante_kg_m3" ceniza Ez.
  match type of H' with
  | context [ModelHandlerFixed._classify_nec ?p] =>
      destruct (ModelHandlerFixed._classify_nec p) as [[c1 c2] c3] eqn:Ecl
  end.
  py_getitem H' inputs "Edad_dias" edad Eed.
  clear H'.
  exists X, agua, cemento, ratio, escoria, ceniza, edad.
  pose proof (fixed_predict_run self inputs now X agua cemento ratio escoria
                ceniza edad HL EX Eov E3 Ea Ec Ed Ee Ez Eed) as Hrun.
  rewrite H in Hrun. apply pair_equal_spec in Hrun. destruct Hrun as [Hlog Hres].
  inversion Hres; subst r.
  rewrite EV in Hlog.
  repeat split; try assumption; try reflexivity.
Qed.

(* ================================================================== *)
(** ** What a validated mix looks like *)

Lemma strict_valid_no_errors (self : ConcreteModelHandler) (inputs : dict pyfloat) :
  fst (ModelHandler.validate_inputs self inputs) = true ->
  missing_features (ModelHandler.feature_names self) inputs = [] /\
  flat_map strict_range_violation inputs = [].
Proof.
  rewrite strict_valid_flag, strict_errors. intros H.
  apply length_zero_nil in H. apply app_eq_nil in H. destruct H as [Hm Hr].
  split; [|exact Hr].
  destruct (missing_features (ModelHandler.feature_names self) inputs);
    [reflexivity | discriminate Hm].
Qed.

Lemma extended_valid_no_errors (self : ConcreteModelHandler) (inputs : dict pyfloat) :
  fst (ModelHandlerFixed.validate_inputs self inputs) = true ->
  missing_features (ModelHandlerFixed.feature_names self) inputs = [] /\
  flat_map extended_range_violation inputs = [].
Proof.
  rewrite extended_valid_flag, extended_errors. intros H.
  apply length_zero_nil in H. apply app_eq_nil in H. destruct H as [Hm Hr].
  split; [|exact Hr].
  destruct (missing_features (ModelHandlerFixed.feature_names self) inputs);
    [reflexivity | discriminate Hm].
Qed.

Lemma strict_valid_in_range (inputs : dict pyfloat) (k : string) (v lo hi : pyfloat) :
  flat_map strict_range_violation inputs = [] ->
  dict_get inputs k = Some v ->
  dict_get ModelHandler.VALID_RANGES k = Some (lo, hi) ->
  py_le lo v = true /\ py_le v hi = true.
Proof.
  intros Hr Hv Hk.
  apply dict_get_In in Hv.
  pose proof (proj1 (flat_map_nil _ _) Hr _ Hv) as H.
  unfold strict_range_violation in H. rewrite Hk in H.
  destruct (py_le lo v && py_le v hi) eqn:E; [|discriminate H].
  now apply andb_prop in E.
Qed.

Lemma extended_valid_in_range (inputs : dict pyfloat) (k : string) (v lo hi : pyfloat) :
  flat_map extended_range_violation inputs = [] ->
  dict_get inputs k = Some v ->
  dict_get ModelHandlerFixed.VALID_RANGES k = Some (lo, hi) ->
  py_le (fst (extended_range lo hi)) v = true /\
  py_le v (snd (extended_range lo hi)) = true.
Proof.
  intros Hr Hv Hk.
  apply dict_get_In in Hv.
  pose proof (proj1 (flat_map_nil _ _) Hr _ Hv) as H.
  unfold extended_range_violation in H. rewrite Hk in H.
  destruct (extended_range lo hi) as [emin emax]. cbn [fst snd].
  destruct (py_le emin v && py_le v emax) eqn:E; [|discriminate H].
  now apply andb_prop in E.
Qed.

(** A value between two finite bounds is finite. *)
Lemma between_finite (a b : Q) (v : pyfloat) :
  py_le (Fin a) v = true -> py_le v (Fin b) = true ->
  exists q, v = Fin q /\ a <= q /\ q <= b.
Proof.
  destruct v as [q| | |]; simpl; try discriminate.
  intros H1 H2. qprop. eauto.
Qed.

Lemma canonical_in_strict_ranges (f : string) :
  In f CANONICAL_FEATURES ->
  exists a b, dict_get ModelHandler.VALID_RANGES f = Some (Fin a, Fin b) /\ 0 <= a.
Proof.
  simpl. intros H.
  repeat destruct H as [H|H]; try contradiction; subst;
    do 2 eexists; (split; [reflexivity | apply Qle_bool_iff; reflexivity]).
Qed.

Lemma canonical_in_extended_ranges (f : string) :
  In f CANONICAL_FEATURES ->
  exists lo hi a b,
    dict_get ModelHandlerFixed.VALID_RANGES f = Some (lo, hi) /\
    extended_range lo hi = (Fin a, Fin b) /\ 0 <= a.
Proof.
  simpl. intros H.
  repeat destruct H as [H|H]; try contradiction; subst;
    do 4 eexists;
    (split; [reflexivity | split; [vm_compute; reflexivity
                                  | apply Qle_bool_iff; reflexivity]]).
Qed.

Lemma strict_ranges_bounded (f : string) (a b : Q) :
  dict_get ModelHandler.VALID_RANGES f = Some (Fin a, Fin b) -> b <= 2000.
Proof.
  intros H. apply dict_get_In in H. simpl in H.
  repeat destruct H as [H|H]; try contradiction; inversion H; subst;
    apply Qle_bool_iff; reflexivity.
Qed.

Lemma extended_ranges_bounded (f : string) (lo hi : pyfloat) (a b : Q) :
  dict_get ModelHandlerFixed.VALID_RANGES f = Some (lo, hi) ->
  extended_range lo hi = (Fin a, Fin b) -> b <= 2000.
Proof.
  intros H He. apply dict_get_In in H. simpl in H.
  repeat destruct H as [H|H]; try contradiction; inversion H; subst;
    vm_compute in He; inversion He; subst; apply Qle_bool_iff; reflexivity.
Qed.

Lemma float64_limit_large : 2000 < FLOAT64_LIMIT.
Proof. apply Qlt_bool_iff. vm_compute. reflexivity. Qed.

(** Values of the size of a mix design convert to binary64. *)
Lemma bounded_vector_converts (X : list pyfloat) :
  (forall x, In x X -> exists q, x = Fin q /\ 0 <= q /\ q <= 2000) ->
  existsb float64_overflows X = false.
Proof.
  induction X as [|x X IH]; intros H; [reflexivity|].
  simpl. rewrite IH by (intros y Hy; apply H; now right).
  destruct (H x (or_introl eq_refl)) as (q & -> & Hq0 & Hq).
  rewrite orb_false_r. unfold float64_overflows.
  apply not_true_is_false. intros E. apply Qle_bool_iff in E.
  rewrite Qabs_pos in E by assumption.
  pose proof float64_limit_large. lra.
Qed.

(** No NaN, no infinity and no negative entry in a vector of non-negative
    finite values: the two guards of [model_handler.py] let it through. *)
Lemma nonneg_vector_passes (X : list pyfloat) :
  (forall x, In x X -> exists q, x = Fin q /\ 0 <= q) ->
  existsb isnan X || existsb isinf X = false /\
  existsb (fun x => py_lt x (Fin 0)) X = false.
Proof.
  induction X as [|x X IH]; intros H; [split; reflexivity|].
  destruct IH as [IH1 IH2]; [intros y Hy; apply H; now right|].
  destruct (H x (or_introl eq_refl)) as (q & -> & Hq).
  apply orb_false_elim in IH1. destruct IH1 as [I1 I2].
  simpl. rewrite I1, I2, IH2. split; [reflexivity|].
  rewrite orb_false_r. apply not_true_is_false. intros E. qprop. lra.
Qed.

Lemma strict_valid_value (inputs : dict pyfloat) (k : string) :
  missing_features CANONICAL_FEATURES inputs = [] ->
  flat_map strict_range_violation inputs = [] ->
  In k CANONICAL_FEATURES ->
  exists q a b,
    dict_get inputs k = Some (Fin q) /\
    dict_get ModelHandler.VALID_RANGES k = Some (Fin a, Fin b) /\
    0 <= a /\ a <= q /\ q <= b.
Proof.
  intros Hm Hr Hk.
  destruct (dict_in_true inputs k (proj1 (missing_features_nil _ _) Hm k Hk))
    as [v Hv].
  destruct (canonical_in_strict_ranges k Hk) as (a & b & Hab & Ha).
  destruct (strict_valid_in_range inputs k v _ _ Hr Hv Hab) as [H1 H2].
  destruct (between_finite a b v H1 H2) as (q & -> & Hq1 & Hq2).
  exists q, a, b. auto.
Qed.

Lemma extended_valid_value (inputs : dict pyfloat) (k : string) :
  missing_features CANONICAL_FEATURES inputs = [] ->
  flat_map extended_range_violation inputs = [] ->
  In k CANONICAL_FEATURES ->
  exists q lo hi a b,
    dict_get inputs k = Some (Fin q) /\
    dict_get ModelHandlerFixed.VALID_RANGES k = Some (lo, hi) /\
    extended_range lo hi = (Fin a, Fin b) /\
    0 <= a /\ a <= q /\ q <= b.
Proof.
  intros Hm Hr Hk.
  destruct (dict_in_true inputs k (proj1 (missing_features_nil _ _) Hm k Hk))
    as [v Hv].
  destruct (canonical_in_extended_ranges k Hk) as (lo & hi & a & b & Hlh & He & Ha).
  destruct (extended_valid_in_range inputs k v _ _ Hr Hv Hlh) as [H1 H2].
  rewrite He in H1, H2. cbn [fst snd] in H1, H2.
  destruct (between_finite a b v H1 H2) as (q & -> & Hq1 & Hq2).
  exists q, lo, hi, a, b. auto 6.
Qed.

(** The facts [predict_strength] of [model_handler.py] relies on after a
    successful validation against the canonical feature list. *)
Lemma strict_valid_mix (inputs : dict pyfloat) :
  missing_features CANONICAL_FEATURES inputs = [] ->
  flat_map strict_range_violation inputs = [] ->
  exists X water cement escoria ceniza edad,
    getitems inputs CANONICAL_FEATURES = ([], Returns X) /\
    existsb float64_overflows X = false /\
    existsb isnan X || existsb isinf X = false /\
    existsb (fun x => py_lt x (Fin 0)) X = false /\
    dict_get inputs "Agua_kg_m3" = Some (Fin water) /\
    dict_get inputs "Cemento_kg_m3" = Some (Fin cement) /\
    150 <= cement /\
    dict_get inputs "Escoria_Alto_Horno_kg_m3" = Some escoria /\
    dict_get inputs "Ceniza_Volante_kg_m3" = Some ceniza /\
    dict_get inputs "Edad_dias" = Some edad.
Proof.
  intros Hm Hr.
  destruct (getitems_returns inputs CANONICAL_FEATURES
              (proj1 (missing_features_nil _ _) Hm)) as (X & EX & _ & HX).
  assert (HXin : forall x, In x X -> exists q, x = Fin q /\ 0 <= q /\ q <= 2000).
  { intros x Hx. destruct (HX x Hx) as (f & Hf & Hg).
    destruct (strict_valid_value inputs f Hm Hr Hf)
      as (q & a & b & Hq & Hab & Ha & Haq & Hqb).
    pose proof (strict_ranges_bounded f a b Hab).
    rewrite Hq in Hg. inversion Hg. exists q. repeat split; lra. }
  assert (HXpos : forall x, In x X -> exists q, x = Fin q /\ 0 <= q).
  { intros x Hx. destruct (HXin x Hx) as (q & Hq & Hq0 & _). eauto. }
  pose proof (bounded_vector_converts X HXin) as Hov.
  destruct (nonneg_vector_passes X HXpos) as [G1 G2].
  destruct (strict_valid_value inputs "Agua_kg_m3" Hm Hr)
    as (water & ? & ? & Hw & _); [simpl; tauto|].
  destruct (strict_valid_value inputs "Cemento_kg_m3" Hm Hr)
    as (cement & a & b & Hc & Hab & _ & Hac & _); [simpl; tauto|].
  assert (Ha : a = 150) by (vm_compute in Hab; now inversion Hab).
  subst a.
  destruct (strict_valid_value inputs "Escoria_Alto_Horno_kg_m3" Hm Hr)
    as (escoria & ? & ? & He & _); [simpl; tauto|].
  destruct (strict_valid_value inputs "Ceniza_Volante_kg_m3" Hm Hr)
    as (ceniza & ? & ? & Hz & _); [simpl; tauto|].
  destruct (strict_valid_value inputs "Edad_dias" Hm Hr)
    as (edad & ? & ? & Hed & _); [simpl; tauto|].
  exists X, water, cement, (Fin escoria), (Fin ceniza), (Fin edad).
  repeat split; assumption.
Qed.

(** The same for [model_handler_fixed.py], whose extended cement range
    starts at 58.2. *)
Lemma extended_valid_mix (inputs : dict pyfloat) :
  missing_features CANONICAL_FEATURES inputs = [] ->
  flat_map extended_range_violation inputs = [] ->
  exists X water cement escoria ceniza edad,
    getitems inputs CANONICAL_FEATURES = ([], Returns X) /\
    existsb float64_overflows X = false /\
    dict_get inputs "Agua_kg_m3" = Some (Fin water) /\
    dict_get inputs "Cemento_kg_m3" = Some (Fin cement) /\
    (291 # 5) <= cement /\
    dict_get inputs "Escoria_Alto_Horno_kg_m3" = Some escoria /\
    dict_get inputs "Ceniza_Volante_kg_m3" = Some ceniza /\
    dict_get inputs "Edad_dias" = Some edad.
Proof.
  intros Hm Hr.
  destruct (getitems_returns inputs CANONICAL_FEATURES
              (proj1 (missing_features_nil _ _) Hm)) as (X & EX & _ & HX).
  assert (Hov : existsb float64_overflows X = false).
  { apply bounded_vector_converts. intros x Hx.
    destruct (HX x Hx) as (f & Hf & Hg).
    destruct (extended_valid_value inputs f Hm Hr Hf)
      as (q & lo & hi & a & b & Hq & Hlh & Hab & Ha & Haq & Hqb).
    pose proof (extended_ranges_bounded f lo hi a b Hlh Hab).
    rewrite Hq in Hg. inversion Hg. exists q. repeat split; lra. }
  destruct (extended_valid_value inputs "Agua_kg_m3" Hm Hr)
    as (water & ? & ? & ? & ? & Hw & _); [simpl; tauto|].
  destruct (extended_valid_value inputs "Cemento_kg_m3" Hm Hr)
    as (cement & lo & hi & a & b & Hc & Hlh & Hab & _ & Hac & _); [simpl; tauto|].
  assert (Ha : a == 291 # 5).
  { vm_compute in Hlh. inversion Hlh; subst lo hi.
    vm_compute in Hab. inversion Hab. reflexivity. }
  destruct (extended_valid_value inputs "Escoria_Alto_Horno_kg_m3" Hm Hr)
    as (escoria & ? & ? & ? & ? & He & _); [simpl; tauto|].
  destruct (extended_valid_value inputs "Ceniza_Volante_kg_m3" Hm Hr)
    as (ceniza & ? & ? & ? & ? & Hz & _); [simpl; tauto|].
  destruct (extended_valid_value inputs "Edad_dias" Hm Hr)
    as (edad & ? & ? & ? & ? & Hed & _); [simpl; tauto|].
  exists X, water, cement, (Fin escoria), (Fin ceniza), (Fin edad).
  repeat split; try assumption. lra.
Qed.

Lemma strict_predict_invalid_prediction (self : ConcreteModelHandler)
    (inputs : dict pyfloat) (now : string) (X : list pyfloat) :
  is_loaded self = true ->
  fst (ModelHandler.validate_inputs self inputs) = true ->
  getitems inputs (ModelHandler.feature_names self) = ([], Returns X) ->
  existsb float64_overflows X = false ->
  existsb isnan X || existsb isinf X = false ->
  existsb (fun x => py_lt x (Fin 0)) X = false ->
  isfinite (model self X) = false ->
  ModelHandler.predict_strength self inputs now
  = ([ErrorPrediction (ValueError "La predicción resultó en un valor inválido")],
     Raises (ValueError "La predicción resultó en un valor inválido")).
Proof.
  intros HL HV HX Hov Hnan Hneg Hfin.
  unfold ModelHandler.predict_strength.
  rewrite HL. cbn [negb].
  destruct (ModelHandler.validate_inputs self inputs) as [is_valid errors].
  cbn [fst] in HV. subst is_valid. cbn [negb].
  rewrite try_except_reraise, HX, bind_returns_nil.
  rewrite (np_array_float64_returns X Hov), bind_returns_nil, Hnan, Hneg.
  assert (E : isnan (model self X) || isinf (model self X) = true)
    by (destruct (model self X); simpl in *; congruence).
  now rewrite E.
Qed.

Lemma fixed_predict_invalid_prediction (self : ConcreteModelHandler)
    (inputs : dict pyfloat) (now : string) (X : list pyfloat) :
  is_loaded self = true ->
  getitems inputs (ModelHandlerFixed.feature_names self) = ([], Returns X) ->
  existsb float64_overflows X = false ->
  isfinite (model self X) = false ->
  ModelHandlerFixed.predict_strength self inputs now
  = (fixed_warning (ModelHandlerFixed.validate_inputs self inputs)
       ++ [ErrorPrediction (ValueError "Predicción resultó en valor inválido")],
     Raises (ValueError "Predicción resultó en valor inválido")).
Proof.
  intros HL HX Hov Hfin.
  unfold ModelHandlerFixed.predict_strength.
  rewrite HL. cbn [negb]. unfold fixed_warning.
  destruct (ModelHandlerFixed.validate_inputs self inputs) as [is_valid errors].
  cbn [fst snd].
  rewrite bind_if_log. f_equal; [f_equal|].
  all: rewrite try_except_reraise, HX, bind_returns_nil.
  all: rewrite (np_array_float64_returns X Hov), bind_returns_nil.
  all: assert (E : isnan (model self X) || isinf (model self X) = true)
         by (destruct (model self X); simpl in *; congruence).
  all: now rewrite E.
Qed.

(* ================================================================== *)
(** ** Predicting a validated mix *)

Lemma corrected_nonneg (p : pyfloat) :
  isfinite p = true ->
  isfinite (corrected p) = true /\ py_le (Fin 0) (corrected p) = true.
Proof.
  destruct p as [q| | |]; try discriminate. intros _.
  unfold corrected. simpl.
  destruct (Qlt_bool q 0) eqn:E; simpl; split; try reflexivity; qprop.
  - apply Qabs_nonneg.
  - exact E.
Qed.

(** Rounding to three decimals moves a value by half a unit of the third
    decimal at most; a full unit leaves room for the rounding of the
    quotient itself. *)
Lemma round3_within_thousandth (q : Q) :
  Qabs (round_ndigits q 3 - q) <= 1 # 1000.
Proof.
  eapply Qle_trans; [apply round_ndigits_near|].
  apply Qle_bool_iff. reflexivity.
Qed.

(** C1, as the specification states it, fails.  On the preset
    "C25 - Estructural", which passes the validation of
    [model_handler.py] and has cement 320 and water 165, the ratio field of
    the result is 0.516 while water / cement is 0.515625: the field is the
    ratio rounded to three decimals.  And when the model answers -50 on
    that mix, [model_handler.py] returns the strength -50. *)
Lemma predict_strength_rounds_ratio_keeps_sign :
  let mix := Samples.C25_Estructural in
  let h := Samples.constant_handler (Fin 300) (Fin (1 # 100)) in
  let h' := Samples.constant_handler (Fin (-50)) (Fin (1 # 100)) in
  fst (ModelHandler.validate_inputs h mix) = true /\
  fst (ModelHandlerFixed.validate_inputs h mix) = true /\
  dict_get mix "Cemento_kg_m3" = Some (Fin 320) /\
  dict_get mix "Agua_kg_m3" = Some (Fin 165) /\
  (exists r, returned (ModelHandler.predict_strength h mix "t0") = Some r /\
             relacion_agua_cemento r = Fin (516 # 1000) /\
             ~ (516 # 1000 == 165 / 320) /\
             Qabs ((516 # 1000) - 165 / 320) == 3 # 8000) /\
  (exists r, returned (ModelHandlerFixed.predict_strength h mix "t0") = Some r /\
             relacion_agua_cemento r = Fin (516 # 1000)) /\
  (exists r, returned (ModelHandler.predict_strength h' mix "t0") = Some r /\
             py_lt (resistencia_predicha_kg_cm2 r) (Fin 0) = true /\
             py_eq (resistencia_predicha_kg_cm2 r) (Fin (-50)) = true).
Proof.
  cbv zeta. repeat split; try reflexivity.
  - eexists. split; [vm_compute; reflexivity|].
    repeat split; try reflexivity.
    intros H. vm_compute in H. discriminate H.
  - eexists. split; [vm_compute; reflexivity | reflexivity].
  - eexists. split; [vm_compute; reflexivity|]. split; reflexivity.
Qed.

(** C1, amended.  On a loaded handler, a mix that passes the validation
    has a positive cement, and [predict_strength] returns a result for it
    whenever the prediction of the model is finite.  The strength of the
    result is a number, not NaN; it is finite as long as a hundred times
    the prediction stays within the range of binary64 ([round] scales
    before it rounds); it is never negative in [model_handler_fixed.py],
    and in [model_handler.py] it is not negative when the prediction is
    not.  The ratio field agrees with water / cement to the third decimal,
    that is to within 0.001, and not further: it is the quotient rounded to
    three decimals.  When the prediction is NaN or infinite the call raises
    [ValueError] instead. *)
Theorem predict_strength_on_valid_mix
    (self : ConcreteModelHandler) (inputs : dict pyfloat) (now : string) :
  is_loaded self = true ->
  (ModelHandler.feature_names self = CANONICAL_FEATURES ->
   fst (ModelHandler.validate_inputs self inputs) = true ->
   exists X water cement,
     feature_vector inputs CANONICAL_FEATURES = Some X /\
     dict_get inputs "Agua_kg_m3" = Some (Fin water) /\
     dict_get inputs "Cemento_kg_m3" = Some (Fin cement) /\
     0 < cement /\
     (isfinite (model self X) = true ->
      exists r ratio,
        returned (ModelHandler.predict_strength self inputs now) = Some r /\
        isnan (resistencia_predicha_kg_cm2 r) = false /\
        (float64_overflows (py_mul (model self X) (Fin 100)) = false ->
         isfinite (resistencia_predicha_kg_cm2 r) = true) /\
        (py_le (Fin 0) (model self X) = true ->
         py_le (Fin 0) (resistencia_predicha_kg_cm2 r) = true) /\
        relacion_agua_cemento r = Fin ratio /\
        Qabs (ratio - water / cement) <= 1 # 1000) /\
     (isfinite (model self X) = false ->
      raised (ModelHandler.predict_strength self inputs now)
      = Some (ValueError "La predicción resultó en un valor inválido"))) /\
  (fst (ModelHandlerFixed.validate_inputs self inputs) = true ->
   exists X water cement,
     feature_vector inputs CANONICAL_FEATURES = Some X /\
     dict_get inputs "Agua_kg_m3" = Some (Fin water) /\
     dict_get inputs "Cemento_kg_m3" = Some (Fin cement) /\
     0 < cement /\
     (isfinite (model self X) = true ->
      exists r ratio,
        returned (ModelHandlerFixed.predict_strength self inputs now) = Some r /\
        isnan (resistencia_predicha_kg_cm2 r) = false /\
        (float64_overflows (py_mul (model self X) (Fin 100)) = false ->
         isfinite (resistencia_predicha_kg_cm2 r) = true) /\
        py_le (Fin 0) (resistencia_predicha_kg_cm2 r) = true /\
        relacion_agua_cemento r = Fin ratio /\
        Qabs (ratio - water / cement) <= 1 # 1000) /\
     (isfinite (model self X) = false ->
      raised (ModelHandlerFixed.predict_strength self inputs now)
      = Some (ValueError "Predicción resultó en valor inválido"))).
Proof.
  intros HL. split.
  - intros Hnames HV.
    destruct (strict_valid_no_errors self inputs HV) as [Hm Hr].
    rewrite Hnames in Hm.
    destruct (strict_valid_mix inputs Hm Hr)
      as (X & water & cement & escoria & ceniza & edad
          & EX & Hov & G1 & G2 & Hw & Hc & Hpos & He & Hz & Hed).
    exists X, water, cement.
    split; [now apply feature_vector_intro|].
    repeat split; try assumption; [lra | |].
    + intros Hfin.
      assert (Hdiv : py_truediv (Fin water) (Fin cement)
                     = ([], Returns (Fin (water / cement))))
        by (apply py_truediv_finite; lra).
      rewrite <- Hnames in EX.
      pose proof (strict_predict_run self inputs now X _ _ _ _ _ _
                    HL HV EX Hov G1 G2 Hfin Hw Hc Hdiv He Hz Hed) as Hrun.
      eexists. exists (round_ndigits (water / cement) 3).
      split; [unfold returned; rewrite Hrun; reflexivity|].
      cbn [result_record resistencia_predicha_kg_cm2 relacion_agua_cemento].
      pose proof (py_round_isfinite (model self X) 2) as Hround.
      rewrite Hfin in Hround.
      repeat split.
      * destruct (py_round (model self X) 2); [reflexivity | | | ]; discriminate Hround.
      * intros _. exact Hround.
      * apply py_round_nonneg.
      * apply round3_within_thousandth.
    + intros Hfin. rewrite <- Hnames in EX.
      unfold raised.
      now rewrite (strict_predict_invalid_prediction self inputs now X
                     HL HV EX Hov G1 G2 Hfin).
  - intros HV.
    destruct (extended_valid_no_errors self inputs HV) as [Hm Hr].
    change (ModelHandlerFixed.feature_names self) with CANONICAL_FEATURES in Hm.
    destruct (extended_valid_mix inputs Hm Hr)
      as (X & water & cement & escoria & ceniza & edad
          & EX & Hov & Hw & Hc & Hpos & He & Hz & Hed).
    exists X, water, cement.
    split; [now apply feature_vector_intro|].
    repeat split; try assumption; [lra | |].
    + intros Hfin.
      assert (Hdiv : py_truediv (Fin water) (Fin cement)
                     = ([], Returns (Fin (water / cement))))
        by (apply py_truediv_finite; lra).
      pose proof (fixed_predict_run self inputs now X _ _ _ _ _ _
                    HL EX Hov Hfin Hw Hc Hdiv He Hz Hed) as Hrun.
      destruct (corrected_nonneg _ Hfin) as [C1 C2].
      eexists. exists (round_ndigits (water / cement) 3).
      split; [unfold returned; rewrite Hrun; reflexivity|].
      cbn [result_record resistencia_predicha_kg_cm2 relacion_agua_cemento].
      pose proof (py_round_isfinite (corrected (model self X)) 2) as Hround.
      rewrite C1 in Hround.
      repeat split.
      * destruct (py_round (corrected (model self X)) 2);
          [reflexivity | | | ]; discriminate Hround.
      * intros _. exact Hround.
      * now apply py_round_nonneg.
      * apply round3_within_thousandth.
    + intros Hfin. unfold raised.
      now rewrite (fixed_predict_invalid_prediction self inputs now X HL EX Hov Hfin).
Qed.

Lemma predict_strength_on_valid_mix_witness :
  (exists r,
      returned (ModelHandler.predict_strength
                  (Samples.constant_handler (Fin 300) (Fin (1 # 100)))
                  Samples.C25_Estructural "t0") = Some r /\
      isfinite (resistencia_predicha_kg_cm2 r) = true) /\
  (exists r,
      returned (ModelHandlerFixed.predict_strength
                  (Samples.constant_handler (Fin (-50)) (Fin (1 # 100)))
                  Samples.C25_Estructural "t0") = Some r /\
      py_le (Fin 0) (resistencia_predicha_kg_cm2 r) = true).
Proof.
  split.
  - destruct (predict_strength_on_valid_mix
                (Samples.constant_handler (Fin 300) (Fin (1 # 100)))
                Samples.C25_Estructural "t0" eq_refl) as [HS _].
    destruct (HS eq_refl eq_refl)
      as (X & water & cement & HX & _ & _ & _ & Hret & _).
    vm_compute in HX. inversion HX; subst X.
    destruct (Hret eq_refl) as (r & ratio & Hr & _ & Hfin & _).
    exists r. split; [assumption | now apply Hfin].
  - destruct (predict_strength_on_valid_mix
                (Samples.constant_handler (Fin (-50)) (Fin (1 # 100)))
                Samples.C25_Estructural "t0" eq_refl) as [_ HF].
    destruct (HF eq_refl) as (X & water & cement & _ & _ & _ & _ & Hret & _).
    destruct (Hret eq_refl) as (r & ratio & Hr & _ & _ & Hpos & _).
    exists r. split; assumption.
Defined.

(* ================================================================== *)
(** ** Repeating a prediction *)

Lemma at_clock_bind {A : Type} (t : string) (m : Py A)
    (k : A -> Py PredictionResult) :
  at_clock t (bind m k) = bind m (fun a => at_clock t (k a)).
Proof.
  destruct m as [l [a|e]]; simpl; [|reflexivity].
  destruct (k a) as [l' [r|e]]; reflexivity.
Qed.

Lemma at_clock_try_except (t : string) (m : Py PredictionResult) :
  at_clock t (try_except m (fun e => log (ErrorPrediction e) ;; raise e))
  = try_except (at_clock t m) (fun e => log (ErrorPrediction e) ;; raise e).
Proof. destruct m as [l [r|e]]; reflexivity. Qed.

(** Push [at_clock] through the next step of a computation. *)
Ltac clock_step :=
  first
    [ reflexivity
    | rewrite at_clock_bind; apply bind_ext; intros ?
    | match goal with
      | |- at_clock _ (match ?p with _ => _ end) = _ => destruct p
      end ].

Lemma strict_predict_at_clock (self : ConcreteModelHandler)
    (inputs : dict pyfloat) (t1 t2 : string) :
  at_clock t2 (ModelHandler.predict_strength self inputs t1)
  = ModelHandler.predict_strength self inputs t2.
Proof.
  unfold ModelHandler.predict_strength.
  destruct (negb (is_loaded self)); [reflexivity|].
  destruct (ModelHandler.validate_inputs self inputs) as [is_valid errors].
  destruct (negb is_valid); [reflexivity|].
  rewrite at_clock_try_except. f_equal.
  repeat clock_step.
Qed.

Lemma fixed_predict_at_clock (self : ConcreteModelHandler)
    (inputs : dict pyfloat) (t1 t2 : string) :
  at_clock t2 (ModelHandlerFixed.predict_strength self inputs t1)
  = ModelHandlerFixed.predict_strength self inputs t2.
Proof.
  unfold ModelHandlerFixed.predict_strength.
  destruct (negb (is_loaded self)); [reflexivity|].
  destruct (ModelHandlerFixed.validate_inputs self inputs) as [is_valid errors].
  rewrite at_clock_bind. apply bind_ext. intros _.
  rewrite at_clock_try_except. f_equal.
  repeat clock_step.
Qed.

(** C4, as the specification states it, fails.  Two calls on the same
    handler and the same mix read the clock at different instants and
    return records that differ (in their [timestamp]). *)
Lemma repeated_predictions_differ :
  let h := Samples.constant_handler (Fin 300) (Fin (1 # 100)) in
  let mix := Samples.C25_Estructural in
  ModelHandler.predict_strength h mix "2025-01-01T10:00:00.000001"
  <> ModelHandler.predict_strength h mix "2025-01-01T10:00:00.000002" /\
  ModelHandlerFixed.predict_strength h mix "2025-01-01T10:00:00.000001"
  <> ModelHandlerFixed.predict_strength h mix "2025-01-01T10:00:00.000002".
Proof.
  cbv zeta. split; intros H; vm_compute in H; discriminate H.
Qed.

Lemma strict_validate_by_names (self self' : ConcreteModelHandler)
    (inputs : dict pyfloat) :
  ModelHandler.feature_names self = ModelHandler.feature_names self' ->
  ModelHandler.validate_inputs self inputs
  = ModelHandler.validate_inputs self' inputs.
Proof.
  intros H. unfold ModelHandler.validate_inputs. now rewrite H.
Qed.

(** What one invocation takes from the artifact is the prediction for the
    feature vector of the mix, and nothing else. *)
Lemma bind_ext_on {A B : Type} (m : Py A) (k k' : A -> Py B) :
  (forall a, snd m = Returns a -> k a = k' a) -> bind m k = bind m k'.
Proof.
  intros H. destruct m as [l [a|e]]; simpl; [|reflexivity].
  now rewrite (H a eq_refl).
Qed.

Lemma feature_vector_of_steps (inputs : dict pyfloat) (names : list string)
    (Y X : list pyfloat) :
  snd (getitems inputs names) = Returns Y ->
  snd (np_array_float64 Y) = Returns X ->
  feature_vector inputs names = Some X.
Proof.
  intros HY HX. unfold feature_vector, returned.
  destruct (getitems inputs names) as [lg o]. cbn [snd] in HY. subst o.
  rewrite bind_returns_log. cbn [snd]. now rewrite HX.
Qed.

Lemma strict_predict_same_answer (self self' : ConcreteModelHandler)
    (inputs : dict pyfloat) (now : string) :
  is_loaded self' = is_loaded self ->
  metadata self' = metadata self ->
  (forall X,
      feature_vector inputs (ModelHandler.feature_names self) = Some X ->
      model self' X = model self X) ->
  ModelHandler.predict_strength self' inputs now
  = ModelHandler.predict_strength self inputs now.
Proof.
  intros HL HM Hm. unfold ModelHandler.predict_strength.
  rewrite HL.
  rewrite (strict_validate_by_names self' self inputs)
    by (unfold ModelHandler.feature_names; now rewrite HM).
  destruct (negb (is_loaded self)); [reflexivity|].
  destruct (ModelHandler.validate_inputs self inputs) as [is_valid errors].
  destruct (negb is_valid); [reflexivity|].
  f_equal. unfold ModelHandler.feature_names in *. rewrite HM.
  apply bind_ext_on. intros Y HY. apply bind_ext_on. intros X HX.
  now rewrite (Hm X (feature_vector_of_steps _ _ Y X HY HX)).
Qed.

Lemma fixed_predict_same_answer (self self' : ConcreteModelHandler)
    (inputs : dict pyfloat) (now : string) :
  is_loaded self' = is_loaded self ->
  metadata self' = metadata self ->
  (forall X,
      feature_vector inputs CANONICAL_FEATURES = Some X ->
      model self' X = model self X) ->
  ModelHandlerFixed.predict_strength self' inputs now
  = ModelHandlerFixed.predict_strength self inputs now.
Proof.
  intros HL HM Hm. unfold ModelHandlerFixed.predict_strength.
  rewrite HL.
  destruct (negb (is_loaded self)); [reflexivity|].
  change (ModelHandlerFixed.validate_inputs self' inputs)
    with (ModelHandlerFixed.validate_inputs self inputs).
  destruct (ModelHandlerFixed.validate_inputs self inputs) as [is_valid errors].
  apply bind_ext. intros _. f_equal.
  change (ModelHandlerFixed.feature_names self') with CANONICAL_FEATURES.
  apply bind_ext_on. intros Y HY. apply bind_ext_on. intros X HX.
  now rewrite (Hm X (feature_vector_of_steps _ _ Y X HY HX)), HM.
Qed.

Lemma returned_at_clock (t : string) (m : Py PredictionResult) (r : PredictionResult) :
  returned m = Some r -> returned (at_clock t m) = Some (with_timestamp t r).
Proof.
  unfold returned. destruct m as [l [a|e]]; cbn [snd at_clock]; [|discriminate].
  now intros [= ->].
Qed.

(** C4, amended.  Take two invocations of [predict_strength] on the same
    mix, at the clock readings [t] and [t'], the loaded artifact being
    [self] during the first and [self'] during the second: the same
    metadata, the same [is_loaded], and a model that gives the same
    prediction for the feature vector of the mix under the feature names
    of either handler (it may differ on every other sample).  The two
    invocations log the same records and end the same way: they raise the
    same exception, or they return records that agree on every field
    except [timestamp].  That field holds the clock reading of each
    invocation, so the two records are identical exactly when the two
    readings are. *)
Theorem predict_strength_deterministic_up_to_timestamp
    (self self' : ConcreteModelHandler) (inputs : dict pyfloat) (t t' : string) :
  is_loaded self' = is_loaded self ->
  metadata self' = metadata self ->
  (forall X,
      feature_vector inputs (ModelHandler.feature_names self) = Some X \/
      feature_vector inputs CANONICAL_FEATURES = Some X ->
      model self' X = model self X) ->
  (ModelHandler.predict_strength self' inputs t'
   = at_clock t' (ModelHandler.predict_strength self inputs t) /\
   forall r r',
     returned (ModelHandler.predict_strength self inputs t) = Some r ->
     returned (ModelHandler.predict_strength self' inputs t') = Some r' ->
     timestamp r = t /\ timestamp r' = t' /\ (r' = r <-> t' = t)) /\
  (ModelHandlerFixed.predict_strength self' inputs t'
   = at_clock t' (ModelHandlerFixed.predict_strength self inputs t) /\
   forall r r',
     returned (ModelHandlerFixed.predict_strength self inputs t) = Some r ->
     returned (ModelHandlerFixed.predict_strength self' inputs t') = Some r' ->
     timestamp r = t /\ timestamp r' = t' /\ (r' = r <-> t' = t)).
Proof.
  intros HL HM Hm.
  assert (HS : ModelHandler.predict_strength self' inputs t'
               = at_clock t' (ModelHandler.predict_strength self inputs t))
    by (rewrite strict_predict_at_clock;
        apply strict_predict_same_answer; auto).
  assert (HF : ModelHandlerFixed.predict_strength self' inputs t'
               = at_clock t' (ModelHandlerFixed.predict_strength self inputs t))
    by (rewrite fixed_predict_at_clock;
        apply fixed_predict_same_answer; auto).
  split; (split; [assumption|]); intros r r' Hr Hr'.
  - assert (Ht : timestamp r = t).
    { pose proof (strict_predict_at_clock self inputs t t) as Hid.
      apply (returned_at_clock t) in Hr as Hr2. rewrite Hid, Hr in Hr2.
      inversion Hr2 as [Heq]. now rewrite Heq at 1. }
    rewrite HS in Hr'. rewrite (returned_at_clock t' _ r Hr) in Hr'.
    inversion Hr'; subst r'. cbn [timestamp with_timestamp].
    split; [assumption|]. split; [reflexivity|]. split.
    + intros Heq. rewrite <- Ht, <- Heq. reflexivity.
    + intros ->. rewrite <- Ht. now destruct r.
  - assert (Ht : timestamp r = t).
    { pose proof (fixed_predict_at_clock self inputs t t) as Hid.
      apply (returned_at_clock t) in Hr as Hr2. rewrite Hid, Hr in Hr2.
      inversion Hr2 as [Heq]. now rewrite Heq at 1. }
    rewrite HF in Hr'. rewrite (returned_at_clock t' _ r Hr) in Hr'.
    inversion Hr'; subst r'. cbn [timestamp with_timestamp].
    split; [assumption|]. split; [reflexivity|]. split.
    + intros Heq. rewrite <- Ht, <- Heq. reflexivity.
    + intros ->. rewrite <- Ht. now destruct r.
Qed.

(** The second handler answers 300 for the feature vector of the preset and
    nothing useful anywhere else. *)
Lemma predict_strength_deterministic_up_to_timestamp_witness :
  let h := Samples.constant_handler (Fin 300) (Fin (1 # 100)) in
  let h' := {| model := fun X =>
                 match X with
                 | Fin cement :: _ => if Qeq_bool cement 320 then Fin 300 else NaN
                 | _ => NaN
                 end;
               metadata := metadata h;
               is_loaded := true |} in
  model h' [Fin 0] <> model h [Fin 0] /\
  ModelHandler.predict_strength h' Samples.C25_Estructural "t1"
  = at_clock "t1" (ModelHandler.predict_strength h Samples.C25_Estructural "t0") /\
  ModelHandlerFixed.predict_strength h' Samples.C25_Estructural "t1"
  = at_clock "t1" (ModelHandlerFixed.predict_strength h Samples.C25_Estructural "t0").
Proof.
  cbv zeta.
  destruct (predict_strength_deterministic_up_to_timestamp
              (Samples.constant_handler (Fin 300) (Fin (1 # 100)))
              {| model := fun X =>
                   match X with
                   | Fin cement :: _ =>
                       if Qeq_bool cement 320 then Fin 300 else NaN
                   | _ => NaN
                   end;
                 metadata := metadata (Samples.constant_handler
                                         (Fin 300) (Fin (1 # 100)));
                 is_loaded := true |}
              Samples.C25_Estructural "t0" "t1" eq_refl eq_refl)
    as [[HS _] [HF _]].
  - intros X [HX|HX]; vm_compute in HX; inversion HX; reflexivity.
  - split; [discriminate|]. split; assumption.
Defined.

(* ================================================================== *)
(** ** What a returned result holds *)

Lemma returned_inv {A : Type} (m : Py A) (a : A) :
  returned m = Some a -> m = (logged m, Returns a).
Proof.
  unfold returned, logged. destruct m as [l [a'|e]]; simpl; congruence.
Qed.


(** C6. Whatever stability the metadata of the handler records (zero,
    huge, infinite or NaN), the confidence computed from it lies between
    the lower clamp bound (0.6 in [model_handler.py], 0.7 in
    [model_handler_fixed.py]) and 0.95, bounds included, and so does the
    confidence score stored in every result [predict_strength] returns. *)
Theorem confidence_within_clamp_bounds
    (self : ConcreteModelHandler) (inputs : dict pyfloat) (now : string)
    (r : PredictionResult) :
  (py_le (Fin (6 # 10))
         (ModelHandler.confidence_of (estabilidad (metadata self))) = true /\
   py_le (ModelHandler.confidence_of (estabilidad (metadata self)))
         (Fin (95 # 100)) = true /\
   (returned (ModelHandler.predict_strength self inputs now) = Some r ->
    py_le (Fin (6 # 10)) (confianza_prediccion r) = true /\
    py_le (confianza_prediccion r) (Fin (95 # 100)) = true)) /\
  (py_le (Fin (7 # 10))
         (ModelHandlerFixed.confidence_of (estabilidad (metadata self))) = true /\
   py_le (ModelHandlerFixed.confidence_of (estabilidad (metadata self)))
         (Fin (95 # 100)) = true /\
   (returned (ModelHandlerFixed.predict_strength self inputs now) = Some r ->
    py_le (Fin (7 # 10)) (confianza_prediccion r) = true /\
    py_le (confianza_prediccion r) (Fin (95 # 100)) = true)).
Proof.
  destruct (confidence_of_clamped (estabilidad (metadata self)))
    as [(A1 & A2 & A3 & A4) (B1 & B2 & B3 & B4)].
  split; (split; [assumption | split; [assumption|]]).
  - intros H. apply returned_inv, strict_predict_inv in H.
    destruct H as (X & agua & cemento & ratio & escoria & ceniza & edad & H).
    repeat match type of H with _ /\ _ => destruct H as [_ H] end.
    subst r. now split.
  - intros H. apply returned_inv, fixed_predict_inv in H.
    destruct H as (X & agua & cemento & ratio & escoria & ceniza & edad & H).
    repeat match type of H with _ /\ _ => destruct H as [_ H] end.
    subst r. now split.
Qed.

Lemma confidence_within_clamp_bounds_witness :
  let h := Samples.constant_handler (Fin 300) PInf in
  (exists r,
      returned (ModelHandler.predict_strength h Samples.C25_Estructural "t0")
      = Some r /\
      py_le (Fin (6 # 10)) (confianza_prediccion r) = true /\
      py_le (confianza_prediccion r) (Fin (95 # 100)) = true) /\
  (exists r,
      returned (ModelHandlerFixed.predict_strength h Samples.C25_Estructural "t0")
      = Some r /\
      py_le (Fin (7 # 10)) (confianza_prediccion r) = true /\
      py_le (confianza_prediccion r) (Fin (95 # 100)) = true).
Proof.
  cbv zeta.
  set (h := Samples.constant_handler (Fin 300) PInf).
  split.
  - destruct (ModelHandler.predict_strength h Samples.C25_Estructural "t0")
      as [l [r|e]] eqn:E; [|vm_compute in E; discriminate E].
    exists r. split; [reflexivity|].
    destruct (confidence_within_clamp_bounds h Samples.C25_Estructural "t0" r)
      as [(_ & _ & HS) _].
    apply HS. unfold returned. now rewrite E.
  - destruct (ModelHandlerFixed.predict_strength h Samples.C25_Estructural "t0")
      as [l [r|e]] eqn:E; [|vm_compute in E; discriminate E].
    exists r. split; [reflexivity|].
    destruct (confidence_within_clamp_bounds h Samples.C25_Estructural "t0" r)
      as [_ (_ & _ & HF)].
    apply HF. unfold returned. now rewrite E.
Defined.

(* ================================================================== *)
(** ** Zero cement *)

(** The helper of [utils.py], which no handler calls, tolerates a zero
    cement: it logs a warning and answers 0. *)
Lemma calculate_water_cement_ratio_zero_cement (water : pyfloat) (c : Q) :
  c == 0 ->
  Utils.calculate_water_cement_ratio water (Fin c)
  = ([WarningZeroCement], Returns (Fin 0)).
Proof.
  intros H. unfold Utils.calculate_water_cement_ratio. simpl.
  apply Qeq_bool_iff in H. now rewrite H.
Qed.





(* ================================================================== *)
(** ** Negative predictions *)

(** C9, as the specification states it, fails on [model_handler.py].  When
    the model answers -50 on the preset "C25 - Estructural", that handler
    logs an out-of-range warning and returns the strength -50: it takes no
    absolute value and logs no correction. *)
Lemma model_handler_keeps_negative_prediction :
  let h := Samples.constant_handler (Fin (-50)) (Fin (1 # 100)) in
  let call := ModelHandler.predict_strength h Samples.C25_Estructural "t0" in
  logged call = [WarningOutOfNormalRange (Fin (-50)); InfoSuccess (Fin (-50))] /\
  exists r, returned call = Some r /\
            py_lt (resistencia_predicha_kg_cm2 r) (Fin 0) = true /\
            py_eq (resistencia_predicha_kg_cm2 r) (Fin (-50)) = true.
Proof.
  cbv zeta. split; [reflexivity|].
  eexists. split; [vm_compute; reflexivity|]. split; reflexivity.
Qed.

Lemma negative_outside_normal_range (p : pyfloat) :
  py_lt p (Fin 0) = true ->
  negb (py_le (Fin 5) p && py_le p (Fin 1000)) = true.
Proof.
  destruct p as [q| | |]; simpl; try discriminate; [|reflexivity].
  intros H. qprop.
  assert (E : Qle_bool 5 q = false)
    by (apply not_true_is_false; intros E; qprop; lra).
  now rewrite E.
Qed.

(** Rounding to two decimals keeps a value of -0.01 or below negative, and
    turns a negative value down to -0.005 into zero. *)
Lemma round2_negative (p : pyfloat) :
  py_le p (Fin (-1 # 100)) = true -> py_lt (py_round p 2) (Fin 0) = true.
Proof.
  destruct p as [q| | |]; try discriminate; [|reflexivity].
  unfold py_round. simpl. intros H. qprop.
  pose proof (round_ndigits_le (-1) q 2) as Hle.
  change (inject_Z (-1) / inject_Z (10 ^ Z.of_nat 2)) with ((-1 # 1) / 100) in Hle.
  assert (Hq : q <= (-1 # 1) / 100)
    by (eapply Qle_trans; [exact H | apply Qle_bool_iff; reflexivity]).
  specialize (Hle Hq).
  assert (Hneg : (-1 # 1) / 100 < 0) by (apply Qlt_bool_iff; reflexivity).
  lra.
Qed.

Lemma round2_small_negative (p : pyfloat) :
  py_le (Fin (-5 # 1000)) p = true -> py_lt p (Fin 0) = true ->
  py_eq (py_round p 2) (Fin 0) = true.
Proof.
  destruct p as [q| | |]; try discriminate.
  unfold py_round. simpl. intros H1 H2. qprop.
  unfold round_ndigits. change (inject_Z (10 ^ Z.of_nat 2)) with 100.
  destruct (Qlt_le_dec (- (1 # 2)) (q * 100)) as [Hgt|Hle].
  - rewrite (round_half_even_nearest 0).
    + reflexivity.
    + change (inject_Z 0) with 0. lra.
    + change (inject_Z 0) with 0. lra.
  - assert (Heq : q * 100 == - (1 # 2)) by lra.
    assert (Hf : Qfloor (q * 100) = (-1)%Z) by (rewrite Heq; reflexivity).
    assert (Hc : Qcompare (q * 100 - inject_Z (-1)) (1 # 2) = Eq)
      by (apply Qeq_alt; rewrite Heq; reflexivity).
    unfold round_half_even. cbv zeta. rewrite Hf, Hc. reflexivity.
Qed.

(** Rounding to two decimals moves a finite value by less than a unit of
    the second decimal. *)
Lemma round2_close (p : pyfloat) :
  isfinite p = true -> py_close (1 # 100) (py_round p 2) p = true.
Proof.
  destruct p as [q| | |]; try discriminate. intros _.
  unfold py_round, py_close. apply Qle_bool_iff.
  eapply Qle_trans; [apply round_ndigits_near|].
  apply Qle_bool_iff. reflexivity.
Qed.

Lemma round2_positive (p : pyfloat) :
  py_le (Fin (1 # 100)) p = true -> py_lt (Fin 0) (py_round p 2) = true.
Proof.
  destruct p as [q| | |]; try discriminate; [|reflexivity].
  unfold py_round. simpl. intros H. qprop.
  pose proof (round_ndigits_ge 1 q 2) as Hge.
  change (inject_Z 1 / inject_Z (10 ^ Z.of_nat 2)) with ((1 # 1) / 100) in Hge.
  assert (Hq : (1 # 1) / 100 <= q)
    by (eapply Qle_trans; [|exact H]; apply Qle_bool_iff; reflexivity).
  specialize (Hge Hq).
  assert (Hpos : 0 < (1 # 1) / 100) by (apply Qlt_bool_iff; reflexivity).
  lra.
Qed.

Lemma corrected_abs (p : pyfloat) :
  isfinite p = true ->
  py_close (1 # 100) (py_round (corrected p) 2) (py_abs p) = true.
Proof.
  destruct p as [q| | |]; try discriminate. intros _.
  unfold corrected, py_lt, py_abs.
  destruct (Qlt_bool q 0) eqn:E.
  - now apply (round2_close (Fin (Qabs q))).
  - pose proof (round2_close (Fin q) eq_refl) as H.
    unfold py_round, py_close in *.
    apply Qle_bool_iff in H. apply Qle_bool_iff. apply Qlt_bool_false in E.
    assert (Eq : Qabs q == q) by (apply Qabs_pos; lra).
    rewrite Eq. exact H.
Qed.

(** C9, amended.  In [model_handler_fixed.py] a negative raw prediction is
    replaced by its absolute value, and the correction is logged: the
    handler goes on with that value, the returned strength is never
    negative, it agrees with the absolute value of the raw prediction to
    the second decimal (for a prediction of ordinary size), and it is
    positive for a raw prediction of -0.01 or below.  In [model_handler.py]
    no correction is made: a negative raw prediction only makes the call
    log an out-of-range warning, and the returned strength agrees with the
    raw prediction itself to the second decimal; it is negative for every
    raw prediction of -0.01 or below, and a negative raw prediction down
    to -0.005 is reported as zero. *)
Theorem negative_prediction_handling
    (self : ConcreteModelHandler) (inputs : dict pyfloat) (now : string)
    (r : PredictionResult) :
  (returned (ModelHandlerFixed.predict_strength self inputs now) = Some r ->
   exists X,
     feature_vector inputs (ModelHandlerFixed.feature_names self) = Some X /\
     py_le (Fin 0) (resistencia_predicha_kg_cm2 r) = true /\
     (py_le (py_abs (model self X)) (Fin 1000000) = true ->
      py_close (1 # 100) (resistencia_predicha_kg_cm2 r) (py_abs (model self X))
      = true) /\
     (py_lt (model self X) (Fin 0) = true ->
      In (WarningNegativeCorrected (py_abs (model self X)))
         (logged (ModelHandlerFixed.predict_strength self inputs now)) /\
      In (InfoSuccess (py_abs (model self X)))
         (logged (ModelHandlerFixed.predict_strength self inputs now)) /\
      (py_le (model self X) (Fin (-1 # 100)) = true ->
       py_lt (Fin 0) (resistencia_predicha_kg_cm2 r) = true))) /\
  (returned (ModelHandler.predict_strength self inputs now) = Some r ->
   exists X,
     feature_vector inputs (ModelHandler.feature_names self) = Some X /\
     (py_le (py_abs (model self X)) (Fin 1000000) = true ->
      py_close (1 # 100) (resistencia_predicha_kg_cm2 r) (model self X) = true) /\
     (py_lt (model self X) (Fin 0) = true ->
      In (WarningOutOfNormalRange (model self X))
         (logged (ModelHandler.predict_strength self inputs now)) /\
      forall p, ~ In (WarningNegativeCorrected p)
                  (logged (ModelHandler.predict_strength self inputs now))) /\
     (py_le (model self X) (Fin (-1 # 100)) = true ->
      py_lt (resistencia_predicha_kg_cm2 r) (Fin 0) = true) /\
     (py_le (Fin (-5 # 1000)) (model self X) = true ->
      py_lt (model self X) (Fin 0) = true ->
      py_eq (resistencia_predicha_kg_cm2 r) (Fin 0) = true)).
Proof.
  split; intros H; apply returned_inv in H.
  - pose proof (fixed_predict_inv _ _ _ _ _ H)
      as (X & agua & cemento & ratio & escoria & ceniza & edad
          & _ & HX & Hov & Hfin & _ & _ & _ & _ & _ & _ & Hlog & Hr).
    exists X.
    split; [now apply feature_vector_intro|].
    subst r. cbn [result_record resistencia_predicha_kg_cm2].
    destruct (corrected_nonneg _ Hfin) as [_ Hpos].
    split; [now apply py_round_nonneg|].
    split; [intros _; now apply corrected_abs|].
    intros Hneg. rewrite Hlog. unfold fixed_log, corrected. rewrite Hneg.
    split; [|split].
    + apply in_or_app. right. now left.
    + apply in_or_app. right. right. now left.
    + intros Hle. apply round2_positive.
      destruct (model self X) as [q| | |]; try discriminate Hfin.
      unfold py_abs, py_le in *. qprop.
      assert (Eq : Qabs q == - q) by (apply Qabs_neg; lra).
      rewrite Eq.
      assert (E : (1 # 100) == - (-1 # 100)) by reflexivity. lra.
  - pose proof (strict_predict_inv _ _ _ _ _ H)
      as (X & agua & cemento & ratio & escoria & ceniza & edad
          & _ & _ & HX & Hov & Hfin & _ & _ & _ & _ & _ & _ & Hlog & Hr).
    exists X.
    split; [now apply feature_vector_intro|].
    subst r. cbn [result_record resistencia_predicha_kg_cm2].
    split; [intros _; now apply round2_close|]. split; [|split].
    + intros Hneg. rewrite Hlog. unfold strict_log.
      rewrite (negative_outside_normal_range _ Hneg). split.
      * now left.
      * intros p [Hp|[Hp|[]]]; discriminate Hp.
    + apply round2_negative.
    + apply round2_small_negative.
Qed.

Lemma negative_prediction_handling_witness :
  let h := Samples.constant_handler (Fin (-50)) (Fin (1 # 100)) in
  exists r,
    returned (ModelHandlerFixed.predict_strength h Samples.C25_Estructural "t0")
    = Some r /\
    py_lt (Fin 0) (resistencia_predicha_kg_cm2 r) = true /\
    py_close (1 # 100) (resistencia_predicha_kg_cm2 r) (Fin 50) = true /\
    In (WarningNegativeCorrected (Fin 50))
       (logged (ModelHandlerFixed.predict_strength h Samples.C25_Estructural "t0")).
Proof.
  cbv zeta.
  set (h := Samples.constant_handler (Fin (-50)) (Fin (1 # 100))).
  destruct (ModelHandlerFixed.predict_strength h Samples.C25_Estructural "t0")
    as [l [r|e]] eqn:E; [|vm_compute in E; discriminate E].
  assert (Hret : returned (ModelHandlerFixed.predict_strength h
                             Samples.C25_Estructural "t0") = Some r)
    by (unfold returned; now rewrite E).
  destruct (proj1 (negative_prediction_handling h Samples.C25_Estructural "t0" r)
              Hret) as (X & _ & _ & Hclose & Hneg).
  destruct (Hneg eq_refl) as (Hlog & _ & Hpos).
  rewrite E in Hlog.
  exists r. split; [reflexivity|].
  split; [exact (Hpos eq_refl)|]. split; [exact (Hclose eq_refl) | exact Hlog].
Defined.

(* ================================================================== *)
(** ** More on the validators *)





Lemma extended_valid_iff (self : ConcreteModelHandler) (inputs : dict pyfloat) :
  fst (ModelHandlerFixed.validate_inputs self inputs) = true <->
  (forall f, In f CANONICAL_FEATURES -> dict_in f inputs = true) /\
  (forall f v min_val max_val,
      In (f, v) inputs ->
      dict_get ModelHandlerFixed.VALID_RANGES f = Some (min_val, max_val) ->
      py_le (fst (extended_range min_val max_val)) v
      && py_le v (snd (extended_range min_val max_val)) = true).
Proof.
  rewrite extended_valid_flag, length_zero_nil, extended_errors.
  change (ModelHandlerFixed.feature_names self) with CANONICAL_FEATURES.
  split.
  - intros H. apply app_eq_nil in H. destruct H as [Hm Hr]. split.
    + apply missing_features_nil.
      destruct (missing_features _ inputs); [reflexivity | discriminate Hm].
    + intros f v lo hi Hin Hlh.
      pose proof (proj1 (flat_map_nil _ _) Hr _ Hin) as Hv.
      unfold extended_range_violation in Hv. rewrite Hlh in Hv.
      destruct (extended_range lo hi) as [emin emax]. cbn [fst snd].
      destruct (py_le emin v && py_le v emax); [reflexivity | discriminate Hv].
  - intros [Hall Hr].
    apply (proj2 (missing_features_nil _ _)) in Hall. rewrite Hall. simpl.
    apply flat_map_nil. intros [f v] Hin. unfold extended_range_violation.
    destruct (dict_get ModelHandlerFixed.VALID_RANGES f) as [[lo hi]|] eqn:E;
      [|reflexivity].
    specialize (Hr f v lo hi Hin E).
    destruct (extended_range lo hi) as [emin emax]. cbn [fst snd] in Hr.
    now rewrite Hr.
Qed.



(** The recorded ranges of both tables, and how the widened range of
    [model_handler_fixed.py] sits around each of them. *)
Lemma strict_range_entry (f : string) (lo hi : pyfloat) :
  dict_get ModelHandler.VALID_RANGES f = Some (lo, hi) ->
  In f CANONICAL_FEATURES /\
  exists a b, lo = Fin a /\ hi = Fin b /\ 0 <= a /\ a <= b.
Proof.
  intros H. apply dict_get_In in H. simpl in H.
  repeat destruct H as [H|H]; try contradiction; inversion H; subst;
    (split; [simpl; tauto|]); do 2 eexists;
    repeat split; try reflexivity; apply Qle_bool_iff; reflexivity.
Qed.

Lemma fixed_range_entry (f : string) (lo hi : pyfloat) :
  dict_get ModelHandlerFixed.VALID_RANGES f = Some (lo, hi) ->
  In f CANONICAL_FEATURES /\
  exists a b a' b',
    lo = Fin a /\ hi = Fin b /\ extended_range lo hi = (Fin a', Fin b') /\
    0 <= a' /\ a' <= a /\ a <= b /\ b <= b'.
Proof.
  intros H. apply dict_get_In in H. simpl in H.
  repeat destruct H as [H|H]; try contradiction; inversion H; subst;
    (split; [simpl; tauto|]); do 4 eexists;
    (split; [reflexivity|]); (split; [reflexivity|]);
    (split; [vm_compute; reflexivity|]);
    repeat split; apply Qle_bool_iff; reflexivity.
Qed.

(** Every strict range lies inside the widened range of the same field. *)
Lemma strict_inside_extended (f : string) (lo' hi' : pyfloat) :
  dict_get ModelHandlerFixed.VALID_RANGES f = Some (lo', hi') ->
  exists a b a' b',
    dict_get ModelHandler.VALID_RANGES f = Some (Fin a, Fin b) /\
    extended_range lo' hi' = (Fin a', Fin b') /\
    a' <= a /\ b <= b'.
Proof.
  intros H. apply dict_get_In in H. simpl in H.
  repeat destruct H as [H|H]; try contradiction; inversion H; subst;
    do 4 eexists;
    (split; [reflexivity|]); (split; [vm_compute; reflexivity|]);
    split; apply Qle_bool_iff; reflexivity.
Qed.

Lemma strict_ok_extended_ok (item : string * pyfloat) :
  strict_range_violation item = [] -> extended_range_violation item = [].
Proof.
  destruct item as [f v]. unfold strict_range_violation, extended_range_violation.
  destruct (dict_get ModelHandlerFixed.VALID_RANGES f) as [[lo' hi']|] eqn:E;
    [|reflexivity].
  destruct (strict_inside_extended f lo' hi' E)
    as (a & b & a' & b' & Hs & He & Ha & Hb).
  rewrite Hs, He.
  destruct (py_le (Fin a) v && py_le v (Fin b)) eqn:Hin; [|discriminate].
  intros _. apply andb_prop in Hin. destruct Hin as [H1 H2].
  destruct (between_finite a b v H1 H2) as (q & -> & Hq1 & Hq2).
  simpl.
  assert (E1 : Qle_bool a' q = true) by (qprop; lra).
  assert (E2 : Qle_bool q b' = true) by (qprop; lra).
  now rewrite E1, E2.
Qed.





(** X3. The validator of [model_handler_fixed.py] is more permissive than
    that of [model_handler.py], as its comment says: an item the strict
    validator accepts is never reported by the fixed one, and a mix that is
    valid for [model_handler.py] (loaded with the canonical feature list)
    is valid for [model_handler_fixed.py], with no warning. *)
Theorem fixed_validator_more_permissive
    (self : ConcreteModelHandler) (inputs : dict pyfloat) :
  (forall item, strict_range_violation item = [] ->
                extended_range_violation item = []) /\
  (is_loaded self = true ->
   ModelHandler.feature_names self = CANONICAL_FEATURES ->
   fst (ModelHandler.validate_inputs self inputs) = true ->
   ModelHandlerFixed.validate_inputs self inputs = (true, [])).
Proof.
  split; [exact strict_ok_extended_ok|].
  intros _ Hnames HV.
  destruct (strict_valid_no_errors self inputs HV) as [Hm Hr].
  rewrite Hnames in Hm.
  assert (He : snd (ModelHandlerFixed.validate_inputs self inputs) = []).
  { rewrite extended_errors.
    change (ModelHandlerFixed.feature_names self) with CANONICAL_FEATURES.
    rewrite Hm. simpl. apply flat_map_nil. intros item Hin.
    apply strict_ok_extended_ok. exact (proj1 (flat_map_nil _ _) Hr item Hin). }
  rewrite (surjective_pairing (ModelHandlerFixed.validate_inputs self inputs)).
  now rewrite extended_valid_flag, He.
Qed.

Lemma fixed_validator_more_permissive_witness :
  ModelHandlerFixed.validate_inputs
    (Samples.constant_handler (Fin 300) (Fin (1 # 100))) Samples.all_at_min
  = (true, []).
Proof.
  apply (proj2 (fixed_validator_more_permissive
                  (Samples.constant_handler (Fin 300) (Fin (1 # 100)))
                  Samples.all_at_min)); reflexivity.
Defined.



(** X5. The widening of [model_handler_fixed.py] only adds room: its lower
    bound never goes below 0 nor above the recorded minimum, its upper
    bound never below the recorded maximum, so a mix with all eight
    features, each within its recorded [min, max], draws no warning. *)
Theorem extended_range_contains_recorded
    (self : ConcreteModelHandler) (inputs : dict pyfloat) :
  (forall f min_val max_val,
      dict_get ModelHandlerFixed.VALID_RANGES f = Some (min_val, max_val) ->
      py_le (Fin 0) (fst (extended_range min_val max_val)) = true /\
      py_le (fst (extended_range min_val max_val)) min_val = true /\
      py_le max_val (snd (extended_range min_val max_val)) = true) /\
  ((forall f, In f CANONICAL_FEATURES -> dict_in f inputs = true) ->
   (forall f v min_val max_val,
       In (f, v) inputs ->
       dict_get ModelHandlerFixed.VALID_RANGES f = Some (min_val, max_val) ->
       py_le min_val v && py_le v max_val = true) ->
   ModelHandlerFixed.validate_inputs self inputs = (true, [])).
Proof.
  split.
  - intros f lo hi H.
    destruct (fixed_range_entry f lo hi H)
      as (_ & a & b & a' & b' & -> & -> & He & H0 & Ha & _ & Hb).
    rewrite He. simpl. repeat split; qprop; lra.
  - intros Hall Hr.
    assert (HV : fst (ModelHandlerFixed.validate_inputs self inputs) = true).
    { apply (extended_valid_iff self inputs).
      split; [exact Hall|].
      intros f v lo hi Hin Hlh.
      specialize (Hr f v lo hi Hin Hlh).
      destruct (fixed_range_entry f lo hi Hlh)
        as (_ & a & b & a' & b' & -> & -> & He & H0 & Ha & _ & Hb).
      rewrite He. cbn [fst snd].
      apply andb_prop in Hr. destruct Hr as [H1 H2].
      destruct (between_finite a b v H1 H2) as (q & -> & Hq1 & Hq2).
      simpl. apply andb_true_intro. split; qprop; lra. }
    destruct (extended_valid_no_errors self inputs HV) as [Hm Hx].
    rewrite (surjective_pairing (ModelHandlerFixed.validate_inputs self inputs)).
    rewrite HV. f_equal. now rewrite extended_errors, Hm, Hx.
Qed.

Lemma extended_range_contains_recorded_witness :
  ModelHandlerFixed.validate_inputs
    (Samples.constant_handler (Fin 300) (Fin (1 # 100))) Samples.C25_Estructural
  = (true, []).
Proof.
  apply (proj2 (extended_range_contains_recorded
                  (Samples.constant_handler (Fin 300) (Fin (1 # 100)))
                  Samples.C25_Estructural)).
  - intros f Hf. simpl in Hf.
    repeat destruct Hf as [Hf|Hf]; try contradiction; subst; reflexivity.
  - intros f v lo hi Hin Hr. simpl in Hin.
    repeat destruct Hin as [Hin|Hin]; try contradiction;
      inversion Hin; subst; vm_compute in Hr; inversion Hr; subst; reflexivity.
Defined.

(* ================================================================== *)
(** ** How a prediction can end *)


Lemma py_truediv_returns (x y : pyfloat) :
  py_eq y (Fin 0) = false -> exists r, py_truediv x y = ([], Returns r).
Proof.
  unfold py_truediv. destruct y as [b| | |]; simpl.
  - intros ->. destruct x; eexists; reflexivity.
  - intros _. destruct x; eexists; reflexivity.
  - intros _. destruct x; eexists; reflexivity.
  - intros _. eexists; reflexivity.
Qed.

Lemma py_truediv_returns_inv (x y r : pyfloat) (l : list log_record) :
  py_truediv x y = (l, Returns r) -> py_eq y (Fin 0) = false.
Proof.
  unfold py_truediv. destruct y as [b| | |]; simpl; try reflexivity.
  destruct (Qeq_bool b 0); [discriminate | reflexivity].
Qed.






(* ================================================================== *)
(** ** The classification a result carries *)

Lemma result_record_triple (nec : string * string * string)
    (confidence prediction ratio cemento escoria ceniza edad : pyfloat)
    (now : string) :
  let r := result_record nec confidence prediction ratio cemento escoria ceniza
             edad now in
  (clasificacion_nec r, color_clasificacion r, descripcion_nec r) = nec.
Proof. destruct nec as [[a b] c]. reflexivity. Qed.

Lemma four_bands_not_fallback (a b c : Q) (t1 t2 t3 t4 : string * string * string)
    (q : Q) :
  0 <= q ->
  In (classify_in (four_bands a b c t1 t2 t3 t4) (Fin q)) [t1; t2; t3; t4].
Proof.
  intros Hq.
  destruct (four_bands_total a b c t1 t2 t3 t4 q Hq) as (b0 & Hin & _ & ->).
  unfold four_bands in Hin. simpl in Hin. simpl.
  repeat destruct Hin as [Hin|Hin]; try contradiction; subst; simpl; tauto.
Qed.

(** X8. The classification written into a result is that of the prediction
    the handler goes on with.  In a result of [model_handler_fixed.py] it is
    always the triple of one of the four bands, never "Sin Clasificar"; in a
    result of [model_handler.py] it is "Sin Clasificar" exactly when the raw
    prediction is negative. *)
Theorem result_classification
    (self : ConcreteModelHandler) (inputs : dict pyfloat) (now : string)
    (r : PredictionResult) :
  (returned (ModelHandlerFixed.predict_strength self inputs now) = Some r ->
   exists X,
     feature_vector inputs CANONICAL_FEATURES = Some X /\
     (clasificacion_nec r, color_clasificacion r, descripcion_nec r)
     = ModelHandlerFixed._classify_nec (corrected (model self X)) /\
     In (clasificacion_nec r, color_clasificacion r, descripcion_nec r)
        (map snd ModelHandlerFixed.NEC_CLASSIFICATION) /\
     clasificacion_nec r <> "Sin Clasificar") /\
  (returned (ModelHandler.predict_strength self inputs now) = Some r ->
   exists X,
     feature_vector inputs (ModelHandler.feature_names self) = Some X /\
     (clasificacion_nec r, color_clasificacion r, descripcion_nec r)
     = ModelHandler._classify_nec (model self X) /\
     (clasificacion_nec r = "Sin Clasificar" <->
      py_lt (model self X) (Fin 0) = true)).
Proof.
  split; intros H; apply returned_inv in H.
  - pose proof (fixed_predict_inv _ _ _ _ _ H)
      as (X & agua & cemento & ratio & escoria & ceniza & edad
          & _ & HX & Hov & Hfin & _ & _ & _ & _ & _ & _ & _ & Hr).
    exists X.
    split; [now apply feature_vector_intro|].
    subst r. rewrite result_record_triple.
    split; [reflexivity|].
    destruct (corrected_nonneg _ Hfin) as [Hcf Hpos].
    destruct (corrected (model self X)) as [q| | |]; try discriminate Hcf.
    simpl in Hpos. qprop.
    assert (Hin : In (ModelHandlerFixed._classify_nec (Fin q))
                     (map snd ModelHandlerFixed.NEC_CLASSIFICATION)).
    { apply (four_bands_not_fallback 140 280 420). exact Hpos. }
    split; [exact Hin|].
    cbn [result_record clasificacion_nec]. unfold triple_label.
    simpl in Hin.
    repeat destruct Hin as [Hin|Hin]; try contradiction;
      rewrite <- Hin; discriminate.
  - pose proof (strict_predict_inv _ _ _ _ _ H)
      as (X & agua & cemento & ratio & escoria & ceniza & edad
          & _ & _ & HX & Hov & Hfin & _ & _ & _ & _ & _ & _ & _ & Hr).
    exists X.
    split; [now apply feature_vector_intro|].
    subst r. rewrite result_record_triple.
    split; [reflexivity|].
    cbn [result_record clasificacion_nec]. unfold triple_label.
    destruct (model self X) as [q| | |] eqn:Ep; try discriminate Hfin.
    destruct (Qlt_le_dec q 0) as [Hneg|Hpos].
    + assert (Hlt : py_lt (Fin q) (Fin 0) = true) by (simpl; qprop; lra).
      unfold ModelHandler._classify_nec.
      change ModelHandler.NEC_CLASSIFICATION
        with (four_bands 210 280 420
                ("Baja Resistencia", "#ef4444", "Uso estructural limitado")
                ("Resistencia Normal", "#f97316", "Uso estructural común")
                ("Alta Resistencia", "#22c55e", "Estructuras exigentes")
                ("Ultra Alta Resistencia", "#3b82f6", "Estructuras especiales")).
      rewrite classify_in_below_zero; [|lra | exact Hlt].
      split; [intros _; exact Hlt | reflexivity].
    + assert (Hin : In (ModelHandler._classify_nec (Fin q))
                       (map snd ModelHandler.NEC_CLASSIFICATION)).
      { apply (four_bands_not_fallback 210 280 420). exact Hpos. }
      split.
      * intros Hl. exfalso. simpl in Hin.
        repeat destruct Hin as [Hin|Hin]; try contradiction;
          rewrite <- Hin in Hl; discriminate Hl.
      * intros Hlt. simpl in Hlt. qprop. lra.
Qed.

Lemma result_classification_witness :
  exists r,
    returned (ModelHandler.predict_strength
                (Samples.constant_handler (Fin (-50)) (Fin (1 # 100)))
                Samples.C25_Estructural "t0") = Some r /\
    clasificacion_nec r = "Sin Clasificar".
Proof.
  destruct (ModelHandler.predict_strength
              (Samples.constant_handler (Fin (-50)) (Fin (1 # 100)))
              Samples.C25_Estructural "t0") as [l [r|e]] eqn:E;
    [|vm_compute in E; discriminate E].
  assert (Hret : returned (ModelHandler.predict_strength
                             (Samples.constant_handler (Fin (-50)) (Fin (1 # 100)))
                             Samples.C25_Estructural "t0") = Some r)
    by (unfold returned; now rewrite E).
  destruct (proj2 (result_classification
                     (Samples.constant_handler (Fin (-50)) (Fin (1 # 100)))
                     Samples.C25_Estructural "t0" r) Hret)
    as (X & _ & _ & Hiff).
  exists r. split; [reflexivity|]. apply Hiff. reflexivity.
Defined.

Lemma round2_just_below_280 (p : Q) :
  279995 # 1000 < p -> p < 280 -> round_ndigits p 2 == 280.
Proof.
  intros H1 H2. unfold round_ndigits.
  change (inject_Z (10 ^ Z.of_nat 2)) with 100.
  rewrite (round_half_even_nearest 28000).
  - reflexivity.
  - change (inject_Z 28000) with 28000. lra.
  - change (inject_Z 28000) with 28000. lra.
Qed.

Lemma classify_normal_below_280 (a : Q) (t1 t2 t3 t4 : string * string * string)
    (p : Q) :
  a <= p -> p < 280 ->
  classify_in (four_bands a 280 420 t1 t2 t3 t4) (Fin p)
  = (if Qlt_bool p a then (if Qle_bool 0 p then t1 else t2) else t2).
Proof.
  intros H1 H2. unfold four_bands. simpl.
  assert (E1 : Qlt_bool p a = false)
    by (apply not_true_is_false; intros E; qprop; lra).
  assert (E2 : Qle_bool a p = true) by (qprop; lra).
  assert (E3 : Qlt_bool p 280 = true) by (qprop; lra).
  rewrite E1, E2, E3, andb_false_r. reflexivity.
Qed.

Lemma classify_alta_at_280 (a : Q) (t1 t2 t3 t4 : string * string * string)
    (q : Q) :
  0 < a /\ a < 280 -> q == 280 ->
  classify_in (four_bands a 280 420 t1 t2 t3 t4) (Fin q) = t3.
Proof.
  intros Ha Hq.
  apply (four_bands_lower_bound_inclusive a 280 420 t1 t2 t3 t4
           ltac:(lra) q ltac:(lra) ((Fin 280, Fin 420), t3) 280);
    [unfold four_bands; simpl; tauto | reflexivity | exact Hq].
Qed.

(** X9. The result classifies the prediction before rounding it.  When the
    prediction either handler goes on with lies strictly between 279.995
    and 280, the result reports the strength 280.00 together with the class
    "Resistencia Normal", although [_classify_nec] puts the reported
    strength itself into "Alta Resistencia". *)
Theorem reported_strength_may_belong_to_next_band
    (self : ConcreteModelHandler) (inputs : dict pyfloat) (now : string)
    (r : PredictionResult) (X : list pyfloat) (p : Q) :
  model self X = Fin p ->
  279995 # 1000 < p -> p < 280 ->
  (returned (ModelHandlerFixed.predict_strength self inputs now) = Some r ->
   feature_vector inputs CANONICAL_FEATURES = Some X ->
   py_eq (resistencia_predicha_kg_cm2 r) (Fin 280) = true /\
   clasificacion_nec r = "Resistencia Normal" /\
   triple_label (ModelHandlerFixed._classify_nec (resistencia_predicha_kg_cm2 r))
   = "Alta Resistencia") /\
  (returned (ModelHandler.predict_strength self inputs now) = Some r ->
   feature_vector inputs (ModelHandler.feature_names self) = Some X ->
   py_eq (resistencia_predicha_kg_cm2 r) (Fin 280) = true /\
   clasificacion_nec r = "Resistencia Normal" /\
   triple_label (ModelHandler._classify_nec (resistencia_predicha_kg_cm2 r))
   = "Alta Resistencia").
Proof.
  intros Hp H1 H2.
  pose proof (round2_just_below_280 p H1 H2) as Hround.
  split; intros H HX; apply returned_inv in H.
  - pose proof (fixed_predict_inv _ _ _ _ _ H)
      as (X' & agua & cemento & ratio & escoria & ceniza & edad
          & _ & HX' & _ & _ & _ & _ & _ & _ & _ & _ & _ & Hr).
    apply feature_vector_inv in HX. destruct HX as [HX _].
    change CANONICAL_FEATURES with (ModelHandlerFixed.feature_names self) in HX.
    rewrite HX' in HX. inversion HX; subst X'.
    subst r. cbn [result_record resistencia_predicha_kg_cm2 clasificacion_nec].
    rewrite Hp.
    assert (Hc : corrected (Fin p) = Fin p).
    { unfold corrected. simpl.
      assert (E : Qlt_bool p 0 = false)
        by (apply not_true_is_false; intros E; qprop; lra).
      now rewrite E. }
    rewrite Hc. unfold py_round.
    repeat split.
    + simpl. qprop. exact Hround.
    + unfold ModelHandlerFixed._classify_nec, triple_label.
      change ModelHandlerFixed.NEC_CLASSIFICATION
        with (four_bands 140 280 420
                ("Baja Resistencia", "#ef4444", "Uso estructural limitado")
                ("Resistencia Normal", "#f97316", "Uso estructural común")
                ("Alta Resistencia", "#22c55e", "Estructuras exigentes")
                ("Ultra Alta Resistencia", "#3b82f6", "Estructuras especiales")).
      rewrite classify_normal_below_280; [|lra|lra].
      assert (E : Qlt_bool p 140 = false)
        by (apply not_true_is_false; intros E; qprop; lra).
      now rewrite E.
    + unfold ModelHandlerFixed._classify_nec, triple_label.
      change ModelHandlerFixed.NEC_CLASSIFICATION
        with (four_bands 140 280 420
                ("Baja Resistencia", "#ef4444", "Uso estructural limitado")
                ("Resistencia Normal", "#f97316", "Uso estructural común")
                ("Alta Resistencia", "#22c55e", "Estructuras exigentes")
                ("Ultra Alta Resistencia", "#3b82f6", "Estructuras especiales")).
      rewrite classify_alta_at_280; [reflexivity | lra | exact Hround].
  - pose proof (strict_predict_inv _ _ _ _ _ H)
      as (X' & agua & cemento & ratio & escoria & ceniza & edad
          & _ & _ & HX' & _ & _ & _ & _ & _ & _ & _ & _ & _ & Hr).
    apply feature_vector_inv in HX. destruct HX as [HX _].
    rewrite HX' in HX. inversion HX; subst X'.
    subst r. cbn [result_record resistencia_predicha_kg_cm2 clasificacion_nec].
    rewrite Hp. unfold py_round.
    repeat split.
    + simpl. qprop. exact Hround.
    + unfold ModelHandler._classify_nec, triple_label.
      change ModelHandler.NEC_CLASSIFICATION
        with (four_bands 210 280 420
                ("Baja Resistencia", "#ef4444", "Uso estructural limitado")
                ("Resistencia Normal", "#f97316", "Uso estructural común")
                ("Alta Resistencia", "#22c55e", "Estructuras exigentes")
                ("Ultra Alta Resistencia", "#3b82f6", "Estructuras especiales")).
      rewrite classify_normal_below_280; [|lra|lra].
      assert (E : Qlt_bool p 210 = false)
        by (apply not_true_is_false; intros E; qprop; lra).
      now rewrite E.
    + unfold ModelHandler._classify_nec, triple_label.
      change ModelHandler.NEC_CLASSIFICATION
        with (four_bands 210 280 420
                ("Baja Resistencia", "#ef4444", "Uso estructural limitado")
                ("Resistencia Normal", "#f97316", "Uso estructural común")
                ("Alta Resistencia", "#22c55e", "Estructuras exigentes")
                ("Ultra Alta Resistencia", "#3b82f6", "Estructuras especiales")).
      rewrite classify_alta_at_280; [reflexivity | lra | exact Hround].
Qed.

Lemma reported_strength_may_belong_to_next_band_witness :
  exists r,
    returned (ModelHandlerFixed.predict_strength
                (Samples.constant_handler (Fin (279999 # 1000)) (Fin (1 # 100)))
                Samples.C25_Estructural "t0") = Some r /\
    py_eq (resistencia_predicha_kg_cm2 r) (Fin 280) = true /\
    clasificacion_nec r = "Resistencia Normal".
Proof.
  destruct (ModelHandlerFixed.predict_strength
              (Samples.constant_handler (Fin (279999 # 1000)) (Fin (1 # 100)))
              Samples.C25_Estructural "t0") as [l [r|e]] eqn:E;
    [|vm_compute in E; discriminate E].
  assert (Hret : returned (ModelHandlerFixed.predict_strength
                   (Samples.constant_handler (Fin (279999 # 1000)) (Fin (1 # 100)))
                   Samples.C25_Estructural "t0") = Some r)
    by (unfold returned; now rewrite E).
  assert (H1 : 279995 # 1000 < 279999 # 1000) by reflexivity.
  assert (H2 : 279999 # 1000 < 280) by reflexivity.
  destruct (proj1 (reported_strength_may_belong_to_next_band
                     (Samples.constant_handler (Fin (279999 # 1000)) (Fin (1 # 100)))
                     Samples.C25_Estructural "t0" r
                     [Fin 320; Fin 80; Fin 20; Fin 165; Fin 4; Fin 975; Fin 775; Fin 28]
                     (279999 # 1000) eq_refl H1 H2) Hret eq_refl)
    as (Heq & Hlab & _).
  exists r. split; [reflexivity|]. split; assumption.
Defined.

(* ================================================================== *)
(** ** The helpers of utils.py against the handlers *)

(** X10. [calculate_water_cement_ratio] of [utils.py]: for a cement equal
    to 0 it logs a warning and answers 0, whatever the water; otherwise,
    its operands being floats or ints within the range of binary64, it
    answers the quotient without logging, and does not raise.  For every
    result either handler returns, the ratio field is that answer (got
    without warning, for the water and the cement of the mix) rounded to
    three decimals, and the binder field is [calculate_total_cementitious]
    of the mix rounded to one decimal. *)
Theorem utils_helpers_match_result
    (self : ConcreteModelHandler) (inputs : dict pyfloat) (now : string)
    (r : PredictionResult) :
  (forall water cement,
      (py_eq cement (Fin 0) = true ->
       Utils.calculate_water_cement_ratio water cement
       = ([WarningZeroCement], Returns (Fin 0))) /\
      (py_eq cement (Fin 0) = false ->
       float64_overflows water = false ->
       float64_overflows cement = false ->
       exists v,
         Utils.calculate_water_cement_ratio water cement = ([], Returns v) /\
         py_truediv water cement = ([], Returns v))) /\
  (returned (ModelHandlerFixed.predict_strength self inputs now) = Some r \/
   returned (ModelHandler.predict_strength self inputs now) = Some r ->
   exists agua cemento escoria ceniza ratio,
     dict_get inputs "Agua_kg_m3" = Some agua /\
     dict_get inputs "Cemento_kg_m3" = Some cemento /\
     dict_get inputs "Escoria_Alto_Horno_kg_m3" = Some escoria /\
     dict_get inputs "Ceniza_Volante_kg_m3" = Some ceniza /\
     Utils.calculate_water_cement_ratio agua cemento = ([], Returns ratio) /\
     relacion_agua_cemento r = py_round ratio 3 /\
     total_cementicios_kg_m3 r
     = py_round (calculate_total_cementitious cemento escoria ceniza) 1).
Proof.
  split.
  - intros water cement. unfold Utils.calculate_water_cement_ratio. split.
    + now intros ->.
    + intros E _ _. rewrite E.
      destruct (py_truediv_returns water cement E) as [v Hv].
      exists v. now rewrite Hv.
  - assert (Hgen : forall agua cemento ratio,
               py_truediv agua cemento = ([], Returns ratio) ->
               Utils.calculate_water_cement_ratio agua cemento
               = ([], Returns ratio)).
    { intros agua cemento ratio Hd. unfold Utils.calculate_water_cement_ratio.
      now rewrite (py_truediv_returns_inv _ _ _ _ Hd). }
    intros [H|H]; apply returned_inv in H.
    + pose proof (fixed_predict_inv _ _ _ _ _ H)
        as (X & agua & cemento & ratio & escoria & ceniza & edad
            & _ & _ & _ & _ & Ha & Hc & Hd & He & Hz & _ & _ & Hr).
      exists agua, cemento, escoria, ceniza, ratio. subst r.
      repeat split; auto.
    + pose proof (strict_predict_inv _ _ _ _ _ H)
        as (X & agua & cemento & ratio & escoria & ceniza & edad
            & _ & _ & _ & _ & _ & Ha & Hc & Hd & He & Hz & _ & _ & Hr).
      exists agua, cemento, escoria, ceniza, ratio. subst r.
      repeat split; auto.
Qed.

Lemma utils_helpers_match_result_witness :
  exists r ratio,
    returned (ModelHandlerFixed.predict_strength
                (Samples.constant_handler (Fin 300) (Fin (1 # 100)))
                Samples.C25_Estructural "t0") = Some r /\
    Utils.calculate_water_cement_ratio (Fin 165) (Fin 320) = ([], Returns ratio) /\
    relacion_agua_cemento r = py_round ratio 3.
Proof.
  destruct (ModelHandlerFixed.predict_strength
              (Samples.constant_handler (Fin 300) (Fin (1 # 100)))
              Samples.C25_Estructural "t0") as [l [r|e]] eqn:E;
    [|vm_compute in E; discriminate E].
  assert (Hret : returned (ModelHandlerFixed.predict_strength
                   (Samples.constant_handler (Fin 300) (Fin (1 # 100)))
                   Samples.C25_Estructural "t0") = Some r)
    by (unfold returned; now rewrite E).
  destruct (proj2 (utils_helpers_match_result
                     (Samples.constant_handler (Fin 300) (Fin (1 # 100)))
                     Samples.C25_Estructural "t0" r) (or_introl Hret))
    as (agua & cemento & escoria & ceniza & ratio & Ha & Hc & _ & _ & Hu & Hr & _).
  vm_compute in Ha. vm_compute in Hc.
  inversion Ha; subst agua. inversion Hc; subst cemento.
  exists r, ratio. split; [reflexivity|]. split; assumption.
Defined.

(* ================================================================== *)
(** ** Colours: utils.py and the gauge against the band tables *)

Lemma fixed_color_cases (q : Q) :
  0 <= q ->
  triple_color (ModelHandlerFixed._classify_nec (Fin q))
  = (if Qlt_bool q 140 then "#ef4444"
     else if Qlt_bool q 280 then "#f97316"
     else if Qlt_bool q 420 then "#22c55e"
     else "#3b82f6").
Proof.
  intros Hq.
  unfold ModelHandlerFixed._classify_nec, ModelHandlerFixed.NEC_CLASSIFICATION,
    triple_color.
  simpl.
  assert (E0 : Qle_bool 0 q = true) by (qprop; lra).
  rewrite E0. simpl.
  destruct (Qlt_bool q 140) eqn:E1; [reflexivity|].
  assert (E140 : Qle_bool 140 q = true) by (qprop; lra).
  rewrite E140. simpl.
  destruct (Qlt_bool q 280) eqn:E2; [reflexivity|].
  assert (E280 : Qle_bool 280 q = true) by (qprop; lra).
  rewrite E280. simpl.
  destruct (Qlt_bool q 420) eqn:E3; [reflexivity|].
  assert (E420 : Qle_bool 420 q = true) by (qprop; lra).
  rewrite E420. reflexivity.
Qed.

Lemma red_against_orange (q : Q) :
  140 <= q -> q < 210 ->
  Utils.get_nec_color (Fin q) = "#ef4444" /\
  triple_color (ModelHandlerFixed._classify_nec (Fin q)) = "#f97316".
Proof.
  intros H1 H2. rewrite (fixed_color_cases q) by lra.
  unfold Utils.get_nec_color. simpl.
  assert (E1 : Qlt_bool q 210 = true) by (qprop; lra).
  assert (E2 : Qlt_bool q 140 = false)
    by (apply not_true_is_false; intros E; qprop; lra).
  assert (E3 : Qlt_bool q 280 = true) by (qprop; lra).
  now rewrite E1, E2, E3.
Qed.

(** X11. [get_nec_color] of [utils.py] follows the band table of
    [model_handler.py], not the one of [model_handler_fixed.py]: on a
    strength from 140 up to, but not including, 210 it answers the red of
    the lowest band while the classifier of the fixed handler answers the
    orange of "Resistencia Normal"; on every other non-negative strength the
    two agree. *)
Theorem get_nec_color_vs_fixed_classifier (q : Q) :
  0 <= q ->
  (140 <= q -> q < 210 ->
   Utils.get_nec_color (Fin q) = "#ef4444" /\
   triple_color (ModelHandlerFixed._classify_nec (Fin q)) = "#f97316") /\
  (q < 140 \/ 210 <= q ->
   Utils.get_nec_color (Fin q)
   = triple_color (ModelHandlerFixed._classify_nec (Fin q))).
Proof.
  intros Hq. split; [apply red_against_orange|].
  rewrite (fixed_color_cases q Hq).
  unfold Utils.get_nec_color. simpl.
  intros [H|H].
  - assert (E1 : Qlt_bool q 210 = true) by (qprop; lra).
    assert (E2 : Qlt_bool q 140 = true) by (qprop; lra).
    now rewrite E1, E2.
  - assert (E1 : Qlt_bool q 210 = false)
      by (apply not_true_is_false; intros E; qprop; lra).
    assert (E2 : Qlt_bool q 140 = false)
      by (apply not_true_is_false; intros E; qprop; lra).
    now rewrite E1, E2.
Qed.

Lemma get_nec_color_vs_fixed_classifier_witness :
  Utils.get_nec_color (Fin 150) = "#ef4444" /\
  triple_color (ModelHandlerFixed._classify_nec (Fin 150)) = "#f97316".
Proof.
  assert (H0 : 0 <= 150) by (apply Qle_bool_iff; reflexivity).
  assert (H1 : 140 <= 150) by (apply Qle_bool_iff; reflexivity).
  assert (H2 : 150 < 210) by reflexivity.
  exact (proj1 (get_nec_color_vs_fixed_classifier 150 H0) H1 H2).
Defined.

(** X12. [CircularGauge.set_value] keeps the value between the bounds of
    the gauge; on the gauge of the main window (0 to 600) a negative value
    is shown as 0 and a NaN as 600.  The arc colour [paintEvent] then picks
    is the colour [get_nec_color] gives the strength itself, for every
    non-negative strength (also above 600); so on a strength from 140 up to
    210 the gauge is red although the fixed handler, which the window
    uses, classifies it with the orange of "Resistencia Normal". *)
Theorem gauge_value_and_colour (x : pyfloat) (q : Q) :
  (exists c, value (set_value main_gauge x) = Fin c /\
             _value_animated (set_value main_gauge x) = Fin c /\
             0 <= c /\ c <= 600) /\
  (py_lt x (Fin 0) = true -> value (set_value main_gauge x) = Fin 0) /\
  value (set_value main_gauge NaN) = Fin 600 /\
  (0 <= q ->
   paint_color (set_value main_gauge (Fin q)) = Utils.get_nec_color (Fin q)) /\
  (140 <= q -> q < 210 ->
   paint_color (set_value main_gauge (Fin q)) = "#ef4444" /\
   triple_color (ModelHandlerFixed._classify_nec (Fin q)) = "#f97316").
Proof.
  split; [|split; [|split; [reflexivity|split]]].
  - destruct (clamp_finite 0 600 ltac:(lra) x) as (c & Hc & H1 & H2).
    exists c. unfold set_value. cbn [value _value_animated min_value max_value
                                     main_gauge].
    rewrite Hc. auto.
  - intros Hx. unfold set_value.
    cbn [value min_value max_value main_gauge].
    destruct x as [p| | |]; simpl in Hx; try discriminate Hx.
    + qprop. unfold py_min, py_max. simpl.
      assert (E1 : Qlt_bool p 600 = true) by (qprop; lra).
      rewrite E1. simpl.
      assert (E2 : Qlt_bool 0 p = false)
        by (apply not_true_is_false; intros E; qprop; lra).
      now rewrite E2.
    + reflexivity.
  - intros Hq. unfold paint_color, set_value, Utils.get_nec_color.
    cbn [_value_animated min_value max_value main_gauge].
    unfold py_min, py_max. simpl.
    destruct (Qlt_bool q 600) eqn:E1; simpl.
    + destruct (Qlt_bool 0 q) eqn:E2; simpl; [reflexivity|].
      qprop. assert (E3 : Qlt_bool q 210 = true) by (qprop; lra).
      now rewrite E3.
    + qprop.
      assert (E3 : Qlt_bool q 210 = false)
        by (apply not_true_is_false; intros E; qprop; lra).
      assert (E4 : Qlt_bool q 280 = false)
        by (apply not_true_is_false; intros E; qprop; lra).
      assert (E5 : Qlt_bool q 420 = false)
        by (apply not_true_is_false; intros E; qprop; lra).
      now rewrite E3, E4, E5.
  - intros H1 H2.
    destruct (red_against_orange q H1 H2) as [Hc Hf].
    split; [|exact Hf]. rewrite <- Hc.
    unfold paint_color, set_value, Utils.get_nec_color.
    cbn [_value_animated min_value max_value main_gauge].
    unfold py_min, py_max. simpl.
    assert (E1 : Qlt_bool q 600 = true) by (qprop; lra).
    assert (E2 : Qlt_bool 0 q = true) by (qprop; lra).
    now rewrite E1, E2.
Qed.

Lemma gauge_value_and_colour_witness :
  paint_color (set_value main_gauge (Fin 150)) = "#ef4444" /\
  value (set_value main_gauge (Fin (-3))) = Fin 0.
Proof.
  assert (H1 : 140 <= 150) by (apply Qle_bool_iff; reflexivity).
  assert (H2 : 150 < 210) by reflexivity.
  destruct (gauge_value_and_colour (Fin (-3)) 150) as (_ & Hneg & _ & _ & Hcol).
  split.
  - exact (proj1 (Hcol H1 H2)).
  - exact (Hneg eq_refl).
Defined.

(* ================================================================== *)
(** ** The confidence, in closed form *)

(** X13. Where the confidence saturates.  In [model_handler.py] it is the
    top value 0.95 for every stability up to 0.005 and the floor 0.6 from
    0.04 on; in [model_handler_fixed.py] it is 0.95 up to 0.05 and the
    floor 0.7 from 0.3 on.  A NaN stability gives the top value in both
    files, as does minus infinity; plus infinity gives the floor. *)
Theorem confidence_saturation (s : Q) :
  (s <= 5 # 1000 -> ModelHandler.confidence_of (Fin s) = Fin (95 # 100)) /\
  (4 # 100 <= s -> ModelHandler.confidence_of (Fin s) = Fin (6 # 10)) /\
  (s <= 5 # 100 -> ModelHandlerFixed.confidence_of (Fin s) = Fin (95 # 100)) /\
  (3 # 10 <= s -> ModelHandlerFixed.confidence_of (Fin s) = Fin (7 # 10)) /\
  ModelHandler.confidence_of NaN = Fin (95 # 100) /\
  ModelHandlerFixed.confidence_of NaN = Fin (95 # 100) /\
  ModelHandler.confidence_of NInf = Fin (95 # 100) /\
  ModelHandlerFixed.confidence_of NInf = Fin (95 # 100) /\
  ModelHandler.confidence_of PInf = Fin (6 # 10) /\
  ModelHandlerFixed.confidence_of PInf = Fin (7 # 10).
Proof.
  unfold ModelHandler.confidence_of, ModelHandlerFixed.confidence_of,
    py_max, py_min, py_sub.
  simpl.
  repeat split; try reflexivity; intros;
    repeat match goal with
    | |- context [Qlt_bool ?x ?y] =>
        let E := fresh "E" in destruct (Qlt_bool x y) eqn:E; simpl
    end;
    try reflexivity; qprop; exfalso; lra.
Qed.

Lemma confidence_saturation_witness :
  ModelHandler.confidence_of (Fin (1 # 10)) = Fin (6 # 10) /\
  ModelHandlerFixed.confidence_of (Fin (1 # 100)) = Fin (95 # 100).
Proof.
  assert (H1 : 4 # 100 <= 1 # 10) by (apply Qle_bool_iff; reflexivity).
  assert (H2 : 1 # 100 <= 5 # 100) by (apply Qle_bool_iff; reflexivity).
  destruct (confidence_saturation (1 # 10)) as (_ & Hfloor & _).
  destruct (confidence_saturation (1 # 100)) as (_ & _ & Htop & _).
  split; [exact (Hfloor H1) | exact (Htop H2)].
Defined.

(** X14. For every stability the metadata may hold, the confidence of
    [model_handler_fixed.py] is at least the confidence of
    [model_handler.py]. *)
Theorem fixed_confidence_at_least_original (estabilidad : pyfloat) :
  py_le (ModelHandler.confidence_of estabilidad)
        (ModelHandlerFixed.confidence_of estabilidad) = true.
Proof.
  unfold ModelHandler.confidence_of, ModelHandlerFixed.confidence_of,
    py_max, py_min, py_sub.
  destruct estabilidad as [s| | |]; simpl; try reflexivity.
  repeat match goal with
  | |- context [Qlt_bool ?x ?y] =>
      let E := fresh "E" in destruct (Qlt_bool x y) eqn:E; simpl
  end;
  qprop; lra.
Qed.

(* ================================================================== *)
(** ** Feature importances *)

Lemma py_lt_le_true (x y : pyfloat) : py_lt x y = true -> py_le x y = true.
Proof.
  destruct x, y; simpl; try easy.
  intros H. qprop. lra.
Qed.

Lemma dict_set_keys_old {V : Type} (d : dict V) (k : string) (v : V) :
  In k (keys d) -> keys (dict_set d k v) = keys d.
Proof.
  unfold keys. induction d as [|[k' v'] d IH]; simpl; [intros []|].
  destruct (String.eqb k' k) eqn:E; [reflexivity|].
  intros [H|H].
  - subst. rewrite String.eqb_refl in E. discriminate E.
  - simpl. now rewrite IH.
Qed.

Lemma dict_set_new {V : Type} (d : dict V) (k : string) (v : V) :
  ~ In k (keys d) -> dict_set d k v = d ++ [(k, v)].
Proof.
  unfold keys. induction d as [|[k' v'] d IH]; simpl; [reflexivity|].
  intros H. destruct (String.eqb k' k) eqn:E.
  - apply String.eqb_eq in E. tauto.
  - rewrite IH; [reflexivity | tauto].
Qed.

Lemma dict_set_NoDup {V : Type} (d : dict V) (k : string) (v : V) :
  NoDup (keys d) -> NoDup (keys (dict_set d k v)).
Proof.
  intros Hd. destruct (in_dec string_dec k (keys d)) as [Hin|Hout].
  - now rewrite dict_set_keys_old.
  - rewrite dict_set_new by exact Hout. unfold keys in *.
    rewrite map_app. simpl.
    apply NoDup_app; [exact Hd | repeat constructor; intros [] |].
    intros x Hx [<-|[]]. contradiction.
Qed.

Lemma dict_set_finite (d : dict pyfloat) (k : string) (v : pyfloat) :
  Forall (fun kv => isfinite (snd kv) = true) d -> isfinite v = true ->
  Forall (fun kv => isfinite (snd kv) = true) (dict_set d k v).
Proof.
  intros Hd Hv. induction d as [|[k' v'] d IH]; simpl.
  - repeat constructor. exact Hv.
  - inversion Hd; subst.
    destruct (String.eqb k' k); constructor; auto.
Qed.

Lemma importance_dict_invariant (names : list string) (importances : list pyfloat) :
  Forall (fun i => isfinite i = true) importances ->
  NoDup (keys (importance_dict names importances)) /\
  Forall (fun kv => isfinite (snd kv) = true) (importance_dict names importances).
Proof.
  intros Hfin. unfold importance_dict.
  assert (Hitems : Forall (fun item : string * pyfloat => isfinite (snd item) = true)
                     (combine names importances)).
  { apply Forall_forall. intros [n i] Hin. apply in_combine_r in Hin.
    rewrite Forall_forall in Hfin. now apply Hfin. }
  assert (Hgen : forall items acc,
             Forall (fun item : string * pyfloat => isfinite (snd item) = true) items ->
             NoDup (keys acc) ->
             Forall (fun kv => isfinite (snd kv) = true) acc ->
             let d := fold_left
                        (fun (d : dict pyfloat) (item : string * pyfloat) =>
                           let (name, importance) := item in
                           let friendly_name := _get_friendly_name name in
                           dict_set d friendly_name (py_round importance 4))
                        items acc in
             NoDup (keys d) /\ Forall (fun kv => isfinite (snd kv) = true) d).
  { induction items as [|[n i] items IH]; intros acc Hi Hn Hf; simpl.
    - auto.
    - inversion Hi; subst. apply IH; [assumption | |].
      + now apply dict_set_NoDup.
      + apply dict_set_finite; [exact Hf|].
        now rewrite py_round_isfinite. }
  apply Hgen; [exact Hitems | constructor | constructor].
Qed.

Lemma insert_desc_perm (x : string * pyfloat) (l : list (string * pyfloat)) :
  Permutation (insert_desc x l) (x :: l).
Proof.
  induction l as [|y l IH]; simpl; [reflexivity|].
  destruct (py_lt (snd y) (snd x)); [reflexivity|].
  rewrite IH. apply perm_swap.
Qed.

Lemma value_ge_total (a b : string * pyfloat) :
  isfinite (snd a) = true -> isfinite (snd b) = true ->
  py_lt (snd a) (snd b) = false -> value_ge a b.
Proof.
  unfold value_ge. destruct (snd a), (snd b); simpl; try discriminate.
  intros _ _ H. qprop. exact H.
Qed.

Lemma value_ge_trans (a b c : string * pyfloat) :
  value_ge a b -> value_ge b c -> value_ge a c.
Proof.
  unfold value_ge. destruct (snd a), (snd b), (snd c); simpl; try easy.
  intros H1 H2. qprop. lra.
Qed.

Lemma insert_desc_sorted (x : string * pyfloat) (l : list (string * pyfloat)) :
  isfinite (snd x) = true ->
  Forall (fun kv => isfinite (snd kv) = true) l ->
  StronglySorted value_ge l ->
  StronglySorted value_ge (insert_desc x l).
Proof.
  intros Hx Hl Hs. induction l as [|y l IH]; simpl.
  - repeat constructor.
  - inversion Hl as [|? ? Hy Hl']; subst.
    inversion Hs as [|? ? Hs' Hall]; subst.
    destruct (py_lt (snd y) (snd x)) eqn:E.
    + assert (Hxy : value_ge x y) by (unfold value_ge; now apply py_lt_le_true).
      constructor; [exact Hs|]. constructor; [exact Hxy|].
      rewrite Forall_forall in *. intros z Hz.
      apply (value_ge_trans x y z); auto.
    + constructor; [now apply IH|].
      apply Forall_forall. intros z Hz.
      apply (Permutation_in _ (insert_desc_perm x l)) in Hz.
      destruct Hz as [<-|Hz].
      * now apply value_ge_total.
      * rewrite Forall_forall in Hall. now apply Hall.
Qed.

Lemma sorted_desc_spec (items : list (string * pyfloat)) :
  Forall (fun kv => isfinite (snd kv) = true) items ->
  Permutation (sorted_desc items) items /\
  StronglySorted value_ge (sorted_desc items).
Proof.
  intros Hfin. unfold sorted_desc.
  assert (Hgen : forall l acc,
             Forall (fun kv => isfinite (snd kv) = true) l ->
             Forall (fun kv => isfinite (snd kv) = true) acc ->
             StronglySorted value_ge acc ->
             Permutation (fold_left (fun acc x => insert_desc x acc) l acc)
                         (acc ++ l) /\
             StronglySorted value_ge
               (fold_left (fun acc x => insert_desc x acc) l acc)).
  { induction l as [|x l IH]; intros acc Hl Hacc Hs; simpl.
    - rewrite app_nil_r. split; [reflexivity | exact Hs].
    - inversion Hl; subst.
      destruct (IH (insert_desc x acc)) as [P S]; [assumption | | |].
      + apply Forall_forall. intros z Hz.
        apply (Permutation_in _ (insert_desc_perm x acc)) in Hz.
        rewrite Forall_forall in Hacc. destruct Hz as [<-|Hz]; auto.
      + now apply insert_desc_sorted.
      + split; [|exact S].
        rewrite P, insert_desc_perm. simpl.
        apply Permutation_middle. }
  destruct (Hgen items [] Hfin) as [P S]; [constructor | constructor|].
  split; [exact P | exact S].
Qed.

Lemma dict_of_items_id {V : Type} (items : list (string * V)) :
  NoDup (keys items) -> dict_of_items items = items.
Proof.
  intros Hn. unfold dict_of_items.
  assert (Hgen : forall l acc,
             NoDup (keys (acc ++ l)) ->
             fold_left (fun d (kv : string * V) => dict_set d (fst kv) (snd kv))
                       l acc = acc ++ l).
  { induction l as [|[k v] l IH]; intros acc Hnd; simpl.
    - now rewrite app_nil_r.
    - rewrite dict_set_new.
      + rewrite IH; rewrite <- app_assoc; [reflexivity | exact Hnd].
      + unfold keys in *. rewrite map_app in Hnd. simpl in Hnd.
        apply NoDup_remove_2 in Hnd. intros Hin. apply Hnd.
        apply in_or_app. now left. }
  now apply (Hgen items []).
Qed.

(** The friendly names of the eight fields are pairwise distinct, and a
    name outside the mapping is kept as it is. *)
Lemma friendly_names_distinct :
  NoDup (map _get_friendly_name CANONICAL_FEATURES).
Proof.
  vm_compute.
  repeat (constructor; [simpl; intros H;
                        repeat destruct H as [H|H]; try discriminate H;
                        try contradiction|]).
  constructor.
Qed.

Lemma importance_dict_distinct (names : list string) (importances : list pyfloat) :
  NoDup (map _get_friendly_name names) ->
  importance_dict names importances
  = map (fun ni : string * pyfloat =>
           (_get_friendly_name (fst ni), py_round (snd ni) 4))
        (combine names importances).
Proof.
  intros Hn. unfold importance_dict.
  assert (Hgen : forall items acc,
             NoDup (keys acc ++ map (fun ni : string * pyfloat =>
                                       _get_friendly_name (fst ni)) items) ->
             fold_left
               (fun (d : dict pyfloat) (item : string * pyfloat) =>
                  let (name, importance) := item in
                  let friendly_name := _get_friendly_name name in
                  dict_set d friendly_name (py_round importance 4))
               items acc
             = acc ++ map (fun ni : string * pyfloat =>
                             (_get_friendly_name (fst ni), py_round (snd ni) 4))
                          items).
  { induction items as [|[n i] items IH]; intros acc Hnd; simpl.
    - now rewrite app_nil_r.
    - simpl in Hnd. rewrite dict_set_new.
      + rewrite IH.
        * now rewrite <- app_assoc.
        * unfold keys. rewrite map_app. simpl. now rewrite <- app_assoc.
      + apply NoDup_remove_2 in Hnd. intros Hin. apply Hnd.
        apply in_or_app. now left. }
  apply (Hgen (combine names importances) []). simpl.
  assert (Hsub : forall (ns : list string) (imps : list pyfloat),
             NoDup (map _get_friendly_name ns) ->
             NoDup (map (fun ni : string * pyfloat => _get_friendly_name (fst ni))
                        (combine ns imps))).
  { induction ns as [|n ns IHn]; intros [|i imps] Hd; simpl; try constructor.
    - simpl in Hd. inversion Hd; subst. intros Hin. apply H1.
      apply in_map_iff in Hin. destruct Hin as ([n' i'] & Heq & Hin').
      apply in_combine_l in Hin'. simpl in Heq. rewrite <- Heq.
      now apply in_map.
    - simpl in Hd. inversion Hd; subst. now apply IHn. }
  now apply Hsub.
Qed.

Lemma dict_get_of_In {V : Type} (d : dict V) (k : string) (v : V) :
  NoDup (keys d) -> In (k, v) d -> dict_get d k = Some v.
Proof.
  unfold keys, dict_get. induction d as [|[k' v'] d IH]; simpl; [intros _ []|].
  intros Hn [H|H].
  - inversion H; subst. now rewrite String.eqb_refl.
  - inversion Hn; subst. destruct (String.eqb k' k) eqn:E.
    + apply String.eqb_eq in E. subst. exfalso. apply H2.
      change k with (fst (k, v)). now apply in_map.
    + now apply IH.
Qed.

Lemma feature_importance_of_spec (names : list string) (importances : list pyfloat) :
  Forall (fun i => isfinite i = true) importances ->
  let out := get_feature_importance_of names true (Some importances) in
  StronglySorted value_ge out /\
  Permutation out (importance_dict names importances) /\
  NoDup (keys out).
Proof.
  intros Hfin. cbv zeta. unfold get_feature_importance_of. cbn [negb].
  destruct (importance_dict_invariant names importances Hfin) as [Hn Hf].
  destruct (sorted_desc_spec _ Hf) as [P S].
  assert (Hk : NoDup (keys (sorted_desc (importance_dict names importances)))).
  { unfold keys in *. apply (Permutation_NoDup (l := map fst (importance_dict names importances)));
      [|exact Hn].
    apply Permutation_map. symmetry. exact P. }
  rewrite (dict_of_items_id _ Hk). auto.
Qed.

(** X15. [get_feature_importance] answers the empty mapping when the
    handler is not loaded or the model has no [feature_importances_].
    Otherwise (finite importances) its items are those of the mapping built
    from the zipped feature names and importances, each key once, ordered
    by importance so that no item is followed by one of greater
    importance. *)
Theorem get_feature_importance_sorted
    (self : ConcreteModelHandler) (importances : list pyfloat) :
  get_feature_importance self None = [] /\
  get_feature_importance_fixed self None = [] /\
  (is_loaded self = false ->
   get_feature_importance self (Some importances) = [] /\
   get_feature_importance_fixed self (Some importances) = []) /\
  (is_loaded self = true ->
   Forall (fun i => isfinite i = true) importances ->
   (StronglySorted value_ge (get_feature_importance self (Some importances)) /\
    Permutation (get_feature_importance self (Some importances))
                (importance_dict (ModelHandler.feature_names self) importances) /\
    NoDup (keys (get_feature_importance self (Some importances)))) /\
   (StronglySorted value_ge (get_feature_importance_fixed self (Some importances)) /\
    Permutation (get_feature_importance_fixed self (Some importances))
                (importance_dict CANONICAL_FEATURES importances) /\
    NoDup (keys (get_feature_importance_fixed self (Some importances))))).
Proof.
  split; [reflexivity|]. split; [reflexivity|]. split.
  - intros HL. unfold get_feature_importance, get_feature_importance_fixed,
      get_feature_importance_of. now rewrite HL.
  - intros HL Hfin.
    unfold get_feature_importance, get_feature_importance_fixed. rewrite HL.
    split; now apply feature_importance_of_spec.
Qed.

Lemma get_feature_importance_sorted_witness :
  StronglySorted value_ge
    (get_feature_importance_fixed
       (Samples.constant_handler (Fin 300) (Fin (1 # 100)))
       (Some [Fin (2 # 10); Fin (5 # 10); Fin (3 # 10)])).
Proof.
  destruct (get_feature_importance_sorted
              (Samples.constant_handler (Fin 300) (Fin (1 # 100)))
              [Fin (2 # 10); Fin (5 # 10); Fin (3 # 10)])
    as (_ & _ & _ & H).
  destruct (H eq_refl) as [_ (S & _)].
  - repeat constructor.
  - exact S.
Defined.

(** X16. With the model of the application (importances for the eight
    features, all finite), [get_feature_importance] of
    [model_handler_fixed.py] holds exactly one item per feature that has an
    importance: its friendly name with the importance rounded to four
    decimals, which is what a lookup of that friendly name gives. *)
Theorem get_feature_importance_fixed_entries
    (self : ConcreteModelHandler) (importances : list pyfloat) :
  is_loaded self = true ->
  Forall (fun i => isfinite i = true) importances ->
  let out := get_feature_importance_fixed self (Some importances) in
  Permutation out
    (map (fun ni : string * pyfloat =>
            (_get_friendly_name (fst ni), py_round (snd ni) 4))
         (combine CANONICAL_FEATURES importances)) /\
  List.length out = Nat.min 8 (List.length importances) /\
  (forall name importance,
      In (name, importance) (combine CANONICAL_FEATURES importances) ->
      dict_get out (_get_friendly_name name) = Some (py_round importance 4)).
Proof.
  intros HL Hfin. cbv zeta.
  unfold get_feature_importance_fixed. rewrite HL.
  change (ModelHandlerFixed.feature_names self) with CANONICAL_FEATURES.
  destruct (feature_importance_of_spec CANONICAL_FEATURES importances Hfin)
    as (_ & P & Hn).
  rewrite (importance_dict_distinct _ _ friendly_names_distinct) in P.
  split; [exact P|]. split.
  - rewrite (Permutation_length P), length_map, length_combine. reflexivity.
  - intros name importance Hin.
    apply dict_get_of_In; [exact Hn|].
    apply (Permutation_in _ (Permutation_sym P)).
    apply in_map_iff. exists (name, importance). auto.
Qed.

Lemma get_feature_importance_fixed_entries_witness :
  dict_get
    (get_feature_importance_fixed
       (Samples.constant_handler (Fin 300) (Fin (1 # 100)))
       (Some [Fin (2 # 10); Fin (5 # 10); Fin (3 # 10)]))
    "Escoria de Alto Horno"
  = Some (py_round (Fin (5 # 10)) 4).
Proof.
  apply (proj2 (proj2 (get_feature_importance_fixed_entries
                         (Samples.constant_handler (Fin 300) (Fin (1 # 100)))
                         [Fin (2 # 10); Fin (5 # 10); Fin (3 # 10)]
                         eq_refl
                         ltac:(repeat constructor)))
           "Escoria_Alto_Horno_kg_m3" (Fin (5 # 10))).
  simpl. tauto.
Defined.

(* ================================================================== *)
(** ** The preset mixes *)

Lemma fixed_predict_valid_mix (self : ConcreteModelHandler)
    (inputs : dict pyfloat) (now : string) :
  is_loaded self = true ->
  ModelHandlerFixed.validate_inputs self inputs = (true, []) ->
  exists X,
    feature_vector inputs CANONICAL_FEATURES = Some X /\
    (isfinite (model self X) = true ->
     logged (ModelHandlerFixed.predict_strength self inputs now)
     = fixed_log (model self X) /\
     exists r,
       returned (ModelHandlerFixed.predict_strength self inputs now) = Some r).
Proof.
  intros HL HV.
  assert (HV' : fst (ModelHandlerFixed.validate_inputs self inputs) = true)
    by now rewrite HV.
  destruct (extended_valid_no_errors self inputs HV') as [Hm Hr].
  change (ModelHandlerFixed.feature_names self) with CANONICAL_FEATURES in Hm.
  destruct (extended_valid_mix inputs Hm Hr)
    as (X & water & cement & escoria & ceniza & edad
        & EX & Hov & Hw & Hc & Hpos & He & Hz & Hed).
  exists X. split; [now apply feature_vector_intro|].
  intros Hfin.
  assert (Hdiv : py_truediv (Fin water) (Fin cement)
                 = ([], Returns (Fin (water / cement))))
    by (apply py_truediv_finite; lra).
  rewrite (fixed_predict_run self inputs now X _ _ _ _ _ _
             HL EX Hov Hfin Hw Hc Hdiv He Hz Hed).
  rewrite HV. split; [reflexivity|]. eexists. reflexivity.
Qed.

(** X17. Every mix of [get_preset_mixes], of either file, is accepted
    without any violation by both validators, and [predict_strength] of
    [model_handler_fixed.py] returns a result for it, with no validation
    warning in the log, whenever the model answers a finite prediction. *)
Theorem preset_mixes_are_valid
    (self : ConcreteModelHandler) (now : string) (name : string)
    (mix : dict pyfloat) :
  is_loaded self = true ->
  In (name, mix) get_preset_mixes \/ In (name, mix) get_preset_mixes_fixed ->
  ModelHandlerFixed.validate_inputs self mix = (true, []) /\
  (ModelHandler.feature_names self = CANONICAL_FEATURES ->
   ModelHandler.validate_inputs self mix = (true, [])) /\
  exists X,
    feature_vector mix CANONICAL_FEATURES = Some X /\
    (isfinite (model self X) = true ->
     logged (ModelHandlerFixed.predict_strength self mix now)
     = fixed_log (model self X) /\
     exists r,
       returned (ModelHandlerFixed.predict_strength self mix now) = Some r).
Proof.
  intros HL Hin.
  assert (HF : ModelHandlerFixed.validate_inputs self mix = (true, [])).
  { destruct Hin as [Hin|Hin]; simpl in Hin;
      repeat destruct Hin as [Hin|Hin]; try contradiction;
      inversion Hin; subst; vm_compute; reflexivity. }
  split; [exact HF|]. split.
  - intros Hnames.
    rewrite (strict_validate_by_names self
               (Samples.constant_handler (Fin 0) (Fin 0)) mix Hnames).
    destruct Hin as [Hin|Hin]; simpl in Hin;
      repeat destruct Hin as [Hin|Hin]; try contradiction;
      inversion Hin; subst; vm_compute; reflexivity.
  - now apply fixed_predict_valid_mix.
Qed.

Lemma preset_mixes_are_valid_witness :
  ModelHandlerFixed.validate_inputs
    (Samples.constant_handler (Fin 300) (Fin (1 # 100)))
    Samples.C25_Estructural = (true, []).
Proof.
  assert (Hin : In ("C25 - Estructural", Samples.C25_Estructural) get_preset_mixes)
    by (simpl; right; left; reflexivity).
  exact (proj1 (preset_mixes_are_valid
                  (Samples.constant_handler (Fin 300) (Fin (1 # 100))) "t0"
                  "C25 - Estructural" Samples.C25_Estructural eq_refl
                  (or_introl Hin))).
Defined.
